(** * ilovehash.dev: similarity comparison and category slugs

    A shallow embedding of
      - [apps/web/src/lib/hash/similarity.ts]  (the similarity comparator)
      - [apps/web/src/lib/hash-metadata.ts]    (the algorithm registry and
        the category slug helpers)
    followed by the properties proved about them.

    The first half of the file holds the definitions, module by module and
    in the order of the TypeScript sources; the second half holds the
    lemmas. *)

From Stdlib Require Import List ZArith NArith QArith String Ascii Bool Lia.
Import ListNotations.

Set Implicit Arguments.

(* ================================================================== *)
(** * The JavaScript values the two source files work with *)
(* ================================================================== *)

Module Js.

(** A JavaScript string is a sequence of UTF-16 code units; [length],
    indexing, [slice], [===] and regular expressions without the [u] flag
    all work on code units. *)
Definition codeunit := N.
Definition jsstring := list codeunit.

(** A literal, written with one [ascii] per code unit. *)
Definition lit (s : string) : jsstring :=
  List.map N_of_ascii (list_ascii_of_string s).

(** [a === b] on strings. *)
Fixpoint str_eqb (a b : jsstring) : bool :=
  match a, b with
  | [], [] => true
  | x :: a', y :: b' => N.eqb x y && str_eqb a' b'
  | _, _ => false
  end.

Definition mem (k : jsstring) (l : list jsstring) : bool :=
  existsb (str_eqb k) l.

(** A call either completes normally or throws. *)
Inductive completion (A : Type) : Type :=
| Normal (a : A)
| Throw.
Arguments Throw {A}.

(** The settled state of the promise an [async] function returns. *)
Inductive promise (A : Type) : Type :=
| Fulfilled (a : A)
| Rejected.
Arguments Rejected {A}.

(** ** White space

    The code units matched by [\s] and removed by [trim] and by the
    leading-blank skipping of [parseInt]: WhiteSpace and LineTerminator of
    ECMA-262. *)
Definition isWhiteSpace (c : codeunit) : bool :=
  ((9 <=? c) && (c <=? 13)            (* TAB, LF, VT, FF, CR *)
   || (c =? 32) || (c =? 160)         (* SP, NBSP *)
   || (c =? 5760)                     (* U+1680 *)
   || ((8192 <=? c) && (c <=? 8202))  (* U+2000 .. U+200A *)
   || (c =? 8232) || (c =? 8233)      (* U+2028, U+2029 *)
   || (c =? 8239) || (c =? 8287)      (* U+202F, U+205F *)
   || (c =? 12288) || (c =? 65279))%N (* U+3000, U+FEFF *).

Fixpoint dropWhile (p : codeunit -> bool) (s : jsstring) : jsstring :=
  match s with
  | [] => []
  | c :: t => if p c then dropWhile p t else s
  end.

(** [s.trim()] *)
Definition trim (s : jsstring) : jsstring :=
  rev (dropWhile isWhiteSpace (rev (dropWhile isWhiteSpace s))).

(** [s.slice(a, b)] for [0 <= a <= b], the only way the sources call it. *)
Definition slice (s : jsstring) (a b : nat) : jsstring :=
  firstn (b - a) (skipn a s).

(** [s[i]]: a one-unit string, or [undefined] past the end. *)
Definition charAt (s : jsstring) (i : nat) : option jsstring :=
  option_map (fun c => [c]) (nth_error s i).

(** [x || d] for [x : string | undefined]: the empty string and
    [undefined] are falsy. *)
Definition orElse (x : option jsstring) (d : jsstring) : jsstring :=
  match x with
  | Some (c :: t) => c :: t
  | Some [] | None => d
  end.

(** ** [parseInt(s, 16)]

    [None] stands for [NaN].  The value of one hexadecimal digit: *)
Definition hexDigit (c : codeunit) : option Z :=
  if ((48 <=? c) && (c <=? 57))%N then Some (Z.of_N (c - 48))
  else if ((97 <=? c) && (c <=? 102))%N then Some (Z.of_N (c - 87))
  else if ((65 <=? c) && (c <=? 70))%N then Some (Z.of_N (c - 55))
  else None.

(** The value of the longest prefix of hexadecimal digits, read left to
    right with [acc] the value read so far. *)
Fixpoint hexPrefix (acc : Z) (s : jsstring) : Z :=
  match s with
  | [] => acc
  | c :: t =>
      match hexDigit c with
      | Some d => hexPrefix (16 * acc + d)%Z t
      | None => acc
      end
  end.

(** ECMA-262 [parseInt] with radix 16: skip leading white space, read an
    optional sign, strip an optional [0x]/[0X], then read the longest
    prefix of digits; no digit at all gives [NaN].  The result is an exact
    integer; a double holds it exactly up to 13 digits, and the sources
    pass 1 or 8 code units. ([-0] is read as [0]; every use below converts
    with [ToInt32] or [ToUint32], which do the same.) *)
Definition parseInt16 (s : jsstring) : option Z :=
  let s1 := dropWhile isWhiteSpace s in
  let '(sign, s2) :=
    match s1 with
    | c :: t =>
        if (c =? 45)%N then ((-1)%Z, t)        (* '-' *)
        else if (c =? 43)%N then (1%Z, t)      (* '+' *)
        else (1%Z, s1)
    | [] => (1%Z, s1)
    end in
  let s3 :=
    match s2 with
    | a :: b :: t =>
        if ((a =? 48) && ((b =? 120) || (b =? 88)))%N then t  (* 0x, 0X *)
        else s2
    | _ => s2
    end in
  match s3 with
  | [] => None
  | c :: _ =>
      match hexDigit c with
      | None => None
      | Some _ => Some (sign * hexPrefix 0 s3)%Z
      end
  end.

(** [ToInt32]: [NaN] becomes 0, an integer wraps into [-2^31, 2^31). *)
Definition toInt32 (x : option Z) : Z :=
  match x with
  | None => 0
  | Some v => ((v + 2 ^ 31) mod 2 ^ 32 - 2 ^ 31)%Z
  end.

(** [ToUint32], the conversion on a store into a [Uint32Array]. *)
Definition toUint32 (x : option Z) : Z :=
  match x with
  | None => 0
  | Some v => (v mod 2 ^ 32)%Z
  end.

(** ** Typed arrays

    [new Uint32Array(n)] is [n] zeroes; a store past the end is ignored. *)
Definition newUint32Array (n : nat) : list Z := repeat 0%Z n.

Fixpoint setAt (a : list Z) (i : nat) (v : Z) : list Z :=
  match a, i with
  | [], _ => []
  | _ :: t, O => v :: t
  | x :: t, S j => x :: setAt t j v
  end.

(** ** Plain objects used as string-keyed maps

    An object created by [{}] (or by [Object.fromEntries]) is its own
    properties, in insertion order, in front of [Object.prototype].  None
    of the keys the sources insert is an array index (see
    [registry_keys_plain] below), so insertion order is also the order
    of [Object.keys]. *)
Definition object (V : Type) := list (jsstring * V).

(** The properties every plain object inherits from [Object.prototype]:
    eleven functions and the [__proto__] accessor, all of them truthy. *)
Definition objectPrototypeKeys : list jsstring :=
  List.map lit
    [ "constructor"; "hasOwnProperty"; "isPrototypeOf";
      "propertyIsEnumerable"; "toLocaleString"; "toString"; "valueOf";
      "__defineGetter__"; "__defineSetter__"; "__lookupGetter__";
      "__lookupSetter__"; "__proto__" ]%string.

(** What [o[k]] evaluates to. *)
Inductive property (V : Type) : Type :=
| Own (v : V)                 (* an own property *)
| Inherited (k : jsstring)    (* the member [k] of [Object.prototype] *)
| Undefined.
Arguments Inherited {V} k.
Arguments Undefined {V}.

Fixpoint getOwn {V} (o : object V) (k : jsstring) : option V :=
  match o with
  | [] => None
  | (k', v) :: t => if str_eqb k k' then Some v else getOwn t k
  end.

Definition get {V} (o : object V) (k : jsstring) : property V :=
  match getOwn o k with
  | Some v => Own v
  | None => if mem k objectPrototypeKeys then Inherited k else Undefined
  end.

(** [CreateDataProperty]: overwrite in place, or append. *)
Fixpoint define {V} (o : object V) (k : jsstring) (v : V) : object V :=
  match o with
  | [] => [(k, v)]
  | (k', v') :: t =>
      if str_eqb k k' then (k', v) :: t else (k', v') :: define t k v
  end.

(** [o[k] = v]: as [define], except that [__proto__] reaches the inherited
    setter, which creates no own property. *)
Definition set {V} (o : object V) (k : jsstring) (v : V) : object V :=
  if str_eqb k (lit "__proto__") then o else define o k v.

(** Every array index is a non-empty string of decimal digits. *)
Definition isDigitString (k : jsstring) : bool :=
  match k with
  | [] => false
  | _ => forallb (fun c => (48 <=? c) && (c <=? 57))%N k
  end.

(** A key an object literal or an assignment stores as an ordinary own
    property, after the keys already there. *)
Definition plainKey (k : jsstring) : bool :=
  negb (isDigitString k) && negb (str_eqb k (lit "__proto__")).

(** No string occurs twice. *)
Fixpoint distinct (l : list jsstring) : bool :=
  match l with
  | [] => true
  | k :: t => negb (mem k t) && distinct t
  end.

Definition keys {V} (o : object V) : list jsstring := List.map fst o.
Definition entries {V} (o : object V) : list (jsstring * V) := o.

Definition fromEntries {V} (l : list (jsstring * V)) : object V :=
  fold_left (fun o kv => define o (fst kv) (snd kv)) l [].

End Js.

(* ================================================================== *)
(** * [lib/hash/similarity.ts] *)
(* ================================================================== *)

Module Similarity.
Import Js.

(** The four functions of the package [@ilovehash/sdk] the file calls.
    The package is not part of these sources, so it is an interface: any
    of the calls may throw.  The scores are numbers; the Nilsimsa
    correlation is an integer (the source documents -128 to 128). *)
Class Sdk : Type := {
  simhashHammingDistance : jsstring -> jsstring -> completion Q;
  simhashSimilarity : jsstring -> jsstring -> completion Q;
  minhashJaccard : list Z -> list Z -> completion Q;
  nilsimsaCompare : jsstring -> jsstring -> completion Z
}.

(** The three result shapes of the file. *)
Record DistanceSimilarity : Type := {
  ds_distance : Q;
  ds_similarity : Q
}.

Record SimilarityOnly : Type := {
  so_similarity : Q
}.

(** [{ distance?: number; similarity?: number }] *)
Record Metrics : Type := {
  distance : option Q;
  similarity : option Q
}.

Section Comparator.
Context {sdk : Sdk}.

(** [compareSimHash] *)
Definition compareSimHash (hash1 hash2 : jsstring)
  : completion DistanceSimilarity :=
  match simhashHammingDistance hash1 hash2 with
  | Throw => Throw
  | Normal d =>
      match simhashSimilarity hash1 hash2 with
      | Throw => Throw
      | Normal s => Normal {| ds_distance := d; ds_similarity := s |}
      end
  end.

(** One turn of the loop of [parseMinHashSignature]:
    [sig[i] = parseInt(hex.slice(i * 8, (i + 1) * 8), 16)]. *)
Definition parseStep (hex : jsstring) (sig : list Z) (i : nat) : list Z :=
  let hexValue := slice hex (i * 8) ((i + 1) * 8) in
  setAt sig i (toUint32 (parseInt16 hexValue)).

(** [parseMinHashSignature]; [None] is [null].  Nothing in the body
    throws, so its [catch] is never entered. *)
Definition parseMinHashSignature (hex : jsstring) : option (list Z) :=
  if negb (Nat.eqb (Nat.modulo (List.length hex) 8) 0) then None
  else
    let length := Nat.div (List.length hex) 8 in
    let sig := newUint32Array length in
    Some (fold_left (parseStep hex) (seq 0 length) sig).

(** [compareMinHash]; [None] is [null].  A typed array is truthy even
    when empty.  An exception of the SDK is caught (and logged), after
    which the function returns [null]. *)
Definition compareMinHash (hash1 hash2 : jsstring) : option SimilarityOnly :=
  let sig1 := parseMinHashSignature hash1 in
  let sig2 := parseMinHashSignature hash2 in
  match sig1, sig2 with
  | Some s1, Some s2 =>
      match minhashJaccard s1 s2 with
      | Normal s => Some {| so_similarity := s |}
      | Throw => None
      end
  | _, _ => None
  end.

(** [compareNilsimsa] *)
Definition compareNilsimsa (hash1 hash2 : jsstring)
  : completion DistanceSimilarity :=
  match nilsimsaCompare hash1 hash2 with
  | Throw => Throw
  | Normal compareResult =>
      let similarity := (inject_Z compareResult + 128) / 256 in
      let distance := 128 - inject_Z compareResult in
      Normal {| ds_distance := distance; ds_similarity := similarity |}
  end.

(** The bits counted for one position:
    [(xor & 1) + ((xor >> 1) & 1) + ((xor >> 2) & 1) + ((xor >> 3) & 1)]. *)
Definition lowNibbleBits (xor : Z) : Z :=
  (Z.land xor 1 + Z.land (Z.shiftr xor 1) 1
   + Z.land (Z.shiftr xor 2) 1 + Z.land (Z.shiftr xor 3) 1)%Z.

(** One turn of the loop of [hammingDistance]. *)
Definition hammingStep (hex1 hex2 : jsstring) (distance : Z) (i : nat) : Z :=
  let val1 := parseInt16 (orElse (charAt hex1 i) (lit "0")) in
  let val2 := parseInt16 (orElse (charAt hex2 i) (lit "0")) in
  let xor := Z.lxor (toInt32 val1) (toInt32 val2) in
  (distance + lowNibbleBits xor)%Z.

(** [hammingDistance] *)
Definition hammingDistance (hex1 hex2 : jsstring) : Z :=
  if negb (Nat.eqb (List.length hex1) (List.length hex2)) then (-1)%Z
  else fold_left (hammingStep hex1 hex2) (seq 0 (List.length hex1)) 0%Z.

Definition bothMetrics (r : DistanceSimilarity) : Metrics :=
  {| distance := Some (ds_distance r); similarity := Some (ds_similarity r) |}.

Definition similarityMetric (r : SimilarityOnly) : Metrics :=
  {| distance := None; similarity := Some (so_similarity r) |}.

Definition distanceMetric (d : Z) : Metrics :=
  {| distance := Some (inject_Z d); similarity := None |}.

(** The labels of the [switch], in source order. *)
Definition minhashIds : list jsstring :=
  [lit "minhash"; lit "bbitminhash"; lit "superminhash"].

(** [compareSimilarityHashes]: an [async] function, so an exception in
    the body rejects the returned promise.  [None] is [null]. *)
Definition compareSimilarityHashes (algorithm hash1 hash2 : jsstring)
  : promise (option Metrics) :=
  if str_eqb algorithm (lit "simhash") then
    match compareSimHash hash1 hash2 with
    | Normal r => Fulfilled (Some (bothMetrics r))
    | Throw => Rejected
    end
  else if mem algorithm minhashIds then
    Fulfilled (option_map similarityMetric (compareMinHash hash1 hash2))
  else if str_eqb algorithm (lit "nilsimsa") then
    match compareNilsimsa hash1 hash2 with
    | Normal r => Fulfilled (Some (bothMetrics r))
    | Throw => Rejected
    end
  else if str_eqb algorithm (lit "imatch") then
    Fulfilled (Some (distanceMetric (hammingDistance hash1 hash2)))
  else
    Fulfilled (Some (distanceMetric (hammingDistance hash1 hash2))).

End Comparator.

(** The ids with a metric of their own, and all ids the [switch] names. *)
Definition bespokeIds : list jsstring :=
  lit "simhash" :: minhashIds ++ [lit "nilsimsa"].

Definition dispatchIds : list jsstring := bespokeIds ++ [lit "imatch"].

(** How the loop of [hammingDistance] reads a code unit: a hexadecimal
    digit as itself, anything else as the digit [0]. *)
Definition asHexUnit (c : codeunit) : codeunit :=
  match hexDigit c with
  | Some _ => c
  | None => 48%N
  end.

Definition asHex (s : jsstring) : jsstring := List.map asHexUnit s.

(** An SDK whose four functions return fixed scores, to run the comparator
    on concrete inputs. *)
Definition fixedSdk (d s j : Q) (n : Z) : Sdk := {|
  simhashHammingDistance := fun _ _ => Normal d;
  simhashSimilarity := fun _ _ => Normal s;
  minhashJaccard := fun _ _ => Normal j;
  nilsimsaCompare := fun _ _ => Normal n
|}.

(** An SDK all of whose functions throw. *)
Definition throwingSdk : Sdk := {|
  simhashHammingDistance := fun _ _ => Throw;
  simhashSimilarity := fun _ _ => Throw;
  minhashJaccard := fun _ _ => Throw;
  nilsimsaCompare := fun _ _ => Throw
|}.

End Similarity.

(* ================================================================== *)
(** * [lib/hash-metadata.ts] *)
(* ================================================================== *)

Module Metadata.
Import Js.

Inductive AlgorithmUIMode : Type :=
| standard | password | similarity | hmac | hkdf.

Module Param.

Inductive ParameterType : Type := text | number | textarea.

Record ParameterConfig : Type := {
  id : jsstring;
  label : jsstring;
  type : ParameterType;
  required : bool;
  defaultValue : option (jsstring + Z);
  placeholder : option jsstring;
  min : option Z;
  max : option Z;
  generateRandom : option bool
}.

End Param.

(** [HashAlgorithm]; an optional field that is absent is [None].  The raw
    table has the type [Omit<HashAlgorithm, "demo">], that is [demo]
    absent. *)
Record HashAlgorithm : Type := {
  name : jsstring;
  description : jsstring;
  category : jsstring;
  nodeCryptoName : option jsstring;
  npmPackage : option jsstring;
  outputLength : option Z;
  isSlow : option bool;
  legacy : option bool;
  demo : option bool;
  uiMode : option AlgorithmUIMode;
  parameters : option (list Param.ParameterConfig);
  supportsComparison : option bool
}.

(** The entries of the object literal [RAW_HASH_ALGORITHMS], in the order
    they are written. *)
Definition RAW_HASH_ALGORITHMS_literal : list (jsstring * HashAlgorithm) := [
  (lit "md5",
   {| name := lit "MD5"; category := lit "Cryptographic";
      description := lit "Legacy MD5 hash - deprecated for security, use SHA-256 or BLAKE2 instead for any security needs";
      nodeCryptoName := Some (lit "md5"); npmPackage := None; outputLength := Some 16;
      isSlow := None; legacy := Some true; demo := None; uiMode := None;
      supportsComparison := None;
      parameters := None |});
  (lit "sha1",
   {| name := lit "SHA-1"; category := lit "Cryptographic";
      description := lit "Deprecated SHA-1 hash - cryptographically broken, use SHA-256 or SHA-3 for secure applications";
      nodeCryptoName := Some (lit "sha1"); npmPackage := None; outputLength := Some 20;
      isSlow := None; legacy := Some true; demo := None; uiMode := None;
      supportsComparison := None;
      parameters := None |});
  (lit "sha224",
   {| name := lit "SHA-224"; category := lit "SHA-2";
      description := lit "Secure SHA-224 cryptographic hash for digital signatures and certificates";
      nodeCryptoName := Some (lit "sha224"); npmPackage := None; outputLength := Some 28;
      isSlow := None; legacy := None; demo := None; uiMode := None;
      supportsComparison := None;
      parameters := None |});
  (lit "sha256",
   {| name := lit "SHA-256"; category := lit "SHA-2";
      description := lit "Industry-standard SHA-256 secure hash for blockchain, TLS, and digital security";
      nodeCryptoName := Some (lit "sha256"); npmPackage := None; outputLength := Some 32;
      isSlow := None; legacy := None; demo := None; uiMode := None;
      supportsComparison := None;
      parameters := None |});
  (lit "sha384",
   {| name := lit "SHA-384"; category := lit "SHA-2";
      description := lit "High-security SHA-384 hash for government and enterprise cryptographic applications";
      nodeCryptoName := Some (lit "sha384"); npmPackage := None; outputLength := Some 48;
      isSlow := None; legacy := None; demo := None; uiMode := None;
      supportsComparison := None;
      parameters := None |});
  (lit "sha512",
   {| name := lit "SHA-512"; category := lit "SHA-2";
      description := lit "Powerful SHA-512 cryptographic hash for maximum security and large data integrity";
      nodeCryptoName := Some (lit "sha512"); npmPackage := None; outputLength := Some 64;
      isSlow := None; legacy := None; demo := None; uiMode := None;
      supportsComparison := None;
      parameters := None |});
  (lit "sha512-224",
   {| name := lit "SHA-512/224"; category := lit "SHA-2";
      description := lit "Truncated SHA-512/224 hash - secure 224-bit output from SHA-512 algorithm";
      nodeCryptoName := Some (lit "sha512-224"); npmPackage := None; outputLength := Some 28;
      isSlow := None; legacy := None; demo := None; uiMode := None;
      supportsComparison := None;
      parameters := None |});
  (lit "sha512-256",
   {| name := lit "SHA-512/256"; category := lit "SHA-2";
      description := lit "Truncated SHA-512/256 hash - secure 256-bit output from SHA-512 algorithm";
      nodeCryptoName := Some (lit "sha512-256"); npmPackage := None; outputLength := Some 32;
      isSlow := None; legacy := None; demo := None; uiMode := None;
      supportsComparison := None;
      parameters := None |});
  (lit "ripemd160",
   {| name := lit "RIPEMD-160"; category := lit "Cryptographic";
      description := lit "European RIPEMD-160 cryptographic hash - alternative to SHA-1 for digital signatures";
      nodeCryptoName := Some (lit "ripemd160"); npmPackage := None; outputLength := Some 20;
      isSlow := None; legacy := None; demo := None; uiMode := None;
      supportsComparison := None;
      parameters := None |});
  (lit "sha3-224",
   {| name := lit "SHA-3-224"; category := lit "SHA-3";
      description := lit "Next-generation SHA-3-224 cryptographic hash with quantum-resistant security";
      nodeCryptoName := Some (lit "sha3-224"); npmPackage := None; outputLength := Some 28;
      isSlow := None; legacy := None; demo := None; uiMode := None;
      supportsComparison := None;
      parameters := None |});
  (lit "sha3-256",
   {| name := lit "SHA-3-256"; category := lit "SHA-3";
      description := lit "Future-proof SHA-3-256 hash algorithm replacing SHA-2 for enhanced security";
      nodeCryptoName := Some (lit "sha3-256"); npmPackage := None; outputLength := Some 32;
      isSlow := None; legacy := None; demo := None; uiMode := None;
      supportsComparison := None;
      parameters := None |});
  (lit "sha3-384",
   {| name := lit "SHA-3-384"; category := lit "SHA-3";
      description := lit "High-security SHA-3-384 hash for government and critical infrastructure protection";
      nodeCryptoName := Some (lit "sha3-384"); npmPackage := None; outputLength := Some 48;
      isSlow := None; legacy := None; demo := None; uiMode := None;
      supportsComparison := None;
      parameters := None |});
  (lit "sha3-512",
   {| name := lit "SHA-3-512"; category := lit "SHA-3";
      description := lit "Maximum-security SHA-3-512 hash for large data integrity and digital signatures";
      nodeCryptoName := Some (lit "sha3-512"); npmPackage := None; outputLength := Some 64;
      isSlow := None; legacy := None; demo := None; uiMode := None;
      supportsComparison := None;
      parameters := None |});
  (lit "keccak-224",
   {| name := lit "Keccak-224"; category := lit "Cryptographic";
      description := lit "Original Keccak-224 hash - foundation of SHA-3 standard for Ethereum and blockchain";
      nodeCryptoName := None; npmPackage := None; outputLength := Some 28;
      isSlow := None; legacy := None; demo := None; uiMode := None;
      supportsComparison := None;
      parameters := None |});
  (lit "keccak-256",
   {| name := lit "Keccak-256"; category := lit "Cryptographic";
      description := lit "Keccak-256 hash algorithm used in Ethereum blockchain and cryptocurrency security";
      nodeCryptoName := None; npmPackage := None; outputLength := Some 32;
      isSlow := None; legacy := None; demo := None; uiMode := None;
      supportsComparison := None;
      parameters := None |});
  (lit "keccak-384",
   {| name := lit "Keccak-384"; category := lit "Cryptographic";
      description := lit "High-security Keccak-384 cryptographic hash for advanced digital security applications";
      nodeCryptoName := None; npmPackage := None; outputLength := Some 48;
      isSlow := None; legacy := None; demo := None; uiMode := None;
      supportsComparison := None;
      parameters := None |});
  (lit "keccak-512",
   {| name := lit "Keccak-512"; category := lit "Cryptographic";
      description := lit "Maximum-security Keccak-512 hash for large-scale data integrity and encryption";
      nodeCryptoName := None; npmPackage := None; outputLength := Some 64;
      isSlow := None; legacy := None; demo := None; uiMode := None;
      supportsComparison := None;
      parameters := None |});
  (lit "shake128",
   {| name := lit "SHAKE128"; category := lit "SHAKE";
      description := lit "Flexible SHAKE128 extendable-output function - generate hashes of any length securely";
      nodeCryptoName := Some (lit "shake128"); npmPackage := None; outputLength := Some 32;
      isSlow := None; legacy := None; demo := None; uiMode := None;
      supportsComparison := None;
      parameters := Some [
       {| Param.id := lit "outputLength"; Param.label := lit "Output Length (bits)";
          Param.type := Param.number; Param.required := false;
          Param.defaultValue := Some (inr 256); Param.placeholder := Some (lit "Output length in bits");
          Param.min := Some 8; Param.max := Some 8192; Param.generateRandom := None |} ] |});
  (lit "shake256",
   {| name := lit "SHAKE256"; category := lit "SHAKE";
      description := lit "High-security SHAKE256 extendable-output function for customizable hash lengths";
      nodeCryptoName := Some (lit "shake256"); npmPackage := None; outputLength := Some 32;
      isSlow := None; legacy := None; demo := None; uiMode := None;
      supportsComparison := None;
      parameters := Some [
       {| Param.id := lit "outputLength"; Param.label := lit "Output Length (bits)";
          Param.type := Param.number; Param.required := false;
          Param.defaultValue := Some (inr 256); Param.placeholder := Some (lit "Output length in bits");
          Param.min := Some 8; Param.max := Some 8192; Param.generateRandom := None |} ] |});
  (lit "blake2b512",
   {| name := lit "BLAKE2b-512"; category := lit "BLAKE2";
      description := lit "Ultra-fast BLAKE2b-512 cryptographic hash with optional keying and personalization";
      nodeCryptoName := Some (lit "blake2b512"); npmPackage := None; outputLength := Some 64;
      isSlow := None; legacy := None; demo := None; uiMode := None;
      supportsComparison := None;
      parameters := Some [
       {| Param.id := lit "key"; Param.label := lit "Key (optional)";
          Param.type := Param.text; Param.required := false;
          Param.defaultValue := None; Param.placeholder := Some (lit "Enter key for keyed hashing");
          Param.min := None; Param.max := None; Param.generateRandom := None |};
       {| Param.id := lit "salt"; Param.label := lit "Salt (optional)";
          Param.type := Param.text; Param.required := false;
          Param.defaultValue := None; Param.placeholder := Some (lit "Enter salt");
          Param.min := None; Param.max := None; Param.generateRandom := Some true |};
       {| Param.id := lit "personalization"; Param.label := lit "Personalization (optional)";
          Param.type := Param.text; Param.required := false;
          Param.defaultValue := None; Param.placeholder := Some (lit "Enter personalization string");
          Param.min := None; Param.max := None; Param.generateRandom := None |};
       {| Param.id := lit "outputLength"; Param.label := lit "Output Length (bytes)";
          Param.type := Param.number; Param.required := false;
          Param.defaultValue := Some (inr 64); Param.placeholder := None;
          Param.min := Some 1; Param.max := Some 64; Param.generateRandom := None |} ] |});
  (lit "blake2s256",
   {| name := lit "BLAKE2s-256"; category := lit "BLAKE2";
      description := lit "Optimized BLAKE2s-256 hash for 32-bit platforms with excellent performance and security";
      nodeCryptoName := Some (lit "blake2s256"); npmPackage := None; outputLength := Some 32;
      isSlow := None; legacy := None; demo := None; uiMode := None;
      supportsComparison := None;
      parameters := Some [
       {| Param.id := lit "key"; Param.label := lit "Key (optional)";
          Param.type := Param.text; Param.required := false;
          Param.defaultValue := None; Param.placeholder := Some (lit "Enter key for keyed hashing");
          Param.min := None; Param.max := None; Param.generateRandom := None |};
       {| Param.id := lit "salt"; Param.label := lit "Salt (optional)";
          Param.type := Param.text; Param.required := false;
          Param.defaultValue := None; Param.placeholder := Some (lit "Enter salt");
          Param.min := None; Param.max := None; Param.generateRandom := Some true |};
       {| Param.id := lit "personalization"; Param.label := lit "Personalization (optional)";
          Param.type := Param.text; Param.required := false;
          Param.defaultValue := None; Param.placeholder := Some (lit "Enter personalization string");
          Param.min := None; Param.max := None; Param.generateRandom := None |};
       {| Param.id := lit "outputLength"; Param.label := lit "Output Length (bytes)";
          Param.type := Param.number; Param.required := false;
          Param.defaultValue := Some (inr 32); Param.placeholder := None;
          Param.min := Some 1; Param.max := Some 32; Param.generateRandom := None |} ] |});
  (lit "blake1-224",
   {| name := lit "BLAKE-224"; category := lit "Cryptographic";
      description := lit "Legacy BLAKE-224 hash - predecessor to BLAKE2, use BLAKE2b or BLAKE3 for new applications";
      nodeCryptoName := None; npmPackage := None; outputLength := Some 28;
      isSlow := None; legacy := Some true; demo := None; uiMode := None;
      supportsComparison := None;
      parameters := None |});
  (lit "blake1-256",
   {| name := lit "BLAKE-256"; category := lit "Cryptographic";
      description := lit "Legacy BLAKE-256 hash - original SHA-3 finalist, prefer BLAKE2s or BLAKE3 for modern use";
      nodeCryptoName := None; npmPackage := None; outputLength := Some 32;
      isSlow := None; legacy := Some true; demo := None; uiMode := None;
      supportsComparison := None;
      parameters := None |});
  (lit "blake1-384",
   {| name := lit "BLAKE-384"; category := lit "Cryptographic";
      description := lit "Legacy BLAKE-384 hash - older standard, upgrade to BLAKE2b or BLAKE3 for better performance";
      nodeCryptoName := None; npmPackage := None; outputLength := Some 48;
      isSlow := None; legacy := Some true; demo := None; uiMode := None;
      supportsComparison := None;
      parameters := None |});
  (lit "blake1-512",
   {| name := lit "BLAKE-512"; category := lit "Cryptographic";
      description := lit "Legacy BLAKE-512 hash - SHA-3 finalist, replaced by faster BLAKE2b and BLAKE3 algorithms";
      nodeCryptoName := None; npmPackage := None; outputLength := Some 64;
      isSlow := None; legacy := Some true; demo := None; uiMode := None;
      supportsComparison := None;
      parameters := None |});
  (lit "murmurhash",
   {| name := lit "MurmurHash"; category := lit "Non-cryptographic";
      description := lit "Popular MurmurHash algorithm - fast non-cryptographic hash for hash tables and cache keys";
      nodeCryptoName := None; npmPackage := None; outputLength := Some 4;
      isSlow := None; legacy := None; demo := None; uiMode := None;
      supportsComparison := None;
      parameters := None |});
  (lit "djb2",
   {| name := lit "DJB2"; category := lit "Non-cryptographic";
      description := lit "Classic djb2 hash by Daniel Bernstein - simple and fast for basic hash table applications";
      nodeCryptoName := None; npmPackage := None; outputLength := Some 4;
      isSlow := None; legacy := None; demo := None; uiMode := None;
      supportsComparison := None;
      parameters := None |});
  (lit "sdbm",
   {| name := lit "SDBM"; category := lit "Non-cryptographic";
      description := lit "SDBM hash function - reliable non-cryptographic hash for general-purpose data structures";
      nodeCryptoName := None; npmPackage := None; outputLength := Some 4;
      isSlow := None; legacy := None; demo := None; uiMode := None;
      supportsComparison := None;
      parameters := None |});
  (lit "fnv-1",
   {| name := lit "FNV-1"; category := lit "Non-cryptographic";
      description := lit "Classic FNV-1 hash - simple, fast non-cryptographic hash for general-purpose applications";
      nodeCryptoName := None; npmPackage := None; outputLength := Some 4;
      isSlow := None; legacy := None; demo := None; uiMode := None;
      supportsComparison := None;
      parameters := None |});
  (lit "fnv-1a",
   {| name := lit "FNV-1a"; category := lit "Non-cryptographic";
      description := lit "Improved FNV-1a hash - better avalanche effect for hash tables and data deduplication";
      nodeCryptoName := None; npmPackage := None; outputLength := Some 4;
      isSlow := None; legacy := None; demo := None; uiMode := None;
      supportsComparison := None;
      parameters := None |});
  (lit "crc-32",
   {| name := lit "CRC-32"; category := lit "Checksum";
      description := lit "Standard CRC-32 checksum for ZIP files and Ethernet - detects accidental data corruption";
      nodeCryptoName := None; npmPackage := None; outputLength := Some 4;
      isSlow := None; legacy := None; demo := None; uiMode := None;
      supportsComparison := None;
      parameters := None |});
  (lit "adler32",
   {| name := lit "Adler-32"; category := lit "Checksum";
      description := lit "Fast Adler-32 checksum used in zlib compression - optimized for speed over accuracy";
      nodeCryptoName := None; npmPackage := None; outputLength := Some 4;
      isSlow := None; legacy := None; demo := None; uiMode := None;
      supportsComparison := None;
      parameters := None |});
  (lit "crc-16",
   {| name := lit "CRC-16"; category := lit "Checksum";
      description := lit "Cyclic redundancy check (16-bit)";
      nodeCryptoName := None; npmPackage := None; outputLength := Some 2;
      isSlow := None; legacy := None; demo := None; uiMode := None;
      supportsComparison := None;
      parameters := None |});
  (lit "crc-8",
   {| name := lit "CRC-8"; category := lit "Checksum";
      description := lit "Cyclic redundancy check (8-bit)";
      nodeCryptoName := None; npmPackage := None; outputLength := Some 1;
      isSlow := None; legacy := None; demo := None; uiMode := None;
      supportsComparison := None;
      parameters := None |});
  (lit "crc-64",
   {| name := lit "CRC-64"; category := lit "Checksum";
      description := lit "Cyclic redundancy check (64-bit)";
      nodeCryptoName := None; npmPackage := None; outputLength := Some 8;
      isSlow := None; legacy := None; demo := None; uiMode := None;
      supportsComparison := None;
      parameters := None |});
  (lit "blake3",
   {| name := lit "BLAKE3"; category := lit "Modern";
      description := lit "Lightning-fast BLAKE3 cryptographic hash - 3x faster than BLAKE2 with parallel processing";
      nodeCryptoName := None; npmPackage := Some (lit "blake3"); outputLength := Some 32;
      isSlow := None; legacy := None; demo := None; uiMode := None;
      supportsComparison := None;
      parameters := Some [
       {| Param.id := lit "key"; Param.label := lit "Key (optional, for keyed hashing)";
          Param.type := Param.text; Param.required := false;
          Param.defaultValue := None; Param.placeholder := Some (lit "Enter key for keyed BLAKE3");
          Param.min := None; Param.max := None; Param.generateRandom := None |};
       {| Param.id := lit "outputLength"; Param.label := lit "Output Length (bytes)";
          Param.type := Param.number; Param.required := false;
          Param.defaultValue := Some (inr 32); Param.placeholder := None;
          Param.min := Some 1; Param.max := Some 64; Param.generateRandom := None |} ] |});
  (lit "cshake128",
   {| name := lit "cSHAKE128"; category := lit "Modern";
      description := lit "cSHAKE128 customizable XOF - domain-separated SHAKE128 for protocol customization and security";
      nodeCryptoName := None; npmPackage := None; outputLength := Some 32;
      isSlow := None; legacy := None; demo := None; uiMode := None;
      supportsComparison := None;
      parameters := Some [
       {| Param.id := lit "N"; Param.label := lit "Function Name (N)";
          Param.type := Param.text; Param.required := false;
          Param.defaultValue := None; Param.placeholder := Some (lit "Function name for domain separation");
          Param.min := None; Param.max := None; Param.generateRandom := None |};
       {| Param.id := lit "S"; Param.label := lit "Customization String (S)";
          Param.type := Param.text; Param.required := false;
          Param.defaultValue := None; Param.placeholder := Some (lit "Customization string");
          Param.min := None; Param.max := None; Param.generateRandom := None |};
       {| Param.id := lit "dkLen"; Param.label := lit "Output Length (bytes)";
          Param.type := Param.number; Param.required := false;
          Param.defaultValue := Some (inr 32); Param.placeholder := None;
          Param.min := Some 1; Param.max := Some 256; Param.generateRandom := None |} ] |});
  (lit "cshake256",
   {| name := lit "cSHAKE256"; category := lit "Modern";
      description := lit "cSHAKE256 customizable XOF - enhanced domain separation for cryptographic protocol design";
      nodeCryptoName := None; npmPackage := None; outputLength := Some 32;
      isSlow := None; legacy := None; demo := None; uiMode := None;
      supportsComparison := None;
      parameters := Some [
       {| Param.id := lit "N"; Param.label := lit "Function Name (N)";
          Param.type := Param.text; Param.required := false;
          Param.defaultValue := None; Param.placeholder := Some (lit "Function name for domain separation");
          Param.min := None; Param.max := None; Param.generateRandom := None |};
       {| Param.id := lit "S"; Param.label := lit "Customization String (S)";
          Param.type := Param.text; Param.required := false;
          Param.defaultValue := None; Param.placeholder := Some (lit "Customization string");
          Param.min := None; Param.max := None; Param.generateRandom := None |};
       {| Param.id := lit "dkLen"; Param.label := lit "Output Length (bytes)";
          Param.type := Param.number; Param.required := false;
          Param.defaultValue := Some (inr 32); Param.placeholder := None;
          Param.min := Some 1; Param.max := Some 512; Param.generateRandom := None |} ] |});
  (lit "turboshake128",
   {| name := lit "TurboSHAKE128"; category := lit "Modern";
      description := lit "TurboSHAKE128 with domain separation - optimized XOF for high-performance cryptographic applications";
      nodeCryptoName := None; npmPackage := None; outputLength := Some 32;
      isSlow := None; legacy := None; demo := None; uiMode := None;
      supportsComparison := None;
      parameters := Some [
       {| Param.id := lit "D"; Param.label := lit "Domain Separation Byte (D)";
          Param.type := Param.number; Param.required := false;
          Param.defaultValue := Some (inr 31); Param.placeholder := Some (lit "Domain separation byte (0-255)");
          Param.min := Some 0; Param.max := Some 255; Param.generateRandom := None |};
       {| Param.id := lit "dkLen"; Param.label := lit "Output Length (bytes)";
          Param.type := Param.number; Param.required := false;
          Param.defaultValue := Some (inr 32); Param.placeholder := None;
          Param.min := Some 1; Param.max := Some 256; Param.generateRandom := None |} ] |});
  (lit "turboshake256",
   {| name := lit "TurboSHAKE256"; category := lit "Modern";
      description := lit "TurboSHAKE256 with domain separation - high-security XOF for advanced cryptographic protocols";
      nodeCryptoName := None; npmPackage := None; outputLength := Some 32;
      isSlow := None; legacy := None; demo := None; uiMode := None;
      supportsComparison := None;
      parameters := Some [
       {| Param.id := lit "D"; Param.label := lit "Domain Separation Byte (D)";
          Param.type := Param.number; Param.required := false;
          Param.defaultValue := Some (inr 31); Param.placeholder := Some (lit "Domain separation byte (0-255)");
          Param.min := Some 0; Param.max := Some 255; Param.generateRandom := None |};
       {| Param.id := lit "dkLen"; Param.label := lit "Output Length (bytes)";
          Param.type := Param.number; Param.required := false;
          Param.defaultValue := Some (inr 32); Param.placeholder := None;
          Param.min := Some 1; Param.max := Some 512; Param.generateRandom := None |} ] |});
  (lit "tuplehash256",
   {| name := lit "TupleHash"; category := lit "Modern";
      description := lit "TupleHash for ordered sequences - secure hashing of structured data with tuple preservation";
      nodeCryptoName := None; npmPackage := None; outputLength := Some 32;
      isSlow := None; legacy := None; demo := None; uiMode := None;
      supportsComparison := None;
      parameters := Some [
       {| Param.id := lit "S"; Param.label := lit "Customization String (S)";
          Param.type := Param.text; Param.required := false;
          Param.defaultValue := None; Param.placeholder := Some (lit "Customization string");
          Param.min := None; Param.max := None; Param.generateRandom := None |};
       {| Param.id := lit "dkLen"; Param.label := lit "Output Length (bytes)";
          Param.type := Param.number; Param.required := false;
          Param.defaultValue := Some (inr 32); Param.placeholder := None;
          Param.min := Some 1; Param.max := Some 512; Param.generateRandom := None |} ] |});
  (lit "parallelhash256",
   {| name := lit "ParallelHash"; category := lit "Modern";
      description := lit "ParallelHash for large data - high-performance parallel processing of massive datasets";
      nodeCryptoName := None; npmPackage := None; outputLength := Some 32;
      isSlow := None; legacy := None; demo := None; uiMode := None;
      supportsComparison := None;
      parameters := Some [
       {| Param.id := lit "B"; Param.label := lit "Block Size (B)";
          Param.type := Param.number; Param.required := false;
          Param.defaultValue := Some (inr 8192); Param.placeholder := Some (lit "Block size in bytes");
          Param.min := Some 8; Param.max := Some 65536; Param.generateRandom := None |};
       {| Param.id := lit "S"; Param.label := lit "Customization String (S)";
          Param.type := Param.text; Param.required := false;
          Param.defaultValue := None; Param.placeholder := Some (lit "Customization string");
          Param.min := None; Param.max := None; Param.generateRandom := None |};
       {| Param.id := lit "dkLen"; Param.label := lit "Output Length (bytes)";
          Param.type := Param.number; Param.required := false;
          Param.defaultValue := Some (inr 32); Param.placeholder := None;
          Param.min := Some 1; Param.max := Some 512; Param.generateRandom := None |} ] |});
  (lit "kt128",
   {| name := lit "KangarooTwelve (128-bit)"; category := lit "Modern";
      description := lit "KangarooTwelve tree hashing (128-bit output)";
      nodeCryptoName := None; npmPackage := None; outputLength := Some 16;
      isSlow := None; legacy := None; demo := None; uiMode := None;
      supportsComparison := None;
      parameters := Some [
       {| Param.id := lit "dkLen"; Param.label := lit "Output Length (bytes)";
          Param.type := Param.number; Param.required := false;
          Param.defaultValue := Some (inr 16); Param.placeholder := None;
          Param.min := Some 1; Param.max := Some 256; Param.generateRandom := None |} ] |});
  (lit "kt256",
   {| name := lit "KangarooTwelve (256-bit)"; category := lit "Modern";
      description := lit "KangarooTwelve tree hashing (256-bit output)";
      nodeCryptoName := None; npmPackage := None; outputLength := Some 32;
      isSlow := None; legacy := None; demo := None; uiMode := None;
      supportsComparison := None;
      parameters := Some [
       {| Param.id := lit "dkLen"; Param.label := lit "Output Length (bytes)";
          Param.type := Param.number; Param.required := false;
          Param.defaultValue := Some (inr 32); Param.placeholder := None;
          Param.min := Some 1; Param.max := Some 512; Param.generateRandom := None |} ] |});
  (lit "simhash",
   {| name := lit "SimHash"; category := lit "Similarity";
      description := lit "Locality-sensitive SimHash for document similarity - finds near-duplicate content efficiently";
      nodeCryptoName := None; npmPackage := None; outputLength := Some 8;
      isSlow := None; legacy := None; demo := None; uiMode := Some similarity;
      supportsComparison := Some true;
      parameters := None |});
  (lit "minhash",
   {| name := lit "MinHash"; category := lit "Similarity";
      description := lit "MinHash for Jaccard similarity estimation - used in duplicate detection and recommendation systems";
      nodeCryptoName := None; npmPackage := None; outputLength := Some 8;
      isSlow := None; legacy := None; demo := None; uiMode := Some similarity;
      supportsComparison := Some true;
      parameters := None |});
  (lit "bbitminhash",
   {| name := lit "b-bit MinHash"; category := lit "Similarity";
      description := lit "Compact b-bit MinHash - memory-efficient similarity detection for large-scale applications";
      nodeCryptoName := None; npmPackage := None; outputLength := Some 8;
      isSlow := None; legacy := None; demo := None; uiMode := Some similarity;
      supportsComparison := Some true;
      parameters := None |});
  (lit "superminhash",
   {| name := lit "SuperMinHash"; category := lit "Similarity";
      description := lit "Enhanced SuperMinHash (2017) - improved accuracy over traditional MinHash for similarity search";
      nodeCryptoName := None; npmPackage := None; outputLength := Some 8;
      isSlow := None; legacy := None; demo := None; uiMode := Some similarity;
      supportsComparison := Some true;
      parameters := None |});
  (lit "nilsimsa",
   {| name := lit "Nilsimsa"; category := lit "Similarity";
      description := lit "Nilsimsa hash for spam detection - specialized locality-sensitive hash for email and text analysis";
      nodeCryptoName := None; npmPackage := None; outputLength := Some 32;
      isSlow := None; legacy := None; demo := None; uiMode := Some similarity;
      supportsComparison := Some true;
      parameters := None |});
  (lit "imatch",
   {| name := lit "I-Match"; category := lit "Similarity";
      description := lit "I-Match lexicon-based similarity algorithm - customizable duplicate detection using word dictionaries";
      nodeCryptoName := None; npmPackage := None; outputLength := Some 8;
      isSlow := None; legacy := None; demo := None; uiMode := Some similarity;
      supportsComparison := Some true;
      parameters := Some [
       {| Param.id := lit "lexicon"; Param.label := lit "Lexicon (comma-separated words)";
          Param.type := Param.textarea; Param.required := true;
          Param.defaultValue := Some (inl (lit "test, words, for, demo")); Param.placeholder := Some (lit "Enter lexicon words separated by commas, e.g., word1, word2, word3");
          Param.min := None; Param.max := None; Param.generateRandom := None |};
       {| Param.id := lit "minIntersection"; Param.label := lit "Minimum Intersection";
          Param.type := Param.number; Param.required := false;
          Param.defaultValue := Some (inr 3); Param.placeholder := None;
          Param.min := Some 0; Param.max := Some 100; Param.generateRandom := None |} ] |});
  (lit "jenkins-one-at-a-time",
   {| name := lit "Jenkins One-at-a-Time"; category := lit "Non-cryptographic";
      description := lit "Bob Jenkins' One-at-a-Time hash";
      nodeCryptoName := None; npmPackage := None; outputLength := Some 4;
      isSlow := None; legacy := None; demo := None; uiMode := None;
      supportsComparison := None;
      parameters := None |});
  (lit "pearson",
   {| name := lit "Pearson Hash"; category := lit "Non-cryptographic";
      description := lit "Pearson hashing using lookup table";
      nodeCryptoName := None; npmPackage := None; outputLength := Some 1;
      isSlow := None; legacy := None; demo := None; uiMode := None;
      supportsComparison := None;
      parameters := None |});
  (lit "bernstein",
   {| name := lit "Bernstein Hash"; category := lit "Non-cryptographic";
      description := lit "Daniel J. Bernstein's hash function";
      nodeCryptoName := None; npmPackage := None; outputLength := Some 4;
      isSlow := None; legacy := None; demo := None; uiMode := None;
      supportsComparison := None;
      parameters := None |});
  (lit "elf-hash",
   {| name := lit "ELF Hash"; category := lit "Non-cryptographic";
      description := lit "Executable and Linkable Format hash (PJW hash)";
      nodeCryptoName := None; npmPackage := None; outputLength := Some 4;
      isSlow := None; legacy := None; demo := None; uiMode := None;
      supportsComparison := None;
      parameters := None |});
  (lit "internet-checksum",
   {| name := lit "Internet Checksum"; category := lit "Checksum";
      description := lit "RFC 1071 Internet checksum algorithm";
      nodeCryptoName := None; npmPackage := None; outputLength := Some 2;
      isSlow := None; legacy := None; demo := None; uiMode := None;
      supportsComparison := None;
      parameters := None |});
  (lit "fletcher-4",
   {| name := lit "Fletcher-4"; category := lit "Checksum";
      description := lit "Compact Fletcher-4 checksum - position-dependent error detection for small data blocks";
      nodeCryptoName := None; npmPackage := None; outputLength := Some 1;
      isSlow := None; legacy := None; demo := None; uiMode := None;
      supportsComparison := None;
      parameters := None |});
  (lit "fletcher-8",
   {| name := lit "Fletcher-8"; category := lit "Checksum";
      description := lit "Fletcher-8 checksum algorithm - efficient 8-bit error detection with burst error protection";
      nodeCryptoName := None; npmPackage := None; outputLength := Some 1;
      isSlow := None; legacy := None; demo := None; uiMode := None;
      supportsComparison := None;
      parameters := None |});
  (lit "fletcher-16",
   {| name := lit "Fletcher-16"; category := lit "Checksum";
      description := lit "Standard Fletcher-16 checksum - widely used for network protocols and data integrity";
      nodeCryptoName := None; npmPackage := None; outputLength := Some 2;
      isSlow := None; legacy := None; demo := None; uiMode := None;
      supportsComparison := None;
      parameters := None |});
  (lit "fletcher-32",
   {| name := lit "Fletcher-32"; category := lit "Checksum";
      description := lit "Enhanced Fletcher-32 checksum - stronger error detection for larger data sets and files";
      nodeCryptoName := None; npmPackage := None; outputLength := Some 4;
      isSlow := None; legacy := None; demo := None; uiMode := None;
      supportsComparison := None;
      parameters := None |});
  (lit "zobrist",
   {| name := lit "Zobrist Hash"; category := lit "Non-cryptographic";
      description := lit "Zobrist hashing for board games";
      nodeCryptoName := None; npmPackage := None; outputLength := Some 8;
      isSlow := None; legacy := None; demo := None; uiMode := None;
      supportsComparison := None;
      parameters := None |});
  (lit "tabulation",
   {| name := lit "Tabulation Hash"; category := lit "Non-cryptographic";
      description := lit "Tabulation hashing with high independence";
      nodeCryptoName := None; npmPackage := None; outputLength := Some 8;
      isSlow := None; legacy := None; demo := None; uiMode := None;
      supportsComparison := None;
      parameters := None |});
  (lit "argon2i",
   {| name := lit "Argon2i"; category := lit "Password";
      description := lit "Advanced Argon2i password hashing - protects against side-channel attacks with memory hardness";
      nodeCryptoName := None; npmPackage := Some (lit "argon2"); outputLength := Some 32;
      isSlow := Some true; legacy := None; demo := None; uiMode := Some password;
      supportsComparison := None;
      parameters := Some [
       {| Param.id := lit "salt"; Param.label := lit "Salt";
          Param.type := Param.text; Param.required := true;
          Param.defaultValue := None; Param.placeholder := Some (lit "Enter salt or generate random");
          Param.min := None; Param.max := None; Param.generateRandom := Some true |};
       {| Param.id := lit "iterations"; Param.label := lit "Iterations";
          Param.type := Param.number; Param.required := true;
          Param.defaultValue := Some (inr 3); Param.placeholder := None;
          Param.min := Some 1; Param.max := Some 100; Param.generateRandom := None |};
       {| Param.id := lit "memory"; Param.label := lit "Memory (KB)";
          Param.type := Param.number; Param.required := true;
          Param.defaultValue := Some (inr 65536); Param.placeholder := None;
          Param.min := Some 1024; Param.max := None; Param.generateRandom := None |};
       {| Param.id := lit "parallelism"; Param.label := lit "Parallelism";
          Param.type := Param.number; Param.required := true;
          Param.defaultValue := Some (inr 4); Param.placeholder := None;
          Param.min := Some 1; Param.max := Some 16; Param.generateRandom := None |};
       {| Param.id := lit "keyLength"; Param.label := lit "Key Length (bytes)";
          Param.type := Param.number; Param.required := false;
          Param.defaultValue := Some (inr 32); Param.placeholder := None;
          Param.min := Some 16; Param.max := Some 64; Param.generateRandom := None |} ] |});
  (lit "argon2d",
   {| name := lit "Argon2d"; category := lit "Password";
      description := lit "Memory-hard Argon2d password hashing - optimized for resistance to GPU cracking attacks";
      nodeCryptoName := None; npmPackage := Some (lit "argon2"); outputLength := Some 32;
      isSlow := Some true; legacy := None; demo := None; uiMode := Some password;
      supportsComparison := None;
      parameters := Some [
       {| Param.id := lit "salt"; Param.label := lit "Salt";
          Param.type := Param.text; Param.required := true;
          Param.defaultValue := None; Param.placeholder := Some (lit "Enter salt or generate random");
          Param.min := None; Param.max := None; Param.generateRandom := Some true |};
       {| Param.id := lit "iterations"; Param.label := lit "Iterations";
          Param.type := Param.number; Param.required := true;
          Param.defaultValue := Some (inr 3); Param.placeholder := None;
          Param.min := Some 1; Param.max := Some 100; Param.generateRandom := None |};
       {| Param.id := lit "memory"; Param.label := lit "Memory (KB)";
          Param.type := Param.number; Param.required := true;
          Param.defaultValue := Some (inr 65536); Param.placeholder := None;
          Param.min := Some 1024; Param.max := None; Param.generateRandom := None |};
       {| Param.id := lit "parallelism"; Param.label := lit "Parallelism";
          Param.type := Param.number; Param.required := true;
          Param.defaultValue := Some (inr 4); Param.placeholder := None;
          Param.min := Some 1; Param.max := Some 16; Param.generateRandom := None |};
       {| Param.id := lit "keyLength"; Param.label := lit "Key Length (bytes)";
          Param.type := Param.number; Param.required := false;
          Param.defaultValue := Some (inr 32); Param.placeholder := None;
          Param.min := Some 16; Param.max := Some 64; Param.generateRandom := None |} ] |});
  (lit "argon2id",
   {| name := lit "Argon2id"; category := lit "Password";
      description := lit "Recommended Argon2id password hashing - hybrid approach for maximum security against all attacks";
      nodeCryptoName := None; npmPackage := Some (lit "argon2"); outputLength := Some 32;
      isSlow := Some true; legacy := None; demo := None; uiMode := Some password;
      supportsComparison := None;
      parameters := Some [
       {| Param.id := lit "salt"; Param.label := lit "Salt";
          Param.type := Param.text; Param.required := true;
          Param.defaultValue := None; Param.placeholder := Some (lit "Enter salt or generate random");
          Param.min := None; Param.max := None; Param.generateRandom := Some true |};
       {| Param.id := lit "iterations"; Param.label := lit "Iterations";
          Param.type := Param.number; Param.required := true;
          Param.defaultValue := Some (inr 3); Param.placeholder := None;
          Param.min := Some 1; Param.max := Some 100; Param.generateRandom := None |};
       {| Param.id := lit "memory"; Param.label := lit "Memory (KB)";
          Param.type := Param.number; Param.required := true;
          Param.defaultValue := Some (inr 65536); Param.placeholder := None;
          Param.min := Some 1024; Param.max := None; Param.generateRandom := None |};
       {| Param.id := lit "parallelism"; Param.label := lit "Parallelism";
          Param.type := Param.number; Param.required := true;
          Param.defaultValue := Some (inr 4); Param.placeholder := None;
          Param.min := Some 1; Param.max := Some 16; Param.generateRandom := None |};
       {| Param.id := lit "keyLength"; Param.label := lit "Key Length (bytes)";
          Param.type := Param.number; Param.required := false;
          Param.defaultValue := Some (inr 32); Param.placeholder := None;
          Param.min := Some 16; Param.max := Some 64; Param.generateRandom := None |} ] |});
  (lit "has160",
   {| name := lit "HAS-160"; category := lit "Cryptographic";
      description := lit "Hash Algorithm Standard 160-bit";
      nodeCryptoName := None; npmPackage := None; outputLength := Some 20;
      isSlow := None; legacy := Some true; demo := None; uiMode := None;
      supportsComparison := None;
      parameters := None |});
  (lit "gost",
   {| name := lit "GOST"; category := lit "Cryptographic";
      description := lit "Russian GOST R 34.11-2012 cryptographic hash - government standard for Russian Federation";
      nodeCryptoName := None; npmPackage := Some (lit "gost-crypto"); outputLength := Some 32;
      isSlow := None; legacy := Some true; demo := None; uiMode := None;
      supportsComparison := None;
      parameters := None |});
  (lit "streebog",
   {| name := lit "Streebog"; category := lit "Cryptographic";
      description := lit "Russian Streebog hash function - modern Russian cryptographic standard for digital signatures";
      nodeCryptoName := None; npmPackage := Some (lit "streebog"); outputLength := Some 32;
      isSlow := None; legacy := Some true; demo := None; uiMode := None;
      supportsComparison := None;
      parameters := None |});
  (lit "luhn",
   {| name := lit "Luhn Algorithm"; category := lit "Checksum";
      description := lit "Luhn algorithm - credit card validation checksum used worldwide for financial data integrity";
      nodeCryptoName := None; npmPackage := None; outputLength := Some 1;
      isSlow := None; legacy := None; demo := None; uiMode := None;
      supportsComparison := None;
      parameters := None |});
  (lit "verhoeff",
   {| name := lit "Verhoeff Algorithm"; category := lit "Checksum";
      description := lit "Verhoeff algorithm - advanced decimal checksum with transposition error detection capabilities";
      nodeCryptoName := None; npmPackage := None; outputLength := Some 1;
      isSlow := None; legacy := None; demo := None; uiMode := None;
      supportsComparison := None;
      parameters := None |});
  (lit "damm",
   {| name := lit "Damm Algorithm"; category := lit "Checksum";
      description := lit "Damm algorithm - quasigroup-based checksum providing single-digit error correction";
      nodeCryptoName := None; npmPackage := None; outputLength := Some 1;
      isSlow := None; legacy := None; demo := None; uiMode := None;
      supportsComparison := None;
      parameters := None |});
  (lit "rs-hash",
   {| name := lit "RS Hash"; category := lit "Non-cryptographic";
      description := lit "Robert Sedgwick's hash function - classic algorithm from 'Algorithms in C' textbook";
      nodeCryptoName := None; npmPackage := None; outputLength := Some 4;
      isSlow := None; legacy := None; demo := None; uiMode := None;
      supportsComparison := None;
      parameters := None |});
  (lit "js-hash",
   {| name := lit "JS Hash"; category := lit "Non-cryptographic";
      description := lit "Justin Sobel's hash function - simple multiplicative hash for basic applications";
      nodeCryptoName := None; npmPackage := None; outputLength := Some 4;
      isSlow := None; legacy := None; demo := None; uiMode := None;
      supportsComparison := None;
      parameters := None |});
  (lit "bkdr-hash",
   {| name := lit "BKDR Hash"; category := lit "Non-cryptographic";
      description := lit "BKDR hash by Kernighan and Ritchie - classic string hashing from 'The C Programming Language'";
      nodeCryptoName := None; npmPackage := None; outputLength := Some 4;
      isSlow := None; legacy := None; demo := None; uiMode := None;
      supportsComparison := None;
      parameters := None |});
  (lit "dek-hash",
   {| name := lit "DEK Hash"; category := lit "Non-cryptographic";
      description := lit "Donald Knuth's hash function - mathematical approach from 'The Art of Computer Programming'";
      nodeCryptoName := None; npmPackage := None; outputLength := Some 4;
      isSlow := None; legacy := None; demo := None; uiMode := None;
      supportsComparison := None;
      parameters := None |});
  (lit "ap-hash",
   {| name := lit "AP Hash"; category := lit "Non-cryptographic";
      description := lit "Arash Partow's hash function - optimized for speed and distribution in hash tables";
      nodeCryptoName := None; npmPackage := None; outputLength := Some 4;
      isSlow := None; legacy := None; demo := None; uiMode := None;
      supportsComparison := None;
      parameters := None |});
  (lit "murmurhash128",
   {| name := lit "MurmurHash128"; category := lit "Non-cryptographic";
      description := lit "High-performance MurmurHash128 for 128-bit applications - excellent for large hash tables";
      nodeCryptoName := None; npmPackage := None; outputLength := Some 16;
      isSlow := None; legacy := None; demo := None; uiMode := None;
      supportsComparison := None;
      parameters := None |});
  (lit "fnv-1-64",
   {| name := lit "FNV-1 (64-bit)"; category := lit "Non-cryptographic";
      description := lit "64-bit FNV-1 hash for modern systems - fast and reliable for 64-bit architectures";
      nodeCryptoName := None; npmPackage := None; outputLength := Some 8;
      isSlow := None; legacy := None; demo := None; uiMode := None;
      supportsComparison := None;
      parameters := None |});
  (lit "fnv-1a-64",
   {| name := lit "FNV-1a (64-bit)"; category := lit "Non-cryptographic";
      description := lit "64-bit FNV-1a hash - optimized avalanche properties for 64-bit computing platforms";
      nodeCryptoName := None; npmPackage := None; outputLength := Some 8;
      isSlow := None; legacy := None; demo := None; uiMode := None;
      supportsComparison := None;
      parameters := None |});
  (lit "xxhash32",
   {| name := lit "xxHash32"; category := lit "Non-cryptographic";
      description := lit "Ultra-fast xxHash32 for high-performance applications - faster than CRC32 with better distribution";
      nodeCryptoName := None; npmPackage := Some (lit "xxhash-wasm"); outputLength := Some 4;
      isSlow := None; legacy := None; demo := None; uiMode := None;
      supportsComparison := None;
      parameters := None |});
  (lit "xxhash64",
   {| name := lit "xxHash64"; category := lit "Non-cryptographic";
      description := lit "Industry-standard xxHash64 for databases and file systems - blazing fast with excellent collision resistance";
      nodeCryptoName := None; npmPackage := Some (lit "xxhash-wasm"); outputLength := Some 8;
      isSlow := None; legacy := None; demo := None; uiMode := None;
      supportsComparison := None;
      parameters := None |});
  (lit "xxhash128",
   {| name := lit "xxHash128"; category := lit "Non-cryptographic";
      description := lit "High-performance xxHash128 for large-scale systems - fastest 128-bit hash for big data applications";
      nodeCryptoName := None; npmPackage := Some (lit "xxhash-wasm"); outputLength := Some 16;
      isSlow := None; legacy := None; demo := None; uiMode := None;
      supportsComparison := None;
      parameters := None |});
  (lit "cityhash",
   {| name := lit "CityHash"; category := lit "Non-cryptographic";
      description := lit "Google's CityHash - optimized for modern CPUs with SIMD instructions for maximum speed";
      nodeCryptoName := None; npmPackage := Some (lit "cityhash"); outputLength := Some 8;
      isSlow := None; legacy := None; demo := None; uiMode := None;
      supportsComparison := None;
      parameters := None |});
  (lit "farmhash",
   {| name := lit "FarmHash"; category := lit "Non-cryptographic";
      description := lit "Google's FarmHash - successor to CityHash with improved performance across all platforms";
      nodeCryptoName := None; npmPackage := Some (lit "farmhash"); outputLength := Some 8;
      isSlow := None; legacy := None; demo := None; uiMode := None;
      supportsComparison := None;
      parameters := None |});
  (lit "metrohash",
   {| name := lit "MetroHash"; category := lit "Non-cryptographic";
      description := lit "MetroHash - extremely fast hash function designed for high-throughput applications";
      nodeCryptoName := None; npmPackage := Some (lit "metrohash"); outputLength := Some 8;
      isSlow := None; legacy := None; demo := None; uiMode := None;
      supportsComparison := None;
      parameters := None |});
  (lit "t1ha",
   {| name := lit "T1HA"; category := lit "Non-cryptographic";
      description := lit "Fast Positive Hash (T1HA) - one of the fastest non-cryptographic hashes available";
      nodeCryptoName := None; npmPackage := Some (lit "t1ha"); outputLength := Some 8;
      isSlow := None; legacy := None; demo := None; uiMode := None;
      supportsComparison := None;
      parameters := None |});
  (lit "highwayhash",
   {| name := lit "HighwayHash"; category := lit "Modern";
      description := lit "Google's HighwayHash - cryptographic hash optimized for speed while maintaining security guarantees";
      nodeCryptoName := None; npmPackage := Some (lit "highwayhash"); outputLength := Some 8;
      isSlow := None; legacy := None; demo := None; uiMode := None;
      supportsComparison := None;
      parameters := None |});
  (lit "siphash",
   {| name := lit "SipHash"; category := lit "Modern";
      description := lit "SipHash - cryptographically secure pseudorandom function designed to prevent hash flooding attacks";
      nodeCryptoName := None; npmPackage := Some (lit "siphash"); outputLength := Some 8;
      isSlow := None; legacy := None; demo := None; uiMode := None;
      supportsComparison := None;
      parameters := None |});
  (lit "poly1305",
   {| name := lit "Poly1305"; category := lit "Modern";
      description := lit "Poly1305 one-time authenticator - fast message authentication used in TLS and cryptography protocols";
      nodeCryptoName := None; npmPackage := Some (lit "poly1305-js"); outputLength := Some 16;
      isSlow := None; legacy := None; demo := None; uiMode := None;
      supportsComparison := None;
      parameters := None |});
  (lit "cmac",
   {| name := lit "CMAC"; category := lit "Modern";
      description := lit "Cipher-based Message Authentication Code - standardized MAC using block ciphers like AES";
      nodeCryptoName := None; npmPackage := Some (lit "crypto-js"); outputLength := Some 16;
      isSlow := None; legacy := None; demo := None; uiMode := None;
      supportsComparison := None;
      parameters := None |});
  (lit "scrypt",
   {| name := lit "Scrypt"; category := lit "Password";
      description := lit "Memory-hard Scrypt password hashing - protects against hardware-based cracking attacks";
      nodeCryptoName := None; npmPackage := Some (lit "scrypt-js"); outputLength := Some 32;
      isSlow := Some true; legacy := None; demo := None; uiMode := Some password;
      supportsComparison := None;
      parameters := Some [
       {| Param.id := lit "salt"; Param.label := lit "Salt";
          Param.type := Param.text; Param.required := true;
          Param.defaultValue := None; Param.placeholder := Some (lit "Enter salt or generate random");
          Param.min := None; Param.max := None; Param.generateRandom := Some true |};
       {| Param.id := lit "N"; Param.label := lit "N (CPU/Memory cost)";
          Param.type := Param.number; Param.required := true;
          Param.defaultValue := Some (inr 16384); Param.placeholder := None;
          Param.min := Some 1024; Param.max := None; Param.generateRandom := None |};
       {| Param.id := lit "r"; Param.label := lit "r (Block size)";
          Param.type := Param.number; Param.required := true;
          Param.defaultValue := Some (inr 8); Param.placeholder := None;
          Param.min := Some 1; Param.max := Some 32; Param.generateRandom := None |};
       {| Param.id := lit "p"; Param.label := lit "p (Parallelism)";
          Param.type := Param.number; Param.required := true;
          Param.defaultValue := Some (inr 1); Param.placeholder := None;
          Param.min := Some 1; Param.max := Some 16; Param.generateRandom := None |};
       {| Param.id := lit "dkLen"; Param.label := lit "Key Length (bytes)";
          Param.type := Param.number; Param.required := false;
          Param.defaultValue := Some (inr 64); Param.placeholder := None;
          Param.min := Some 16; Param.max := Some 128; Param.generateRandom := None |} ] |});
  (lit "pbkdf2",
   {| name := lit "PBKDF2"; category := lit "Password";
      description := lit "Standard PBKDF2 password hashing - NIST-approved key derivation for secure password storage";
      nodeCryptoName := None; npmPackage := None; outputLength := Some 32;
      isSlow := Some true; legacy := None; demo := None; uiMode := Some password;
      supportsComparison := None;
      parameters := Some [
       {| Param.id := lit "salt"; Param.label := lit "Salt";
          Param.type := Param.text; Param.required := true;
          Param.defaultValue := None; Param.placeholder := Some (lit "Enter salt or generate random");
          Param.min := None; Param.max := None; Param.generateRandom := Some true |};
       {| Param.id := lit "iterations"; Param.label := lit "Iterations";
          Param.type := Param.number; Param.required := true;
          Param.defaultValue := Some (inr 10000); Param.placeholder := None;
          Param.min := Some 1000; Param.max := Some 1000000; Param.generateRandom := None |};
       {| Param.id := lit "keyLength"; Param.label := lit "Key Length (bytes)";
          Param.type := Param.number; Param.required := false;
          Param.defaultValue := Some (inr 32); Param.placeholder := None;
          Param.min := Some 16; Param.max := Some 64; Param.generateRandom := None |} ] |});
  (lit "hmac",
   {| name := lit "HMAC"; category := lit "Modern";
      description := lit "Cryptographic HMAC for message authentication - protects integrity and authenticity of data";
      nodeCryptoName := None; npmPackage := None; outputLength := Some 32;
      isSlow := None; legacy := None; demo := None; uiMode := Some hmac;
      supportsComparison := None;
      parameters := Some [
       {| Param.id := lit "key"; Param.label := lit "Key";
          Param.type := Param.text; Param.required := true;
          Param.defaultValue := None; Param.placeholder := Some (lit "Enter HMAC key");
          Param.min := None; Param.max := None; Param.generateRandom := None |} ] |});
  (lit "hkdf",
   {| name := lit "HKDF"; category := lit "Modern";
      description := lit "Secure HKDF key derivation - extracts strong keys from weak input material using HMAC";
      nodeCryptoName := None; npmPackage := None; outputLength := Some 32;
      isSlow := None; legacy := None; demo := None; uiMode := Some hkdf;
      supportsComparison := None;
      parameters := Some [
       {| Param.id := lit "ikm"; Param.label := lit "Input Key Material (IKM)";
          Param.type := Param.text; Param.required := true;
          Param.defaultValue := None; Param.placeholder := Some (lit "Enter IKM");
          Param.min := None; Param.max := None; Param.generateRandom := None |};
       {| Param.id := lit "salt"; Param.label := lit "Salt";
          Param.type := Param.text; Param.required := true;
          Param.defaultValue := None; Param.placeholder := None;
          Param.min := None; Param.max := None; Param.generateRandom := Some true |};
       {| Param.id := lit "info"; Param.label := lit "Info";
          Param.type := Param.text; Param.required := false;
          Param.defaultValue := None; Param.placeholder := Some (lit "Context/application info");
          Param.min := None; Param.max := None; Param.generateRandom := None |};
       {| Param.id := lit "keyLength"; Param.label := lit "Key Length (bytes)";
          Param.type := Param.number; Param.required := false;
          Param.defaultValue := Some (inr 32); Param.placeholder := None;
          Param.min := Some 16; Param.max := Some 64; Param.generateRandom := None |} ] |});
  (lit "cubehash",
   {| name := lit "CubeHash"; category := lit "Modern";
      description := lit "CubeHash cryptographic hash - SHA-3 finalist known for simple design and security margins";
      nodeCryptoName := None; npmPackage := None; outputLength := Some 32;
      isSlow := None; legacy := None; demo := None; uiMode := None;
      supportsComparison := None;
      parameters := None |});
  (lit "echo",
   {| name := lit "ECHO"; category := lit "Modern";
      description := lit "ECHO cryptographic hash - wide-pipe design for enhanced security against length extension attacks";
      nodeCryptoName := None; npmPackage := None; outputLength := Some 32;
      isSlow := None; legacy := None; demo := None; uiMode := None;
      supportsComparison := None;
      parameters := None |});
  (lit "skein",
   {| name := lit "Skein"; category := lit "Modern";
      description := lit "Skein cryptographic hash - highly optimized for 64-bit platforms with tweakable parameters";
      nodeCryptoName := None; npmPackage := None; outputLength := Some 32;
      isSlow := None; legacy := None; demo := None; uiMode := None;
      supportsComparison := None;
      parameters := None |});
  (lit "blue-midnight-wish",
   {| name := lit "Blue Midnight Wish"; category := lit "Modern";
      description := lit "Blue Midnight Wish hash - SHA-3 finalist with unique double-pipe construction for security";
      nodeCryptoName := None; npmPackage := None; outputLength := Some 32;
      isSlow := None; legacy := None; demo := None; uiMode := None;
      supportsComparison := None;
      parameters := None |});
  ((lit "gr" ++ [248%N] ++ lit "stl"),
   {| name := (lit "Gr" ++ [248%N] ++ lit "stl"); category := lit "Modern";
      description := (lit "Gr" ++ [248%N] ++ lit "stl cryptographic hash - AES-based design providing provable security and high performance");
      nodeCryptoName := None; npmPackage := None; outputLength := Some 32;
      isSlow := None; legacy := None; demo := None; uiMode := None;
      supportsComparison := None;
      parameters := None |});
  (lit "md2",
   {| name := lit "MD2"; category := lit "Cryptographic";
      description := lit "Obsolete MD2 hash - cryptographically broken, avoid for any security-critical applications";
      nodeCryptoName := None; npmPackage := None; outputLength := Some 16;
      isSlow := None; legacy := Some true; demo := None; uiMode := None;
      supportsComparison := None;
      parameters := None |});
  (lit "md4",
   {| name := lit "MD4"; category := lit "Cryptographic";
      description := lit "Deprecated MD4 hash - vulnerable to collision attacks, use SHA-256 or stronger alternatives";
      nodeCryptoName := None; npmPackage := None; outputLength := Some 16;
      isSlow := None; legacy := Some true; demo := None; uiMode := None;
      supportsComparison := None;
      parameters := None |})
]%Z.

(** The object the literal evaluates to. *)
Definition RAW_HASH_ALGORITHMS : object HashAlgorithm :=
  fromEntries RAW_HASH_ALGORITHMS_literal.

(** [{ ...cfg, demo: !("nodeCryptoName" in cfg) }] *)
Definition withDemo (cfg : HashAlgorithm) : HashAlgorithm :=
  {| name := name cfg;
     description := description cfg;
     category := category cfg;
     nodeCryptoName := nodeCryptoName cfg;
     npmPackage := npmPackage cfg;
     outputLength := outputLength cfg;
     isSlow := isSlow cfg;
     legacy := legacy cfg;
     demo := Some (negb (match nodeCryptoName cfg with
                         | Some _ => true
                         | None => false
                         end));
     uiMode := uiMode cfg;
     parameters := parameters cfg;
     supportsComparison := supportsComparison cfg |}.

(** [HASH_ALGORITHMS] *)
Definition HASH_ALGORITHMS : object HashAlgorithm :=
  fromEntries
    (List.map (fun e => (fst e, withDemo (snd e)))
       (entries RAW_HASH_ALGORITHMS)).

(** One turn of the [forEach] of [getAlgorithmsByCategory], over an
    arbitrary registry.  Reading [.category] off something that is not a
    descriptor, or calling [.push] on an inherited member of
    [Object.prototype], throws a [TypeError]. *)
Definition byCategoryStep (registry : object HashAlgorithm)
    (result : object (list jsstring)) (algo : jsstring)
  : completion (object (list jsstring)) :=
  match get registry algo with
  | Own cfg =>
      let category := category cfg in
      let result :=
        match get result category with
        | Undefined => set result category []
        | Own _ | Inherited _ => result
        end in
      match get result category with
      | Own ids => Normal (set result category (ids ++ [algo]))
      | Inherited _ | Undefined => Throw
      end
  | Inherited _ | Undefined => Throw
  end.

Fixpoint forEachAlgo (registry : object HashAlgorithm)
    (algos : list jsstring) (result : object (list jsstring))
  : completion (object (list jsstring)) :=
  match algos with
  | [] => Normal result
  | algo :: rest =>
      match byCategoryStep registry result algo with
      | Normal result' => forEachAlgo registry rest result'
      | Throw => Throw
      end
  end.

Definition getAlgorithmsByCategoryOf (registry : object HashAlgorithm)
  : completion (object (list jsstring)) :=
  forEachAlgo registry (keys registry) [].

(** [getAlgorithmsByCategory] *)
Definition getAlgorithmsByCategory : completion (object (list jsstring)) :=
  getAlgorithmsByCategoryOf HASH_ALGORITHMS.

(** [ALL_CATEGORY_TITLES], computed when the module is loaded.  The call
    completes normally on this registry ([getAlgorithmsByCategory_value]
    below). *)
Definition ALL_CATEGORY_TITLES : list jsstring :=
  match getAlgorithmsByCategory with
  | Normal byCategory => keys byCategory
  | Throw => []
  end.

(** [String.prototype.toLowerCase], one code unit at a time: exact for
    code units below 256 (Basic Latin and Latin-1).  A code unit from 256
    up is left as it is, which is not the full Unicode mapping; the lemmas
    below apply it to ASCII strings only ([category_titles_ascii]). *)
Definition toLowerUnit (c : codeunit) : codeunit :=
  if ((65 <=? c) && (c <=? 90))%N then (c + 32)%N
  else if ((192 <=? c) && (c <=? 222) && negb (c =? 215))%N then (c + 32)%N
  else c.

Definition toLowerCase (s : jsstring) : jsstring := List.map toLowerUnit s.

(** The class [[a-z0-9\s-]]. *)
Definition isSlugUnit (c : codeunit) : bool :=
  ((97 <=? c) && (c <=? 122) || (48 <=? c) && (c <=? 57))%N
  || isWhiteSpace c || (c =? 45)%N.

Definition isHyphen (c : codeunit) : bool := (c =? 45)%N.

(** [s.replace(/[^a-z0-9\s-]/g, "")] *)
Definition stripNonSlug (s : jsstring) : jsstring := filter isSlugUnit s.

(** [s.replace(/C+/g, r)] for a class [C] of code units: every maximal
    run is replaced by [r].  [inRun] tells that the unit before was in
    [C]. *)
Fixpoint replaceRuns (C : codeunit -> bool) (r : jsstring) (inRun : bool)
    (s : jsstring) : jsstring :=
  match s with
  | [] => []
  | c :: t =>
      if C c then
        if inRun then replaceRuns C r true t
        else r ++ replaceRuns C r true t
      else c :: replaceRuns C r false t
  end.

(** [hashCategoryNameToSlug] *)
Definition hashCategoryNameToSlug (categoryName : jsstring) : jsstring :=
  trim
    (replaceRuns isHyphen (lit "-") false
       (replaceRuns isWhiteSpace (lit "-") false
          (stripNonSlug (toLowerCase categoryName)))).

(** What [hashCategorySlugToName] can evaluate to at run time: a string,
    as its signature says, or a member of [Object.prototype]. *)
Inductive value : Type :=
| VString (s : jsstring)
| VBuiltin (k : jsstring).

Definition value_eqb (a b : value) : bool :=
  match a, b with
  | VString x, VString y => str_eqb x y
  | VBuiltin x, VBuiltin y => str_eqb x y
  | _, _ => false
  end.

(** The reverse map, built from a list of titles. *)
Definition slugToCategoryMapOf (titles : list jsstring) : object jsstring :=
  fold_left
    (fun m category => set m (hashCategoryNameToSlug category) category)
    titles [].

(** [slugToCategoryMap[slug] || slug]: the empty string and [undefined]
    are falsy, an inherited member is truthy. *)
Definition lookupOr (m : object jsstring) (slug : jsstring) : value :=
  match get m slug with
  | Own [] => VString slug
  | Own (c :: t) => VString (c :: t)
  | Inherited k => VBuiltin k
  | Undefined => VString slug
  end.

(** [hashCategorySlugToName] *)
Definition hashCategorySlugToName (slug : jsstring) : value :=
  let slugToCategoryMap := slugToCategoryMapOf ALL_CATEGORY_TITLES in
  lookupOr slugToCategoryMap slug.

(** The invariant of a descriptor: [supportsComparison: true] only in the
    category ["Similarity"]. *)
Definition comparesOnlySimilarity (cfg : HashAlgorithm) : bool :=
  match supportsComparison cfg with
  | Some true => str_eqb (category cfg) (lit "Similarity")
  | Some false | None => true
  end.

(** [getAllHashCategoryTitles] *)
Definition getAllHashCategoryTitles : list jsstring := ALL_CATEGORY_TITLES.

End Metadata.

(* ================================================================== *)
(** * Reference definitions for the comparator *)
(* ================================================================== *)

(** Nothing here is in the sources: these are the mathematical readings the
    loops of [similarity.ts] are compared with further down. *)
Module Reference.
Import Js Similarity.

(** The value [hammingDistance] works with for one code unit: its digit,
    or 0 when it is none. *)
Definition nibble (c : codeunit) : Z := toInt32 (hexDigit c).

(** The distance, position by position. *)
Fixpoint nibbleDistance (hex1 hex2 : jsstring) : Z :=
  match hex1, hex2 with
  | a :: t1, b :: t2 =>
      (lowNibbleBits (Z.lxor (nibble a) (nibble b)) + nibbleDistance t1 t2)%Z
  | _, _ => 0%Z
  end.

(** The sixteen values of a nibble. *)
Definition nibbles : list Z := List.map Z.of_nat (seq 0 16).

(** One code unit per hexadecimal digit, lower case. *)
Definition hexChar (d : Z) : codeunit :=
  if (d <? 10)%Z then Z.to_N (d + 48) else Z.to_N (d + 87).

(** The eight digits of a 32-bit word, most significant first. *)
Definition hex8 (w : Z) : jsstring :=
  List.map (fun k => hexChar ((w / 16 ^ Z.of_nat (7 - k)) mod 16)%Z) (seq 0 8).

(** A signature written word after word. *)
Definition encodeSignature (sig : list Z) : jsstring :=
  List.concat (List.map hex8 sig).

(** The word [parseMinHashSignature] stores at index [i]. *)
Definition wordAt (hex : jsstring) (i : nat) : Z :=
  toUint32 (parseInt16 (slice hex (i * 8) ((i + 1) * 8))).

(** The number of ones in the binary writing of a number. *)
Fixpoint popcountPos (p : positive) : Z :=
  match p with
  | xH => 1
  | xO q => popcountPos q
  | xI q => 1 + popcountPos q
  end%Z.

Definition popcount (z : Z) : Z :=
  match z with
  | Zpos p => popcountPos p
  | _ => 0%Z
  end.

(** A string of hexadecimal digits only. *)
Definition isHexString (s : jsstring) : bool :=
  forallb (fun c => match hexDigit c with Some _ => true | None => false end) s.

End Reference.

(* ================================================================== *)
(** * [lib/hash-metadata.ts], continued: category details and tools *)
(* ================================================================== *)

Module Details.
Import Js.

Inductive HashCategoryContext : Type := use | algo.

Record HashCategoryDetails : Type := {
  description : jsstring;
  features : jsstring;
  context : HashCategoryContext
}.

(** The entries of the object literal [HASH_CATEGORY_DETAILS], in the
    order they are written. *)
Definition HASH_CATEGORY_DETAILS_literal
  : list (jsstring * HashCategoryDetails) := [
  (lit "Cryptographic",
   {| description := lit "Secure hash functions for cryptographic applications including digital signatures, certificates, blockchain, and secure communications.";
      features := lit "High security, collision resistance, preimage resistance";
      context := use |});
  (lit "Password",
   {| description := lit "Specialized hash functions designed for password hashing with features like salt support and intentionally slow computation.";
      features := lit "Password security, salt support, computational hardness";
      context := use |});
  (lit "Checksum",
   {| description := lit "Error-detection algorithms for verifying data integrity. Includes CRC variants, Fletcher checksums, and other validation methods.";
      features := lit "Error detection, fast, various bit lengths";
      context := use |});
  (lit "Similarity",
   {| description := lit "Locality-sensitive hash functions used for similarity detection, duplicate finding, and nearest neighbor searches.";
      features := lit "Similarity detection, probabilistic, specialized use cases";
      context := use |});
  (lit "Non-cryptographic",
   {| description := lit "Fast hash functions designed for non-cryptographic purposes like hash tables, checksums, and data integrity verification.";
      features := lit "High speed, good distribution, non-cryptographic";
      context := use |});
  (lit "SHA-2",
   {| description := lit "Modern cryptographic hash functions recommended for security applications. Includes SHA-256, SHA-384, and SHA-512 with truncated variants.";
      features := lit "High security, standardized, widely adopted";
      context := algo |});
  (lit "SHA-3",
   {| description := lit "Next-generation cryptographic hash functions based on the Keccak algorithm. Offers better security margins and flexible output sizes.";
      features := lit "Future-proof, quantum-resistant design, extendable output";
      context := algo |});
  (lit "SHAKE",
   {| description := lit "Extendable-output functions (XOF) from the SHA-3 family. Can produce hash outputs of any desired length.";
      features := lit "Variable output length, SHA-3 based, flexible";
      context := algo |});
  (lit "BLAKE2",
   {| description := lit "High-performance cryptographic hash functions optimized for speed while maintaining security. Excellent for performance-critical applications.";
      features := lit "Fast, secure, customizable output size";
      context := algo |});
  (lit "Modern",
   {| description := lit "Next-generation hash functions with improved security and performance characteristics compared to older standards.";
      features := lit "Latest technology, enhanced security, optimized";
      context := algo |})
].

Definition HASH_CATEGORY_DETAILS : object HashCategoryDetails :=
  fromEntries HASH_CATEGORY_DETAILS_literal.

(** What [getHashCategoryDetails] can evaluate to at run time: a details
    record, as its signature says, or a member of [Object.prototype]. *)
Inductive result : Type :=
| Details (d : HashCategoryDetails)
| Builtin (k : jsstring).

(** [getHashCategoryDetails]: [HASH_CATEGORY_DETAILS[title] || { ... }];
    a record and an inherited member are truthy. *)
Definition getHashCategoryDetails (title : jsstring) : result :=
  match get HASH_CATEGORY_DETAILS title with
  | Own d => Details d
  | Inherited k => Builtin k
  | Undefined =>
      Details
        {| description :=
             title ++ lit " hash algorithms for various computing applications.";
           features := lit "Specialized hashing functionality";
           context := algo |}
  end.

End Details.

Module Tools.
Import Js.

(** [HashToolResource], that is [HashTool] with [url] and [date]. *)
Record HashToolResource : Type := {
  id : jsstring;
  name : jsstring;
  description : jsstring;
  category : jsstring;
  algorithm : jsstring;
  url : jsstring;
  date : jsstring
}.

Definition TODAY : jsstring := lit "2026-01-19".

(** The callback of the [map] that builds [HASH_TOOLS], over an arbitrary
    registry.  Reading [config.category] off [undefined], or lower-casing
    the [undefined] category of an inherited member, throws. *)
Definition toolOf (registry : object Metadata.HashAlgorithm)
    (algo : jsstring) : completion HashToolResource :=
  match get registry algo with
  | Own config =>
      let categorySlug :=
        Metadata.hashCategoryNameToSlug (Metadata.category config) in
      Normal
        {| id := algo;
           name := Metadata.name config;
           description := Metadata.description config;
           category := Metadata.category config;
           algorithm := algo;
           url := lit "/hashes/" ++ categorySlug ++ lit "/" ++ algo;
           date := TODAY |}
  | Inherited _ | Undefined => Throw
  end.

Fixpoint mapTools (registry : object Metadata.HashAlgorithm)
    (algos : list jsstring) : completion (list HashToolResource) :=
  match algos with
  | [] => Normal []
  | algo :: rest =>
      match toolOf registry algo with
      | Throw => Throw
      | Normal tool =>
          match mapTools registry rest with
          | Throw => Throw
          | Normal tools => Normal (tool :: tools)
          end
      end
  end.

Definition toolsOf (registry : object Metadata.HashAlgorithm)
  : completion (list HashToolResource) :=
  mapTools registry (keys registry).

(** [HASH_TOOLS], computed when the module is loaded; the [map] completes
    normally on this registry ([HASH_TOOLS_value] below). *)
Definition HASH_TOOLS : list HashToolResource :=
  match toolsOf Metadata.HASH_ALGORITHMS with
  | Normal tools => tools
  | Throw => []
  end.

End Tools.

(* ================================================================== *)
(** * [app/hashes/[category]/[id]/page.tsx] *)
(* ================================================================== *)

(** The values the component computes from its route parameters and its
    state, as functions of those. *)
Module Page.
Import Js.

(** [HASH_TOOLS.find((t) => t.id === toolId) ?? null]; [None] is
    [null]. *)
Definition tool (toolId : jsstring) : option Tools.HashToolResource :=
  find (fun t => str_eqb (Tools.id t) toolId) Tools.HASH_TOOLS.

(** [HASH_ALGORITHMS[toolId]] *)
Definition algorithmConfig (toolId : jsstring)
  : property Metadata.HashAlgorithm :=
  get Metadata.HASH_ALGORITHMS toolId.

(** [algorithmConfig?.uiMode || 'standard']: an inherited member has no
    [uiMode]. *)
Definition uiMode (toolId : jsstring) : Metadata.AlgorithmUIMode :=
  match algorithmConfig toolId with
  | Own config =>
      match Metadata.uiMode config with
      | Some mode => mode
      | None => Metadata.standard
      end
  | Inherited _ | Undefined => Metadata.standard
  end.

(** [uiMode === 'similarity'] *)
Definition isSimilarity (toolId : jsstring) : bool :=
  match uiMode toolId with
  | Metadata.similarity => true
  | _ => false
  end.

Definition showVerify (toolId : jsstring) : bool :=
  negb (isSimilarity toolId).

(** [relatedTools]: the first six other tools of the same category. *)
Definition relatedTools (toolId : jsstring) : list Tools.HashToolResource :=
  match tool toolId with
  | None => []
  | Some tool =>
      firstn 6
        (filter
           (fun t =>
              str_eqb (Tools.category t) (Tools.category tool)
              && negb (str_eqb (Tools.id t) (Tools.id tool)))
           Tools.HASH_TOOLS)
  end.

(** The class [[0-9a-fA-F]]. *)
Definition isHexUnit (c : codeunit) : bool :=
  ((48 <=? c) && (c <=? 57) || (97 <=? c) && (c <=? 102)
   || (65 <=? c) && (c <=? 70))%N.

(** The class [[A-Za-z0-9+/]]. *)
Definition isBase64Unit (c : codeunit) : bool :=
  ((65 <=? c) && (c <=? 90) || (97 <=? c) && (c <=? 122)
   || (48 <=? c) && (c <=? 57) || (c =? 43) || (c =? 47))%N.

(** [/^[0-9a-fA-F]+$/.test(s)] *)
Definition isHexFormat (s : jsstring) : bool :=
  match s with
  | [] => false
  | _ => forallb isHexUnit s
  end.

(** [/^[A-Za-z0-9+/]*={0,2}$/.test(s)]: after the longest run of the
    class, which [=] is not in, at most two [=] and nothing else. *)
Definition isBase64Format (s : jsstring) : bool :=
  match dropWhile isBase64Unit s with
  | [] => true
  | [a] => (a =? 61)%N
  | [a; b] => ((a =? 61) && (b =? 61))%N
  | _ => false
  end.

(** The state [verifyResult]. *)
Record VerifyResult : Type := {
  match_ : bool;
  reason : option jsstring
}.

Section Verify.

(** [HashResult] is declared in [lib/hash/compute.client], outside these
    sources; [verifyHash] reads its field [hash] only. *)
Variable HashResult : Type.
Variable hash : HashResult -> jsstring.

(** [verifyHash], as the value it passes to [setVerifyResult]; [None] is
    [null]. *)
Definition verifyHash (result : option HashResult) (expectedHash : jsstring)
  : option VerifyResult :=
  match result, trim expectedHash with
  | None, _ | _, [] => None
  | Some result, _ :: _ =>
      if negb (isHexFormat expectedHash) && negb (isBase64Format expectedHash)
      then
        Some {| match_ := false;
                reason :=
                  Some (lit "Invalid hash format (must be hex or base64)") |}
      else
        let matches :=
          str_eqb (Metadata.toLowerCase (hash result))
            (Metadata.toLowerCase expectedHash) in
        Some {| match_ := matches;
                reason := if matches then None
                          else Some (lit "Hash values don't match") |}
  end.

End Verify.

(** The three labels of the comparison card: ["High similarity"],
    ["Moderate similarity"], ["Low similarity"]. *)
Inductive SimilarityLabel : Type := High | Moderate | Low.

(** The doubles the literals [0.7] and [0.4] denote. *)
Definition literal_0_7 : Q := 3152519739159347 # 4503599627370496.
Definition literal_0_4 : Q := 3602879701896397 # 9007199254740992.

(** [similarity > 0.7 ? ... : similarity > 0.4 ? ... : ...] *)
Definition similarityLabel (similarity : Q) : SimilarityLabel :=
  if negb (Qle_bool similarity literal_0_7) then High
  else if negb (Qle_bool similarity literal_0_4) then Moderate
  else Low.

(** The label of a comparison result, when the card shows one: it does
    for a result with a similarity. *)
Definition resultLabel (comparisonResult : option Similarity.Metrics)
  : option SimilarityLabel :=
  match comparisonResult with
  | None => None
  | Some metrics => option_map similarityLabel (Similarity.similarity metrics)
  end.

End Page.

(* ================================================================== *)
(** * Reference definitions for the registry *)
(* ================================================================== *)

(** Again nothing of the sources: the shapes the lemmas on slugs and on
    the grouping by category are stated with. *)
Module Shape.
Import Js.

(** A string of code units below 256, the range on which
    [Metadata.toLowerCase] is exact. *)
Definition latin1 (s : jsstring) : Prop := Forall (fun c => (c < 256)%N) s.

(** The class [[a-z0-9-]]. *)
Definition isSlugChar (c : codeunit) : bool :=
  ((97 <=? c) && (c <=? 122) || (48 <=? c) && (c <=? 57) || (c =? 45))%N.

(** No two hyphens in a row. *)
Fixpoint noDoubleHyphen (s : jsstring) : bool :=
  match s with
  | a :: (b :: _) as t =>
      negb (Metadata.isHyphen a && Metadata.isHyphen b) && noDoubleHyphen t
  | _ => true
  end.

(** Lower-case letters, digits and single hyphens only. *)
Definition slugForm (s : jsstring) : bool :=
  forallb isSlugChar s && noDoubleHyphen s.

(** The ids of the descriptors of category [c], in the order of the
    registry; [None] when there is none. *)
Definition idsOf (registry : object Metadata.HashAlgorithm) (c : jsstring)
  : list jsstring :=
  List.map fst
    (filter (fun e => str_eqb (Metadata.category (snd e)) c) registry).

Definition groupOf (registry : object Metadata.HashAlgorithm) (c : jsstring)
  : option (list jsstring) :=
  match idsOf registry c with
  | [] => None
  | ids => Some ids
  end.

(** The tool [HASH_TOOLS] holds for one entry of the registry. *)
Definition toolFrom (e : jsstring * Metadata.HashAlgorithm)
  : Tools.HashToolResource :=
  {| Tools.id := fst e;
     Tools.name := Metadata.name (snd e);
     Tools.description := Metadata.description (snd e);
     Tools.category := Metadata.category (snd e);
     Tools.algorithm := fst e;
     Tools.url :=
       lit "/hashes/"
       ++ Metadata.hashCategoryNameToSlug (Metadata.category (snd e))
       ++ lit "/" ++ fst e;
     Tools.date := Tools.TODAY |}.

(** A descriptor of category [c] with no optional field, to build small
    registries. *)
Definition descriptorIn (c : jsstring) : Metadata.HashAlgorithm :=
  {| Metadata.name := lit "Sample";
     Metadata.description := lit "Sample descriptor";
     Metadata.category := c;
     Metadata.nodeCryptoName := None;
     Metadata.npmPackage := None;
     Metadata.outputLength := None;
     Metadata.isSlow := None;
     Metadata.legacy := None;
     Metadata.demo := None;
     Metadata.uiMode := None;
     Metadata.parameters := None;
     Metadata.supportsComparison := None |}.

(** No [/] in a string. *)
Definition noSlash (s : jsstring) : bool :=
  negb (existsb (fun c => (c =? 47)%N) s).

End Shape.

(* ================================================================== *)
(** * Facts about the JavaScript layer *)
(* ================================================================== *)

Import Js.

Unset Implicit Arguments.

Lemma str_eqb_refl (a : jsstring) : str_eqb a a = true.
Proof.
  induction a as [|x a IH]; simpl; [reflexivity|].
  now rewrite N.eqb_refl, IH.
Qed.

Lemma str_eqb_eq (a b : jsstring) : str_eqb a b = true <-> a = b.
Proof.
  split.
  - revert b; induction a as [|x a IH]; intros [|y b] H; simpl in H;
      try discriminate; [reflexivity|].
    apply andb_true_iff in H. destruct H as [Hx Hab].
    apply N.eqb_eq in Hx. apply IH in Hab. now subst.
  - intros ->. apply str_eqb_refl.
Qed.

Lemma str_eqb_neq (a b : jsstring) : str_eqb a b = false <-> a <> b.
Proof.
  rewrite <- str_eqb_eq. destruct (str_eqb a b); split; congruence.
Qed.

Lemma mem_In (k : jsstring) (l : list jsstring) : mem k l = true <-> In k l.
Proof.
  unfold mem. rewrite existsb_exists. split.
  - intros (x & Hx & E). apply str_eqb_eq in E. now subst.
  - intros H. exists k. split; [assumption | apply str_eqb_refl].
Qed.

Lemma mem_not_In (k : jsstring) (l : list jsstring) :
  mem k l = false <-> ~ In k l.
Proof.
  rewrite <- mem_In. destruct (mem k l); split; congruence.
Qed.

(** A white-space code unit is no hexadecimal digit. *)
Lemma whiteSpace_not_hex (c : codeunit) :
  isWhiteSpace c = true -> hexDigit c = None.
Proof.
  unfold isWhiteSpace, hexDigit. intros W.
  assert (R : (c <= 13 \/ c = 32 \/ 160 <= c)%N).
  { rewrite !orb_true_iff, !andb_true_iff, !N.leb_le, !N.eqb_eq in W. lia. }
  destruct (N.leb_spec 48 c), (N.leb_spec c 57), (N.leb_spec 97 c),
    (N.leb_spec c 102), (N.leb_spec 65 c), (N.leb_spec c 70);
    simpl; try reflexivity; lia.
Qed.

(** On a string of one code unit [parseInt(_, 16)] reads that unit as a
    digit, and is [NaN] when it is none. *)
Lemma parseInt16_single (c : codeunit) : parseInt16 [c] = hexDigit c.
Proof.
  unfold parseInt16. simpl dropWhile.
  destruct (isWhiteSpace c) eqn:W.
  - now rewrite (whiteSpace_not_hex c W).
  - destruct (N.eqb_spec c 45) as [->|_]; [reflexivity|].
    destruct (N.eqb_spec c 43) as [->|_]; [reflexivity|].
    simpl. destruct (hexDigit c) as [d|]; [|reflexivity].
    f_equal. destruct d; reflexivity.
Qed.

Lemma fold_left_ext_in {A B} (f g : A -> B -> A) (l : list B) :
  (forall a x, In x l -> f a x = g a x) ->
  forall a, fold_left f l a = fold_left g l a.
Proof.
  induction l as [|x l IH]; intros H a; simpl; [reflexivity|].
  rewrite (H a x (or_introl eq_refl)).
  apply IH. intros a' y Hy. apply H. now right.
Qed.

Lemma getOwn_Some_In {V} (o : object V) (k : jsstring) (v : V) :
  getOwn o k = Some v -> In (k, v) o.
Proof.
  induction o as [|[k' v'] o IH]; simpl; [discriminate|].
  destruct (str_eqb k k') eqn:E.
  - intros [= ->]. apply str_eqb_eq in E. subst. now left.
  - intros H. right. now apply IH.
Qed.

Lemma getOwn_None {V} (o : object V) (k : jsstring) :
  ~ In k (keys o) -> getOwn o k = None.
Proof.
  induction o as [|[k' v'] o IH]; simpl; [reflexivity|].
  intros H. destruct (str_eqb k k') eqn:E.
  - apply str_eqb_eq in E. subst. exfalso. apply H. now left.
  - apply IH. intros Hin. apply H. now right.
Qed.

Lemma get_Own_In {V} (o : object V) (k : jsstring) (v : V) :
  get o k = Own v -> In (k, v) o.
Proof.
  unfold get. destruct (getOwn o k) as [v'|] eqn:E.
  - intros [= ->]. now apply getOwn_Some_In.
  - destruct (mem k objectPrototypeKeys); discriminate.
Qed.

(* ================================================================== *)
(** * The similarity comparator *)
(* ================================================================== *)

Import Similarity.

Section ComparatorFacts.
Context {sdk : Sdk}.

(** ** Dispatch *)

Lemma dispatch_fallback (algorithm hash1 hash2 : jsstring) :
  mem algorithm bespokeIds = false ->
  compareSimilarityHashes algorithm hash1 hash2
  = Fulfilled (Some (distanceMetric (hammingDistance hash1 hash2))).
Proof.
  intros H. unfold bespokeIds in H. simpl in H.
  apply orb_false_iff in H. destruct H as [Hsim H].
  unfold compareSimilarityHashes. rewrite Hsim.
  unfold mem, minhashIds. simpl existsb.
  repeat (apply orb_false_iff in H; destruct H as [?E H]).
  rewrite E, E0, E1, E2. simpl.
  destruct (str_eqb algorithm (lit "imatch")); reflexivity.
Qed.

Lemma dispatch_minhash (algorithm hash1 hash2 : jsstring) :
  In algorithm minhashIds ->
  compareSimilarityHashes algorithm hash1 hash2
  = Fulfilled (option_map similarityMetric (compareMinHash hash1 hash2)).
Proof.
  intros H. unfold compareSimilarityHashes.
  assert (N : str_eqb algorithm (lit "simhash") = false).
  { simpl in H. decompose [or] H; subst; try reflexivity. contradiction. }
  rewrite N. apply mem_In in H. now rewrite H.
Qed.

(** ** MinHash signatures *)

Lemma parseMinHashSignature_ragged (hex : jsstring) :
  Nat.modulo (List.length hex) 8 <> 0%nat ->
  parseMinHashSignature hex = None.
Proof.
  intros H. unfold parseMinHashSignature.
  apply Nat.eqb_neq in H. now rewrite H.
Qed.

Lemma compareMinHash_ragged (hash1 hash2 : jsstring) :
  Nat.modulo (List.length hash1) 8 <> 0%nat
  \/ Nat.modulo (List.length hash2) 8 <> 0%nat ->
  compareMinHash hash1 hash2 = None.
Proof.
  intros [H|H]; unfold compareMinHash;
    rewrite (parseMinHashSignature_ragged _ H).
  - reflexivity.
  - now destruct (parseMinHashSignature hash1).
Qed.

(** ** The generic Hamming distance *)

Lemma hammingStep_sym (hex1 hex2 : jsstring) (d : Z) (i : nat) :
  hammingStep hex1 hex2 d i = hammingStep hex2 hex1 d i.
Proof. unfold hammingStep. now rewrite Z.lxor_comm. Qed.

Lemma hammingDistance_mismatch (hex1 hex2 : jsstring) :
  List.length hex1 <> List.length hex2 ->
  hammingDistance hex1 hex2 = (-1)%Z.
Proof.
  intros H. unfold hammingDistance.
  apply Nat.eqb_neq in H. now rewrite H.
Qed.

(** The digit the loop reads at position [i], after [ToInt32]. *)
Lemma nibble_asHex (hex : jsstring) (i : nat) :
  toInt32 (parseInt16 (orElse (charAt (asHex hex) i) (lit "0")))
  = toInt32 (parseInt16 (orElse (charAt hex i) (lit "0"))).
Proof.
  unfold charAt, asHex. rewrite nth_error_map.
  destruct (nth_error hex i) as [c|]; simpl; [|reflexivity].
  rewrite !parseInt16_single. unfold asHexUnit.
  destruct (hexDigit c) as [d|] eqn:E; [now rewrite E | reflexivity].
Qed.

Lemma hammingStep_asHex (hex1 hex2 : jsstring) (d : Z) (i : nat) :
  hammingStep (asHex hex1) (asHex hex2) d i = hammingStep hex1 hex2 d i.
Proof. unfold hammingStep. now rewrite !nibble_asHex. Qed.

Lemma hammingDistance_asHex (hex1 hex2 : jsstring) :
  hammingDistance hex1 hex2 = hammingDistance (asHex hex1) (asHex hex2).
Proof.
  unfold hammingDistance, asHex. rewrite !length_map.
  destruct (negb (Nat.eqb (List.length hex1) (List.length hex2)));
    [reflexivity|].
  apply fold_left_ext_in. intros a x _. symmetry. apply hammingStep_asHex.
Qed.

End ComparatorFacts.

(** ** Length mismatch in the generic fallback *)

(** C1, as stated, fails: with the id ["imatch"] and the hex strings
    ["ab"] and ["abcd"], of lengths 2 and 4, [compareSimilarityHashes]
    signals no error; its promise is fulfilled with a result whose
    distance is the sentinel -1. *)
Lemma length_mismatch_returns_sentinel :
  let r := @compareSimilarityHashes throwingSdk
             (lit "imatch") (lit "ab") (lit "abcd") in
  r <> Rejected
  /\ r = Fulfilled (Some {| distance := Some (inject_Z (-1));
                            similarity := None |}).
Proof. vm_compute. split; [discriminate | reflexivity]. Qed.

(** C1, amended: for every id routed to the generic fallback (["imatch"]
    or any id without a metric of its own) and every two inputs of unequal
    length, [compareSimilarityHashes] fulfils its promise with a result
    whose distance is -1 and which has no similarity; no error is
    signalled. *)
Theorem generic_length_mismatch_sentinel
    (sdk : Sdk) (algorithm hash1 hash2 : jsstring) :
  ~ In algorithm bespokeIds ->
  List.length hash1 <> List.length hash2 ->
  compareSimilarityHashes algorithm hash1 hash2
  = Fulfilled (Some {| distance := Some (inject_Z (-1));
                       similarity := None |}).
Proof.
  intros Hid Hlen. apply mem_not_In in Hid.
  rewrite (dispatch_fallback _ hash1 hash2 Hid).
  now rewrite (hammingDistance_mismatch _ _ Hlen).
Qed.

Lemma generic_length_mismatch_sentinel_witness :
  ~ In (lit "imatch") bespokeIds
  /\ List.length (lit "ab") <> List.length (lit "abcd")
  /\ @compareSimilarityHashes throwingSdk
       (lit "imatch") (lit "ab") (lit "abcd")
     = Fulfilled (Some {| distance := Some (inject_Z (-1));
                          similarity := None |}).
Proof.
  assert (Hid : ~ In (lit "imatch") bespokeIds).
  { vm_compute. intuition discriminate. }
  assert (Hlen : List.length (lit "ab") <> List.length (lit "abcd")).
  { vm_compute. discriminate. }
  split; [exact Hid|]. split; [exact Hlen|].
  exact (generic_length_mismatch_sentinel throwingSdk _ _ _ Hid Hlen).
Defined.

(** ** MinHash inputs that are not whole 32-bit words *)

(** C2: for the ids ["minhash"], ["bbitminhash"] and ["superminhash"], if
    the length of either input is not a multiple of 8, the comparison
    returns [null]: [compareMinHash] returns it, and the promise of
    [compareSimilarityHashes] is fulfilled with it, so nothing is thrown
    and no similarity is made up. *)
Theorem minhash_ragged_is_null
    (sdk : Sdk) (algorithm hash1 hash2 : jsstring) :
  In algorithm minhashIds ->
  Nat.modulo (List.length hash1) 8 <> 0%nat
  \/ Nat.modulo (List.length hash2) 8 <> 0%nat ->
  compareMinHash hash1 hash2 = None
  /\ compareSimilarityHashes algorithm hash1 hash2 = Fulfilled None.
Proof.
  intros Hid Hlen. split.
  - now apply compareMinHash_ragged.
  - rewrite (dispatch_minhash _ hash1 hash2 Hid).
    now rewrite (compareMinHash_ragged _ _ Hlen).
Qed.

Lemma minhash_ragged_is_null_witness :
  In (lit "superminhash") minhashIds
  /\ (Nat.modulo (List.length (lit "0000000100000002")) 8 <> 0%nat
      \/ Nat.modulo (List.length (lit "00000001000")) 8 <> 0%nat)
  /\ @compareMinHash (fixedSdk 0 0 1 0)
       (lit "0000000100000002") (lit "00000001000") = None
  /\ @compareSimilarityHashes (fixedSdk 0 0 1 0) (lit "superminhash")
       (lit "0000000100000002") (lit "00000001000") = Fulfilled None.
Proof.
  assert (Hid : In (lit "superminhash") minhashIds).
  { simpl. right. right. left. reflexivity. }
  assert (Hlen : Nat.modulo (List.length (lit "0000000100000002")) 8 <> 0%nat
                 \/ Nat.modulo (List.length (lit "00000001000")) 8 <> 0%nat).
  { right. vm_compute. discriminate. }
  split; [exact Hid|]. split; [exact Hlen|].
  exact (minhash_ragged_is_null (fixedSdk 0 0 1 0) _ _ _ Hid Hlen).
Defined.

(** ** Nilsimsa *)

(** C3: when the correlation function of the SDK returns the score [s],
    [compareNilsimsa] returns similarity [(s + 128) / 256] and distance
    [128 - s], and so does [compareSimilarityHashes] for ["nilsimsa"];
    128 gives similarity 1 and distance 0, -128 gives similarity 0 and
    distance 256, and 0 gives similarity 1/2 and distance 128. *)
Theorem compareNilsimsa_normalization
    (sdk : Sdk) (hash1 hash2 : jsstring) (s : Z) :
  nilsimsaCompare hash1 hash2 = Normal s ->
  let sim := ((inject_Z s + 128) / 256)%Q in
  let dist := (128 - inject_Z s)%Q in
  compareNilsimsa hash1 hash2
  = Normal {| ds_distance := dist; ds_similarity := sim |}
  /\ compareSimilarityHashes (lit "nilsimsa") hash1 hash2
     = Fulfilled (Some {| distance := Some dist; similarity := Some sim |})
  /\ (s = 128%Z -> sim == 1 /\ dist == 0)
  /\ (s = (-128)%Z -> sim == 0 /\ dist == 256)
  /\ (s = 0%Z -> sim == 1 # 2 /\ dist == 128).
Proof.
  intros H sim dist.
  assert (E : compareNilsimsa hash1 hash2
              = Normal {| ds_distance := dist; ds_similarity := sim |}).
  { unfold compareNilsimsa. now rewrite H. }
  split; [exact E|]. split.
  - unfold compareSimilarityHashes. simpl. now rewrite E.
  - subst sim dist.
    split; [|split]; intros ->; split; reflexivity.
Qed.

Lemma compareNilsimsa_normalization_witness :
  @nilsimsaCompare (fixedSdk 0 0 0 128) (lit "aa") (lit "aa") = Normal 128%Z
  /\ @compareNilsimsa (fixedSdk 0 0 0 128) (lit "aa") (lit "aa")
     = Normal {| ds_distance := (128 - inject_Z 128)%Q;
                 ds_similarity := ((inject_Z 128 + 128) / 256)%Q |}.
Proof.
  assert (H : @nilsimsaCompare (fixedSdk 0 0 0 128) (lit "aa") (lit "aa")
              = Normal 128%Z) by reflexivity.
  split; [exact H|].
  exact (proj1 (compareNilsimsa_normalization
                  (fixedSdk 0 0 0 128) (lit "aa") (lit "aa") 128%Z H)).
Defined.

(** ** Ids the switch does not name *)

(** C4: for every id other than ["simhash"], ["minhash"],
    ["bbitminhash"], ["superminhash"], ["nilsimsa"] and ["imatch"],
    [compareSimilarityHashes] fulfils its promise with the generic
    Hamming distance of the two inputs; it never rejects. *)
Theorem unknown_id_uses_hamming
    (sdk : Sdk) (algorithm hash1 hash2 : jsstring) :
  ~ In algorithm dispatchIds ->
  compareSimilarityHashes algorithm hash1 hash2
  = Fulfilled (Some {| distance := Some (inject_Z (hammingDistance hash1 hash2));
                       similarity := None |}).
Proof.
  intros H. apply dispatch_fallback. apply mem_not_In.
  intros Hin. apply H. unfold dispatchIds. apply in_or_app. now left.
Qed.

Lemma unknown_id_uses_hamming_witness :
  ~ In (lit "tlsh") dispatchIds
  /\ @compareSimilarityHashes throwingSdk (lit "tlsh") (lit "0f") (lit "f0")
     = Fulfilled (Some {| distance := Some (inject_Z 8); similarity := None |}).
Proof.
  assert (H : ~ In (lit "tlsh") dispatchIds).
  { vm_compute. intuition discriminate. }
  split; [exact H|].
  exact (unknown_id_uses_hamming throwingSdk
           (lit "tlsh") (lit "0f") (lit "f0") H).
Defined.

(** ** Symmetry of the generic distance *)

(** C6: for all strings [hex1] and [hex2] of equal length,
    [hammingDistance hex1 hex2 = hammingDistance hex2 hex1]. *)
Theorem hammingDistance_sym (hex1 hex2 : jsstring) :
  List.length hex1 = List.length hex2 ->
  hammingDistance hex1 hex2 = hammingDistance hex2 hex1.
Proof.
  intros H. unfold hammingDistance. rewrite H, Nat.eqb_refl. simpl.
  apply fold_left_ext_in. intros d i _. apply hammingStep_sym.
Qed.

Lemma hammingDistance_sym_witness :
  List.length (lit "a3f0") = List.length (lit "19c4")
  /\ hammingDistance (lit "a3f0") (lit "19c4")
     = hammingDistance (lit "19c4") (lit "a3f0").
Proof.
  assert (H : List.length (lit "a3f0") = List.length (lit "19c4"))
    by reflexivity.
  split; [exact H|].
  exact (hammingDistance_sym (lit "a3f0") (lit "19c4") H).
Defined.

(** On lengths that differ both orders give -1. *)
Lemma hammingDistance_mismatch_sym (hex1 hex2 : jsstring) :
  List.length hex1 <> List.length hex2 ->
  hammingDistance hex1 hex2 = (-1)%Z /\ hammingDistance hex2 hex1 = (-1)%Z.
Proof.
  intros N. split; apply hammingDistance_mismatch; congruence.
Qed.

(** ** Shape of a result *)

(** C7: whenever the promise of [compareSimilarityHashes] is fulfilled
    with a result other than [null], that result has a distance or a
    similarity; no result with both fields absent is ever returned. *)
Theorem success_has_metric
    (sdk : Sdk) (algorithm hash1 hash2 : jsstring) (r : Metrics) :
  compareSimilarityHashes algorithm hash1 hash2 = Fulfilled (Some r) ->
  distance r <> None \/ similarity r <> None.
Proof.
  unfold compareSimilarityHashes.
  destruct (str_eqb algorithm (lit "simhash")).
  { destruct (compareSimHash hash1 hash2); [|discriminate].
    intros [= <-]. left. discriminate. }
  destruct (mem algorithm minhashIds).
  { destruct (compareMinHash hash1 hash2); simpl; [|discriminate].
    intros [= <-]. right. discriminate. }
  destruct (str_eqb algorithm (lit "nilsimsa")).
  { destruct (compareNilsimsa hash1 hash2); [|discriminate].
    intros [= <-]. left. discriminate. }
  destruct (str_eqb algorithm (lit "imatch"));
    intros [= <-]; left; discriminate.
Qed.

Lemma success_has_metric_witness :
  let r := {| distance := None; similarity := Some (1 # 2) |} in
  @compareSimilarityHashes (fixedSdk 0 0 (1 # 2) 0) (lit "minhash")
    (lit "0000000100000002") (lit "0000000100000003") = Fulfilled (Some r)
  /\ (distance r <> None \/ similarity r <> None).
Proof.
  intros r.
  assert (H : @compareSimilarityHashes (fixedSdk 0 0 (1 # 2) 0)
                (lit "minhash") (lit "0000000100000002")
                (lit "0000000100000003") = Fulfilled (Some r))
    by reflexivity.
  split; [exact H|].
  exact (success_has_metric (fixedSdk 0 0 (1 # 2) 0) (lit "minhash")
           (lit "0000000100000002") (lit "0000000100000003") r H).
Defined.

(** ** Code units that are no hexadecimal digits *)

(** C8, as stated, fails: with the id ["imatch"], the input ["zz"], which
    holds no hexadecimal digit at all, is compared with ["ff"] without any
    failure; the promise is neither rejected nor fulfilled with [null],
    but with the distance 8, which is the distance of ["00"] and
    ["ff"]. *)
Lemma non_hex_input_is_scored :
  let r := @compareSimilarityHashes throwingSdk
             (lit "imatch") (lit "zz") (lit "ff") in
  hexDigit 122%N = None
  /\ r <> Rejected
  /\ r <> Fulfilled None
  /\ r = Fulfilled (Some {| distance := Some (inject_Z 8);
                            similarity := None |}).
Proof. vm_compute. repeat split; discriminate. Qed.

(** C8, amended: for every id routed to the generic fallback and all
    inputs, whatever code units they hold, [compareSimilarityHashes]
    signals no failure; it fulfils its promise with the distance the same
    inputs have once every code unit that is no hexadecimal digit is
    replaced by the digit [0]. *)
Theorem generic_non_hex_read_as_zero
    (sdk : Sdk) (algorithm hash1 hash2 : jsstring) :
  ~ In algorithm bespokeIds ->
  compareSimilarityHashes algorithm hash1 hash2
  = Fulfilled
      (Some {| distance :=
                 Some (inject_Z (hammingDistance (asHex hash1) (asHex hash2)));
               similarity := None |}).
Proof.
  intros Hid. apply mem_not_In in Hid.
  rewrite (dispatch_fallback algorithm hash1 hash2 Hid).
  now rewrite (hammingDistance_asHex hash1 hash2).
Qed.

Lemma generic_non_hex_read_as_zero_witness :
  ~ In (lit "imatch") bespokeIds
  /\ @compareSimilarityHashes throwingSdk (lit "imatch") (lit "g1") (lit "0x")
     = Fulfilled
         (Some {| distance :=
                    Some (inject_Z (hammingDistance (lit "01") (lit "00")));
                  similarity := None |}).
Proof.
  assert (Hid : ~ In (lit "imatch") bespokeIds).
  { vm_compute. intuition discriminate. }
  split; [exact Hid|].
  exact (generic_non_hex_read_as_zero throwingSdk
           (lit "imatch") (lit "g1") (lit "0x") Hid).
Defined.

(** The MinHash parser does not reject such input either: a word without
    a leading digit is stored as 0. *)
Example parseMinHashSignature_non_hex :
  parseMinHashSignature (lit "zzzzzzzz0000002a") = Some [0%Z; 42%Z].
Proof. reflexivity. Qed.

(* ================================================================== *)
(** * The registry and the category slugs *)
(* ================================================================== *)

Import Metadata.

Lemma distinct_NoDup (l : list jsstring) : distinct l = true -> NoDup l.
Proof.
  induction l as [|k l IH]; simpl; intros H; constructor;
    apply andb_true_iff in H; destruct H as [Hk Hl].
  - apply negb_true_iff in Hk. now apply mem_not_In.
  - now apply IH.
Qed.

(** ** The table *)

(** The keys of the literal are ordinary keys, so the object holds them in
    the order written; so are the category titles and their slugs. *)
Lemma registry_keys_plain :
  Forall (fun k => plainKey k = true)
    (List.map fst RAW_HASH_ALGORITHMS_literal
     ++ ALL_CATEGORY_TITLES
     ++ List.map hashCategoryNameToSlug ALL_CATEGORY_TITLES).
Proof. apply Forall_forall, forallb_forall. vm_compute. reflexivity. Qed.

Lemma registry_literal_distinct :
  NoDup (List.map fst RAW_HASH_ALGORITHMS_literal).
Proof. apply distinct_NoDup. vm_compute. reflexivity. Qed.

Lemma HASH_ALGORITHMS_keys :
  keys HASH_ALGORITHMS = List.map fst RAW_HASH_ALGORITHMS_literal.
Proof. vm_compute. reflexivity. Qed.

Lemma HASH_ALGORITHMS_length : List.length HASH_ALGORITHMS = 100%nat.
Proof. vm_compute. reflexivity. Qed.

Lemma registry_compares_only_similarity :
  forallb (fun e => comparesOnlySimilarity (snd e)) HASH_ALGORITHMS = true.
Proof. vm_compute. reflexivity. Qed.

(** C9: every descriptor of [HASH_ALGORITHMS] with
    [supportsComparison: true] has the category ["Similarity"], and no id
    occurs twice: the keys written in the literal are pairwise distinct
    and are, in that order, the keys of [HASH_ALGORITHMS]. *)
Theorem registry_invariant :
  (forall (id : jsstring) (cfg : HashAlgorithm),
      get HASH_ALGORITHMS id = Own cfg ->
      supportsComparison cfg = Some true ->
      category cfg = lit "Similarity")
  /\ NoDup (List.map fst RAW_HASH_ALGORITHMS_literal)
  /\ keys HASH_ALGORITHMS = List.map fst RAW_HASH_ALGORITHMS_literal
  /\ NoDup (keys HASH_ALGORITHMS).
Proof.
  split; [|split; [|split]].
  - intros id cfg Hget Hcmp. apply get_Own_In in Hget.
    pose proof registry_compares_only_similarity as H.
    rewrite forallb_forall in H. specialize (H _ Hget). simpl in H.
    unfold comparesOnlySimilarity in H. rewrite Hcmp in H.
    apply str_eqb_eq. exact H.
  - exact registry_literal_distinct.
  - exact HASH_ALGORITHMS_keys.
  - rewrite HASH_ALGORITHMS_keys. exact registry_literal_distinct.
Qed.

Lemma registry_invariant_witness :
  exists cfg : HashAlgorithm,
    get HASH_ALGORITHMS (lit "simhash") = Own cfg
    /\ supportsComparison cfg = Some true
    /\ category cfg = lit "Similarity".
Proof.
  destruct (get HASH_ALGORITHMS (lit "simhash")) as [cfg| |] eqn:E;
    try (vm_compute in E; discriminate).
  exists cfg. split; [reflexivity|].
  assert (S : supportsComparison cfg = Some true).
  { vm_compute in E. injection E as <-. reflexivity. }
  split; [exact S|].
  exact (proj1 registry_invariant (lit "simhash") cfg E S).
Defined.

(** ** The category titles *)

Lemma ALL_CATEGORY_TITLES_value :
  ALL_CATEGORY_TITLES
  = List.map lit
      [ "Cryptographic"; "SHA-2"; "SHA-3"; "SHAKE"; "BLAKE2";
        "Non-cryptographic"; "Checksum"; "Modern"; "Similarity";
        "Password" ]%string.
Proof. vm_compute. reflexivity. Qed.

(** Loading the module does not throw. *)
Lemma getAlgorithmsByCategory_value :
  exists byCategory : object (list jsstring),
    getAlgorithmsByCategory = Normal byCategory
    /\ keys byCategory = ALL_CATEGORY_TITLES.
Proof.
  unfold ALL_CATEGORY_TITLES.
  destruct getAlgorithmsByCategory as [byCategory|] eqn:E.
  - exists byCategory. split; reflexivity.
  - vm_compute in E. discriminate.
Qed.

Lemma category_titles_ascii :
  Forall (Forall (fun c => (c < 128)%N)) ALL_CATEGORY_TITLES.
Proof.
  rewrite ALL_CATEGORY_TITLES_value.
  repeat constructor.
Qed.

(** The titles are the categories of the descriptors. *)
Lemma category_titles_registered (c : jsstring) :
  In c ALL_CATEGORY_TITLES
  <-> exists id cfg, In (id, cfg) HASH_ALGORITHMS /\ category cfg = c.
Proof.
  split.
  - intros H.
    assert (A : forallb
                  (fun t => existsb (fun e => str_eqb (category (snd e)) t)
                              HASH_ALGORITHMS)
                  ALL_CATEGORY_TITLES = true) by (vm_compute; reflexivity).
    rewrite forallb_forall in A. specialize (A c H).
    apply existsb_exists in A. destruct A as ([id cfg] & Hin & E).
    exists id, cfg. split; [exact Hin|]. apply str_eqb_eq. exact E.
  - intros (id & cfg & Hin & <-).
    assert (A : forallb (fun e => mem (category (snd e)) ALL_CATEGORY_TITLES)
                  HASH_ALGORITHMS = true) by (vm_compute; reflexivity).
    rewrite forallb_forall in A.
    exact (proj1 (mem_In _ _) (A _ Hin)).
Qed.

(** ** Slugs *)

Lemma category_slugs_value :
  List.map hashCategoryNameToSlug ALL_CATEGORY_TITLES
  = List.map lit
      [ "cryptographic"; "sha-2"; "sha-3"; "shake"; "blake2";
        "non-cryptographic"; "checksum"; "modern"; "similarity";
        "password" ]%string.
Proof. vm_compute. reflexivity. Qed.

(** The reverse map has one own property per title, keyed by its slug. *)
Lemma slugToCategoryMap_value :
  slugToCategoryMapOf ALL_CATEGORY_TITLES
  = List.map (fun c => (hashCategoryNameToSlug c, c)) ALL_CATEGORY_TITLES.
Proof. vm_compute. reflexivity. Qed.

Lemma value_eqb_eq (a b : value) : value_eqb a b = true -> a = b.
Proof.
  destruct a, b; simpl; try discriminate;
    intros H; apply str_eqb_eq in H; congruence.
Qed.

(** The round trip, run on every title. *)
Lemma titles_roundtrip_check :
  forallb
    (fun c => value_eqb (hashCategorySlugToName (hashCategoryNameToSlug c))
                (VString c))
    ALL_CATEGORY_TITLES = true.
Proof. vm_compute. reflexivity. Qed.

(** C5: for every category title [c] of the catalog,
    [hashCategorySlugToName (hashCategoryNameToSlug c)] is [c]. *)
Theorem category_slug_roundtrip (c : jsstring) :
  In c ALL_CATEGORY_TITLES ->
  hashCategorySlugToName (hashCategoryNameToSlug c) = VString c.
Proof.
  intros H. apply value_eqb_eq.
  exact (proj1 (forallb_forall _ _) titles_roundtrip_check c H).
Qed.

Lemma category_slug_roundtrip_witness :
  In (lit "Non-cryptographic") ALL_CATEGORY_TITLES
  /\ hashCategorySlugToName (hashCategoryNameToSlug (lit "Non-cryptographic"))
     = VString (lit "Non-cryptographic").
Proof.
  assert (H : In (lit "Non-cryptographic") ALL_CATEGORY_TITLES).
  { vm_compute. do 5 right. left. reflexivity. }
  split; [exact H|].
  exact (category_slug_roundtrip (lit "Non-cryptographic") H).
Defined.

(** The same, for the category of every descriptor. *)
Lemma descriptor_category_roundtrip (id : jsstring) (cfg : HashAlgorithm) :
  get HASH_ALGORITHMS id = Own cfg ->
  hashCategorySlugToName (hashCategoryNameToSlug (category cfg))
  = VString (category cfg).
Proof.
  intros H. apply value_eqb_eq.
  apply (proj1 (forallb_forall _ _) titles_roundtrip_check (category cfg)).
  apply (proj2 (category_titles_registered (category cfg))).
  exists id, cfg. split; [exact (get_Own_In _ _ _ H) | reflexivity].
Qed.

(** ** Slugs of no category *)

(** A slug that is the slug of no title and the name of no member of
    [Object.prototype] comes back unchanged. *)
Lemma unknown_slug_unchanged (slug : jsstring) :
  ~ In slug (List.map hashCategoryNameToSlug ALL_CATEGORY_TITLES) ->
  ~ In slug objectPrototypeKeys ->
  hashCategorySlugToName slug = VString slug.
Proof.
  intros Hslug Hproto.
  unfold hashCategorySlugToName, lookupOr, get.
  rewrite getOwn_None.
  - apply mem_not_In in Hproto. rewrite Hproto. reflexivity.
  - rewrite slugToCategoryMap_value. unfold keys.
    rewrite map_map. exact Hslug.
Qed.

Example not_a_real_slug_unchanged :
  hashCategorySlugToName (lit "not-a-real-slug")
  = VString (lit "not-a-real-slug").
Proof. reflexivity. Qed.

(** The name of a member of [Object.prototype] is found on the prototype
    of the reverse map: the function returns that member. *)
Lemma inherited_slug_returns_member (slug : jsstring) :
  In slug objectPrototypeKeys ->
  hashCategorySlugToName slug = VBuiltin slug.
Proof.
  intros H. unfold objectPrototypeKeys in H. simpl in H.
  decompose [or] H; try contradiction; subst slug; vm_compute; reflexivity.
Qed.

(** C10 at the slug ["constructor"]: it is the slug of no category title,
    and [hashCategorySlugToName] does not return it; the lookup in the
    reverse map finds [Object.prototype.constructor], which is truthy, and
    that function is the result. *)
Theorem constructor_slug_not_returned :
  ~ In (lit "constructor")
      (List.map hashCategoryNameToSlug ALL_CATEGORY_TITLES)
  /\ hashCategorySlugToName (lit "constructor")
     = VBuiltin (lit "constructor")
  /\ hashCategorySlugToName (lit "constructor")
     <> VString (lit "constructor").
Proof.
  split; [|split].
  - rewrite category_slugs_value. vm_compute. intuition discriminate.
  - vm_compute. reflexivity.
  - vm_compute. discriminate.
Qed.

(* ================================================================== *)
(** * More on the generic Hamming distance *)
(* ================================================================== *)

Import Reference.

Lemma hexDigit_range (c : codeunit) (d : Z) :
  hexDigit c = Some d -> (0 <= d <= 15)%Z.
Proof.
  unfold hexDigit.
  destruct (N.leb_spec 48 c), (N.leb_spec c 57), (N.leb_spec 97 c),
    (N.leb_spec c 102), (N.leb_spec 65 c), (N.leb_spec c 70);
    simpl; intros [= <-]; lia.
Qed.

Lemma nibble_range (c : codeunit) : (0 <= nibble c <= 15)%Z.
Proof.
  unfold nibble. destruct (hexDigit c) as [d|] eqn:E; simpl; [|lia].
  apply hexDigit_range in E.
  rewrite Z.mod_small by lia. lia.
Qed.

Lemma nibble_in_nibbles (c : codeunit) : In (nibble c) nibbles.
Proof.
  pose proof (nibble_range c) as R. unfold nibbles.
  apply in_map_iff. exists (Z.to_nat (nibble c)). split; [lia|].
  apply in_seq. lia.
Qed.

Lemma nibble_hexDigit (c : codeunit) (d : Z) :
  hexDigit c = Some d -> nibble c = d.
Proof.
  intros E. unfold nibble. rewrite E. apply hexDigit_range in E. simpl.
  rewrite Z.mod_small by lia. lia.
Qed.

(** What one turn of the loop adds. *)
Lemma hammingStep_head (a b : codeunit) (h1 h2 : jsstring) (d : Z) :
  hammingStep (a :: h1) (b :: h2) d 0
  = (d + lowNibbleBits (Z.lxor (nibble a) (nibble b)))%Z.
Proof.
  unfold hammingStep, charAt. simpl. now rewrite !parseInt16_single.
Qed.

Lemma hammingStep_tail (a b : codeunit) (h1 h2 : jsstring) (d : Z) (i : nat) :
  hammingStep (a :: h1) (b :: h2) d (S i) = hammingStep h1 h2 d i.
Proof. reflexivity. Qed.

Lemma hammingLoop_tail (a b : codeunit) (h1 h2 : jsstring) (n : nat) :
  forall (s : nat) (d : Z),
    fold_left (hammingStep (a :: h1) (b :: h2)) (seq (S s) n) d
    = fold_left (hammingStep h1 h2) (seq s n) d.
Proof.
  induction n as [|n IH]; intros s d; simpl; [reflexivity|].
  rewrite hammingStep_tail. apply IH.
Qed.

Lemma hammingLoop_shift (h1 h2 : jsstring) (l : list nat) :
  forall d : Z,
    fold_left (hammingStep h1 h2) l d
    = (d + fold_left (hammingStep h1 h2) l 0)%Z.
Proof.
  induction l as [|i l IH]; intros d; cbn [fold_left]; [lia|].
  rewrite IH. rewrite (IH (hammingStep h1 h2 0 i)).
  unfold hammingStep. lia.
Qed.

(** The loop over the indices adds up the positions one by one. *)
Lemma hammingDistance_positions (hex1 hex2 : jsstring) :
  List.length hex1 = List.length hex2 ->
  hammingDistance hex1 hex2 = nibbleDistance hex1 hex2.
Proof.
  intros H. unfold hammingDistance. rewrite H, Nat.eqb_refl. simpl.
  rewrite <- H. revert hex2 H.
  induction hex1 as [|a h1 IH]; intros [|b h2] H; try discriminate H;
    [reflexivity|].
  injection H as H.
  cbn [List.length seq fold_left nibbleDistance].
  rewrite hammingStep_head, hammingLoop_tail, hammingLoop_shift.
  rewrite (IH h2 H). lia.
Qed.

Lemma land_1_range (x : Z) : (0 <= Z.land x 1 <= 1)%Z.
Proof.
  change 1%Z with (Z.ones 1) at 1 2. rewrite Z.land_ones by lia.
  pose proof (Z.mod_pos_bound x (2 ^ 1) eq_refl). lia.
Qed.

Lemma lowNibbleBits_range (x : Z) : (0 <= lowNibbleBits x <= 4)%Z.
Proof.
  unfold lowNibbleBits.
  pose proof (land_1_range x).
  pose proof (land_1_range (Z.shiftr x 1)).
  pose proof (land_1_range (Z.shiftr x 2)).
  pose proof (land_1_range (Z.shiftr x 3)).
  lia.
Qed.

(** On nibbles the bit count of the xor is 0 for equal values only, and
    obeys the triangle inequality; both by running the 16 values. *)
Lemma nibble_bits_zero (x y : Z) :
  In x nibbles -> In y nibbles ->
  lowNibbleBits (Z.lxor x y) = 0%Z -> x = y.
Proof.
  intros Hx Hy.
  assert (A : forallb (fun x => forallb (fun y =>
                implb (lowNibbleBits (Z.lxor x y) =? 0)%Z (x =? y)%Z)
                nibbles) nibbles = true) by (vm_compute; reflexivity).
  rewrite forallb_forall in A. specialize (A x Hx).
  rewrite forallb_forall in A. specialize (A y Hy).
  intros E. rewrite E in A. simpl in A. now apply Z.eqb_eq.
Qed.

Lemma nibble_bits_triangle (x y z : Z) :
  In x nibbles -> In y nibbles -> In z nibbles ->
  (lowNibbleBits (Z.lxor x z)
   <= lowNibbleBits (Z.lxor x y) + lowNibbleBits (Z.lxor y z))%Z.
Proof.
  intros Hx Hy Hz.
  assert (A : forallb (fun x => forallb (fun y => forallb (fun z =>
                (lowNibbleBits (Z.lxor x z)
                 <=? lowNibbleBits (Z.lxor x y) + lowNibbleBits (Z.lxor y z))%Z)
                nibbles) nibbles) nibbles = true) by (vm_compute; reflexivity).
  rewrite forallb_forall in A. specialize (A x Hx).
  rewrite forallb_forall in A. specialize (A y Hy).
  rewrite forallb_forall in A. specialize (A z Hz).
  now apply Z.leb_le.
Qed.

Lemma nibbleDistance_range (hex1 hex2 : jsstring) :
  (0 <= nibbleDistance hex1 hex2 <= 4 * Z.of_nat (List.length hex1))%Z.
Proof.
  revert hex2. induction hex1 as [|a h1 IH]; intros [|b h2];
    cbn [nibbleDistance List.length]; try lia.
  pose proof (IH h2).
  pose proof (lowNibbleBits_range (Z.lxor (nibble a) (nibble b))).
  lia.
Qed.

Lemma nibbleDistance_self (hex : jsstring) : nibbleDistance hex hex = 0%Z.
Proof.
  induction hex as [|a h IH]; cbn [nibbleDistance]; [reflexivity|].
  now rewrite Z.lxor_nilpotent, IH.
Qed.

Lemma nibbleDistance_app (a b c d : jsstring) :
  List.length a = List.length c ->
  nibbleDistance (a ++ b) (c ++ d)
  = (nibbleDistance a c + nibbleDistance b d)%Z.
Proof.
  revert c. induction a as [|x a IH]; intros [|y c] H; try discriminate H.
  - reflexivity.
  - injection H as H. cbn [app nibbleDistance]. rewrite (IH c H). lia.
Qed.

(** X1: a string is at distance 0 from itself, whatever code units it
    holds. *)
Theorem hammingDistance_self (hex : jsstring) : hammingDistance hex hex = 0%Z.
Proof.
  rewrite (hammingDistance_positions hex hex eq_refl).
  apply nibbleDistance_self.
Qed.

(** X2: on two strings of the same length the distance lies between 0 and
    four times that length. *)
Theorem hammingDistance_range (hex1 hex2 : jsstring) :
  List.length hex1 = List.length hex2 ->
  (0 <= hammingDistance hex1 hex2 <= 4 * Z.of_nat (List.length hex1))%Z.
Proof.
  intros H. rewrite (hammingDistance_positions hex1 hex2 H).
  apply nibbleDistance_range.
Qed.

Lemma hammingDistance_range_witness :
  List.length (lit "00ff") = List.length (lit "ffff")
  /\ (0 <= hammingDistance (lit "00ff") (lit "ffff")
      <= 4 * Z.of_nat (List.length (lit "00ff")))%Z.
Proof.
  assert (H : List.length (lit "00ff") = List.length (lit "ffff"))
    by reflexivity.
  split; [exact H|].
  exact (hammingDistance_range (lit "00ff") (lit "ffff") H).
Defined.

(** X3: the result is negative exactly when the two lengths differ, and is
    then -1; so the sentinel never collides with a distance. *)
Theorem hammingDistance_sentinel_iff (hex1 hex2 : jsstring) :
  ((hammingDistance hex1 hex2 < 0)%Z
   <-> List.length hex1 <> List.length hex2)
  /\ ((hammingDistance hex1 hex2 < 0)%Z
      <-> hammingDistance hex1 hex2 = (-1)%Z).
Proof.
  destruct (Nat.eq_dec (List.length hex1) (List.length hex2)) as [E|N].
  - pose proof (nibbleDistance_range hex1 hex2) as R.
    rewrite (hammingDistance_positions hex1 hex2 E).
    split; split; intros H; try lia; contradiction.
  - rewrite (hammingDistance_mismatch hex1 hex2 N).
    split; split; intros _; try lia; exact N.
Qed.

(** X4: the distance is 0 exactly when the lengths agree and every
    position holds the same digit value on both sides, a code unit that is
    no digit counting as 0; the two strings need not be equal. *)
Theorem hammingDistance_zero_iff (hex1 hex2 : jsstring) :
  hammingDistance hex1 hex2 = 0%Z
  <-> List.length hex1 = List.length hex2
      /\ List.map nibble hex1 = List.map nibble hex2.
Proof.
  split.
  - intros H.
    destruct (Nat.eq_dec (List.length hex1) (List.length hex2)) as [E|N].
    + split; [exact E|].
      rewrite (hammingDistance_positions hex1 hex2 E) in H.
      revert hex2 E H.
      induction hex1 as [|a h1 IH]; intros [|b h2] E H;
        try discriminate E; [reflexivity|].
      injection E as E. cbn [nibbleDistance List.map] in *.
      pose proof (nibbleDistance_range h1 h2).
      pose proof (lowNibbleBits_range (Z.lxor (nibble a) (nibble b))).
      f_equal.
      * apply nibble_bits_zero; try apply nibble_in_nibbles. lia.
      * apply (IH h2 E). lia.
    + rewrite (hammingDistance_mismatch hex1 hex2 N) in H. discriminate.
  - intros [E M]. rewrite (hammingDistance_positions hex1 hex2 E).
    revert hex2 E M.
    induction hex1 as [|a h1 IH]; intros [|b h2] E M;
      try discriminate E; [reflexivity|].
    injection E as E. cbn [nibbleDistance List.map] in *.
    injection M as Hab M. rewrite Hab, Z.lxor_nilpotent, (IH h2 E M).
    reflexivity.
Qed.

(** X5: on three strings of one length the distance obeys the triangle
    inequality. *)
Theorem hammingDistance_triangle (hex1 hex2 hex3 : jsstring) :
  List.length hex1 = List.length hex2 ->
  List.length hex2 = List.length hex3 ->
  (hammingDistance hex1 hex3
   <= hammingDistance hex1 hex2 + hammingDistance hex2 hex3)%Z.
Proof.
  intros E12 E23.
  rewrite (hammingDistance_positions hex1 hex2 E12).
  rewrite (hammingDistance_positions hex2 hex3 E23).
  rewrite (hammingDistance_positions hex1 hex3 (eq_trans E12 E23)).
  revert hex2 hex3 E12 E23.
  induction hex1 as [|a h1 IH]; intros [|b h2] [|c h3] E12 E23;
    try discriminate E12; try discriminate E23; [reflexivity|].
  injection E12 as E12. injection E23 as E23. cbn [nibbleDistance].
  pose proof (IH h2 h3 E12 E23).
  pose proof (nibble_bits_triangle (nibble a) (nibble b) (nibble c)
                (nibble_in_nibbles a) (nibble_in_nibbles b)
                (nibble_in_nibbles c)).
  lia.
Qed.

Lemma hammingDistance_triangle_witness :
  List.length (lit "0f") = List.length (lit "ff")
  /\ List.length (lit "ff") = List.length (lit "f0")
  /\ (hammingDistance (lit "0f") (lit "f0")
      <= hammingDistance (lit "0f") (lit "ff")
         + hammingDistance (lit "ff") (lit "f0"))%Z.
Proof.
  assert (E12 : List.length (lit "0f") = List.length (lit "ff"))
    by reflexivity.
  assert (E23 : List.length (lit "ff") = List.length (lit "f0"))
    by reflexivity.
  split; [exact E12|]. split; [exact E23|].
  exact (hammingDistance_triangle (lit "0f") (lit "ff") (lit "f0") E12 E23).
Defined.

(** X6: the distance of two concatenations is the sum of the distances of
    the parts, when the parts have pairwise the same length. *)
Theorem hammingDistance_app (a b c d : jsstring) :
  List.length a = List.length c ->
  List.length b = List.length d ->
  hammingDistance (a ++ b) (c ++ d)
  = (hammingDistance a c + hammingDistance b d)%Z.
Proof.
  intros Hac Hbd.
  assert (H : List.length (a ++ b) = List.length (c ++ d)).
  { rewrite !length_app. congruence. }
  rewrite (hammingDistance_positions _ _ H).
  rewrite (hammingDistance_positions a c Hac).
  rewrite (hammingDistance_positions b d Hbd).
  apply nibbleDistance_app. exact Hac.
Qed.

Lemma hammingDistance_app_witness :
  List.length (lit "a1") = List.length (lit "b2")
  /\ List.length (lit "c3d") = List.length (lit "e4f")
  /\ hammingDistance (lit "a1" ++ lit "c3d") (lit "b2" ++ lit "e4f")
     = (hammingDistance (lit "a1") (lit "b2")
        + hammingDistance (lit "c3d") (lit "e4f"))%Z.
Proof.
  assert (Hac : List.length (lit "a1") = List.length (lit "b2"))
    by reflexivity.
  assert (Hbd : List.length (lit "c3d") = List.length (lit "e4f"))
    by reflexivity.
  split; [exact Hac|]. split; [exact Hbd|].
  exact (hammingDistance_app (lit "a1") (lit "c3d") (lit "b2") (lit "e4f")
           Hac Hbd).
Defined.

(* ================================================================== *)
(** * More on the dispatch *)
(* ================================================================== *)

Lemma setAt_length (a : list Z) (i : nat) (v : Z) :
  List.length (setAt a i v) = List.length a.
Proof.
  revert i. induction a as [|x a IH]; intros [|i]; simpl; congruence.
Qed.

Lemma setAt_app (p : list Z) (x v : Z) (t : list Z) :
  setAt (p ++ x :: t) (List.length p) v = p ++ v :: t.
Proof. induction p as [|y p IH]; simpl; congruence. Qed.

Lemma skipn_cons_nth {A} (l : list A) (k : nat) (d : A) :
  (k < List.length l)%nat -> skipn k l = nth k l d :: skipn (S k) l.
Proof.
  revert k. induction l as [|x l IH]; intros [|k] H; simpl in *;
    try lia; [reflexivity|].
  apply IH. lia.
Qed.

(** The loop of [parseMinHashSignature] fills the array from the left: after
    [k] turns the first [k] cells hold their words and the others are
    untouched. *)
Lemma parseLoop_prefix (hex : jsstring) (sig : list Z) (k : nat) :
  (k <= List.length sig)%nat ->
  fold_left (parseStep hex) (seq 0 k) sig
  = List.map (wordAt hex) (seq 0 k) ++ skipn k sig.
Proof.
  induction k as [|k IH]; intros H; [reflexivity|].
  rewrite seq_S, fold_left_app, map_app. simpl.
  rewrite IH by lia. unfold parseStep at 1. fold (wordAt hex k).
  rewrite (skipn_cons_nth sig k 0%Z) by lia.
  pose proof (setAt_app (List.map (wordAt hex) (seq 0 k)) (nth k sig 0%Z)
                (wordAt hex k) (skipn (S k) sig)) as E.
  rewrite length_map, length_seq in E. rewrite E, <- app_assoc. reflexivity.
Qed.

Lemma parseMinHashSignature_map (hex : jsstring) :
  Nat.modulo (List.length hex) 8 = 0%nat ->
  parseMinHashSignature hex
  = Some (List.map (wordAt hex) (seq 0 (Nat.div (List.length hex) 8))).
Proof.
  intros H. unfold parseMinHashSignature. rewrite H. simpl. f_equal.
  rewrite parseLoop_prefix
    by (unfold newUint32Array; rewrite repeat_length; lia).
  unfold newUint32Array.
  rewrite skipn_all2 by (rewrite repeat_length; lia).
  apply app_nil_r.
Qed.

Lemma toUint32_range (x : option Z) : (0 <= toUint32 x < 2 ^ 32)%Z.
Proof.
  destruct x as [v|]; simpl; [|lia].
  apply Z.mod_pos_bound. reflexivity.
Qed.

Lemma parseMinHashSignature_None (hex : jsstring) :
  parseMinHashSignature hex = None
  <-> Nat.modulo (List.length hex) 8 <> 0%nat.
Proof.
  split.
  - intros H E. rewrite (parseMinHashSignature_map hex E) in H. discriminate.
  - apply parseMinHashSignature_ragged.
Qed.

(** X7: an input whose length is a multiple of 8 always parses: the
    signature has one word per 8 code units, word [i] is [parseInt] of the
    [i]-th group of 8 converted to an unsigned 32-bit integer, and every
    word lies in [0, 2^32). *)
Theorem parseMinHashSignature_words (hex : jsstring) :
  Nat.modulo (List.length hex) 8 = 0%nat ->
  exists sig : list Z,
    parseMinHashSignature hex = Some sig
    /\ List.length sig = Nat.div (List.length hex) 8
    /\ (forall i : nat,
          (i < Nat.div (List.length hex) 8)%nat ->
          nth_error sig i = Some (wordAt hex i))
    /\ Forall (fun w => (0 <= w < 2 ^ 32)%Z) sig.
Proof.
  intros H. eexists. split; [exact (parseMinHashSignature_map hex H)|].
  split; [|split].
  - now rewrite length_map, length_seq.
  - intros i Hi. rewrite nth_error_map, nth_error_seq.
    apply Nat.ltb_lt in Hi. now rewrite Hi.
  - apply Forall_forall. intros w Hw. apply in_map_iff in Hw.
    destruct Hw as (i & <- & _). apply toUint32_range.
Qed.

Lemma parseMinHashSignature_words_witness :
  Nat.modulo (List.length (lit "0000002aFFFFFFFF")) 8 = 0%nat
  /\ exists sig : list Z,
       parseMinHashSignature (lit "0000002aFFFFFFFF") = Some sig
       /\ List.length sig = Nat.div (List.length (lit "0000002aFFFFFFFF")) 8
       /\ (forall i : nat,
             (i < Nat.div (List.length (lit "0000002aFFFFFFFF")) 8)%nat ->
             nth_error sig i = Some (wordAt (lit "0000002aFFFFFFFF") i))
       /\ Forall (fun w => (0 <= w < 2 ^ 32)%Z) sig.
Proof.
  assert (H : Nat.modulo (List.length (lit "0000002aFFFFFFFF")) 8 = 0%nat)
    by reflexivity.
  split; [exact H|].
  exact (parseMinHashSignature_words (lit "0000002aFFFFFFFF") H).
Defined.

Section DispatchFacts.
Context {sdk : Sdk}.

Lemma compareMinHash_None (hash1 hash2 : jsstring) :
  compareMinHash hash1 hash2 = None
  <-> Nat.modulo (List.length hash1) 8 <> 0%nat
      \/ Nat.modulo (List.length hash2) 8 <> 0%nat
      \/ exists sig1 sig2 : list Z,
           parseMinHashSignature hash1 = Some sig1
           /\ parseMinHashSignature hash2 = Some sig2
           /\ minhashJaccard sig1 sig2 = Throw.
Proof.
  unfold compareMinHash. split.
  - destruct (parseMinHashSignature hash1) as [s1|] eqn:E1.
    + destruct (parseMinHashSignature hash2) as [s2|] eqn:E2.
      * destruct (minhashJaccard s1 s2) eqn:J; [discriminate|].
        intros _. right. right. exists s1, s2. now repeat split.
      * intros _. right. left. now apply parseMinHashSignature_None.
    + intros _. left. now apply parseMinHashSignature_None.
  - intros [H|[H|(s1 & s2 & E1 & E2 & J)]].
    + apply parseMinHashSignature_None in H. now rewrite H.
    + apply parseMinHashSignature_None in H. rewrite H.
      now destruct (parseMinHashSignature hash1).
    + now rewrite E1, E2, J.
Qed.

End DispatchFacts.

(** X8: the promise of [compareSimilarityHashes] is rejected in two cases
    only: the id is ["simhash"] and one of the two SimHash functions of
    the SDK throws, or the id is ["nilsimsa"] and the correlation function
    throws.  An exception of the Jaccard function never rejects it. *)
Theorem rejected_iff (sdk : Sdk) (algorithm hash1 hash2 : jsstring) :
  compareSimilarityHashes algorithm hash1 hash2 = Rejected
  <-> (algorithm = lit "simhash"
       /\ (simhashHammingDistance hash1 hash2 = Throw
           \/ simhashSimilarity hash1 hash2 = Throw))
      \/ (algorithm = lit "nilsimsa" /\ nilsimsaCompare hash1 hash2 = Throw).
Proof.
  unfold compareSimilarityHashes, compareSimHash, compareNilsimsa. split.
  - destruct (str_eqb algorithm (lit "simhash")) eqn:S.
    { apply str_eqb_eq in S. intros H. left. split; [exact S|].
      destruct (simhashHammingDistance hash1 hash2); [|now left].
      destruct (simhashSimilarity hash1 hash2); [discriminate|now right]. }
    destruct (mem algorithm minhashIds); [discriminate|].
    destruct (str_eqb algorithm (lit "nilsimsa")) eqn:N.
    { apply str_eqb_eq in N. intros H. right. split; [exact N|].
      destruct (nilsimsaCompare hash1 hash2); [discriminate|reflexivity]. }
    destruct (str_eqb algorithm (lit "imatch")); discriminate.
  - intros [[-> [H|H]]|[-> H]]; cbn [str_eqb lit]; simpl.
    + now rewrite H.
    + rewrite H. now destruct (simhashHammingDistance hash1 hash2).
    + now rewrite H.
Qed.

(** X9: the promise is fulfilled with [null] exactly when the id is one of
    the three MinHash ids and either the length of an input is no multiple
    of 8 or the Jaccard function of the SDK throws on the two parsed
    signatures. *)
Theorem null_iff (sdk : Sdk) (algorithm hash1 hash2 : jsstring) :
  compareSimilarityHashes algorithm hash1 hash2 = Fulfilled None
  <-> In algorithm minhashIds
      /\ (Nat.modulo (List.length hash1) 8 <> 0%nat
          \/ Nat.modulo (List.length hash2) 8 <> 0%nat
          \/ exists sig1 sig2 : list Z,
               parseMinHashSignature hash1 = Some sig1
               /\ parseMinHashSignature hash2 = Some sig2
               /\ minhashJaccard sig1 sig2 = Throw).
Proof.
  rewrite <- compareMinHash_None. split.
  - unfold compareSimilarityHashes.
    destruct (str_eqb algorithm (lit "simhash")).
    { destruct (compareSimHash hash1 hash2); discriminate. }
    destruct (mem algorithm minhashIds) eqn:M.
    { apply mem_In in M. intros H. split; [exact M|].
      destruct (compareMinHash hash1 hash2); [discriminate|reflexivity]. }
    destruct (str_eqb algorithm (lit "nilsimsa")).
    { destruct (compareNilsimsa hash1 hash2); discriminate. }
    destruct (str_eqb algorithm (lit "imatch")); discriminate.
  - intros [Hid H]. rewrite (dispatch_minhash algorithm hash1 hash2 Hid).
    now rewrite H.
Qed.

(** X10: for a MinHash id and two inputs whose lengths are multiples of 8,
    the SDK is asked for the Jaccard estimate of the two sequences of
    words, and its answer is returned as the similarity, with no
    distance. *)
Theorem minhash_scores_words
    (sdk : Sdk) (algorithm hash1 hash2 : jsstring) (j : Q) :
  In algorithm minhashIds ->
  Nat.modulo (List.length hash1) 8 = 0%nat ->
  Nat.modulo (List.length hash2) 8 = 0%nat ->
  minhashJaccard
    (List.map (wordAt hash1) (seq 0 (Nat.div (List.length hash1) 8)))
    (List.map (wordAt hash2) (seq 0 (Nat.div (List.length hash2) 8)))
  = Normal j ->
  compareSimilarityHashes algorithm hash1 hash2
  = Fulfilled (Some {| distance := None; Similarity.similarity := Some j |}).
Proof.
  intros Hid H1 H2 J. rewrite (dispatch_minhash algorithm hash1 hash2 Hid).
  unfold compareMinHash.
  rewrite (parseMinHashSignature_map hash1 H1).
  rewrite (parseMinHashSignature_map hash2 H2).
  now rewrite J.
Qed.

Lemma minhash_scores_words_witness :
  In (lit "minhash") minhashIds
  /\ Nat.modulo (List.length (lit "0000000100000002")) 8 = 0%nat
  /\ Nat.modulo (List.length (lit "0000000100000003")) 8 = 0%nat
  /\ @compareSimilarityHashes (fixedSdk 0 0 (1 # 2) 0) (lit "minhash")
       (lit "0000000100000002") (lit "0000000100000003")
     = Fulfilled (Some {| distance := None;
                          Similarity.similarity := Some (1 # 2) |}).
Proof.
  assert (Hid : In (lit "minhash") minhashIds) by (left; reflexivity).
  assert (H1 : Nat.modulo (List.length (lit "0000000100000002")) 8 = 0%nat)
    by reflexivity.
  assert (H2 : Nat.modulo (List.length (lit "0000000100000003")) 8 = 0%nat)
    by reflexivity.
  split; [exact Hid|]. split; [exact H1|]. split; [exact H2|].
  exact (minhash_scores_words (fixedSdk 0 0 (1 # 2) 0) (lit "minhash")
           (lit "0000000100000002") (lit "0000000100000003") (1 # 2)
           Hid H1 H2 eq_refl).
Defined.



(* ================================================================== *)
(** * More on the slugs *)
(* ================================================================== *)

Import Shape.

Lemma dropWhile_head_false (p : codeunit -> bool) (c : codeunit)
    (s : jsstring) :
  p c = false -> dropWhile p (c :: s) = c :: s.
Proof. intros H. simpl. now rewrite H. Qed.

Lemma dropWhile_none (p : codeunit -> bool) (s : jsstring) :
  forallb (fun c => negb (p c)) s = true -> dropWhile p s = s.
Proof.
  destruct s as [|c s]; [reflexivity|]. simpl.
  intros H. apply andb_true_iff in H. destruct H as [H _].
  apply negb_true_iff in H. now rewrite H.
Qed.

(** [trim] leaves a string without white space alone. *)
Lemma trim_none (s : jsstring) :
  forallb (fun c => negb (isWhiteSpace c)) s = true -> trim s = s.
Proof.
  intros H. unfold trim. rewrite (dropWhile_none isWhiteSpace s H).
  rewrite dropWhile_none; [apply rev_involutive|].
  apply forallb_forall. intros c Hc. apply In_rev in Hc.
  rewrite forallb_forall in H. now apply H.
Qed.

Lemma replaceRuns_forall (C P Q : codeunit -> bool) (r : jsstring) :
  (forall c, P c = true -> C c = false -> Q c = true) ->
  forallb Q r = true ->
  forall (s : jsstring) (inRun : bool),
    forallb P s = true -> forallb Q (replaceRuns C r inRun s) = true.
Proof.
  intros HPQ Hr. induction s as [|c s IH]; intros inRun H; [reflexivity|].
  simpl in H. apply andb_true_iff in H. destruct H as [Hc Hs].
  simpl. destruct (C c) eqn:E.
  - destruct inRun; [now apply IH|].
    rewrite forallb_app, Hr. now apply IH.
  - simpl. rewrite (HPQ c Hc E). now apply IH.
Qed.

(** A string without any unit of the class is left as it is. *)
Lemma replaceRuns_none (C : codeunit -> bool) (r : jsstring) (s : jsstring) :
  forallb (fun c => negb (C c)) s = true ->
  forall inRun : bool, replaceRuns C r inRun s = s.
Proof.
  induction s as [|c s IH]; intros H inRun; [reflexivity|].
  simpl in H. apply andb_true_iff in H. destruct H as [Hc Hs].
  apply negb_true_iff in Hc. simpl. rewrite Hc. f_equal. now apply IH.
Qed.

Lemma noDoubleHyphen_cons (a b : codeunit) (t : jsstring) :
  noDoubleHyphen (a :: b :: t)
  = negb (isHyphen a && isHyphen b) && noDoubleHyphen (b :: t).
Proof. reflexivity. Qed.

(** After the hyphen runs are replaced no two hyphens are adjacent, and
    when the unit before was a hyphen the result does not start with
    one. *)
Lemma replaceRuns_hyphen_single (s : jsstring) :
  forall inRun : bool,
    noDoubleHyphen (replaceRuns isHyphen (lit "-") inRun s) = true
    /\ (inRun = true ->
        match replaceRuns isHyphen (lit "-") inRun s with
        | c :: _ => isHyphen c = false
        | [] => True
        end).
Proof.
  induction s as [|c s IH]; intros inRun; [split; [reflexivity | intros _; exact I]|].
  cbn [replaceRuns]. destruct (isHyphen c) eqn:E.
  - destruct inRun.
    + apply IH.
    + destruct (IH true) as [N H]. specialize (H eq_refl).
      split; [|discriminate].
      change (lit "-" ++ replaceRuns isHyphen (lit "-") true s)
        with (45%N :: replaceRuns isHyphen (lit "-") true s).
      destruct (replaceRuns isHyphen (lit "-") true s) as [|d t];
        [reflexivity|].
      rewrite noDoubleHyphen_cons.
      change (isHyphen 45%N) with true. rewrite H. exact N.
  - destruct (IH false) as [N _]. split; [|intros _; exact E].
    destruct (replaceRuns isHyphen (lit "-") false s) as [|d t];
      [reflexivity|].
    rewrite noDoubleHyphen_cons, E. exact N.
Qed.

(** A string with single hyphens only is left as it is. *)
Lemma replaceRuns_hyphen_fixed (s : jsstring) :
  noDoubleHyphen s = true ->
  forall inRun : bool,
    (inRun = true -> match s with c :: _ => isHyphen c = false | [] => True end) ->
    replaceRuns isHyphen (lit "-") inRun s = s.
Proof.
  induction s as [|c s IH]; intros N inRun H; [reflexivity|].
  cbn [replaceRuns]. destruct (isHyphen c) eqn:E.
  - destruct inRun; [specialize (H eq_refl); congruence|].
    unfold isHyphen in E. apply N.eqb_eq in E. subst c.
    change (lit "-" ++ replaceRuns isHyphen (lit "-") true s)
      with (45%N :: replaceRuns isHyphen (lit "-") true s).
    f_equal. destruct s as [|d t]; [reflexivity|].
    rewrite noDoubleHyphen_cons in N. apply andb_true_iff in N.
    destruct N as [N1 N2]. apply IH; [exact N2|].
    intros _. change (isHyphen 45%N) with true in N1.
    now apply negb_true_iff in N1.
  - f_equal. destruct s as [|d t]; [reflexivity|].
    rewrite noDoubleHyphen_cons in N. apply andb_true_iff in N.
    destruct N as [_ N2]. apply IH; [exact N2|]. discriminate.
Qed.

Lemma isSlugChar_spec (c : codeunit) :
  isSlugChar c = isSlugUnit c && negb (isWhiteSpace c).
Proof.
  unfold isSlugChar, isSlugUnit. destruct (isWhiteSpace c) eqn:W.
  - cbn [negb]. rewrite andb_false_r.
    assert (R : (c <= 13 \/ c = 32 \/ 160 <= c)%N).
    { unfold isWhiteSpace in W.
      rewrite !orb_true_iff, !andb_true_iff, !N.leb_le, !N.eqb_eq in W. lia. }
    destruct (N.leb_spec 97 c), (N.leb_spec c 122), (N.leb_spec 48 c),
      (N.leb_spec c 57), (N.eqb_spec c 45); cbn [andb orb];
      try reflexivity; lia.
  - cbn [negb]. now rewrite andb_true_r, orb_false_r.
Qed.

Lemma forallb_filter_self (p : codeunit -> bool) (s : jsstring) :
  forallb p (filter p s) = true.
Proof.
  induction s as [|c s IH]; [reflexivity|]. simpl.
  destruct (p c) eqn:E; [simpl; now rewrite E|exact IH].
Qed.

Lemma filter_all (p : codeunit -> bool) (s : jsstring) :
  forallb p s = true -> filter p s = s.
Proof.
  induction s as [|c s IH]; [reflexivity|]. simpl.
  intros H. apply andb_true_iff in H. destruct H as [Hc Hs].
  rewrite Hc. f_equal. now apply IH.
Qed.

Lemma forallb_weaken (p q : codeunit -> bool) (s : jsstring) :
  (forall c, p c = true -> q c = true) ->
  forallb p s = true -> forallb q s = true.
Proof.
  intros Hpq H. apply forallb_forall. intros c Hc.
  rewrite forallb_forall in H. now apply Hpq, H.
Qed.

Lemma isSlugChar_unit (c : codeunit) :
  isSlugChar c = true -> isSlugUnit c = true.
Proof.
  rewrite isSlugChar_spec. intros H. now apply andb_true_iff in H.
Qed.

Lemma isSlugChar_not_space (c : codeunit) :
  isSlugChar c = true -> negb (isWhiteSpace c) = true.
Proof.
  rewrite isSlugChar_spec. intros H. now apply andb_true_iff in H.
Qed.

Lemma isSlugChar_lower (c : codeunit) :
  isSlugChar c = true -> toLowerUnit c = c.
Proof.
  unfold isSlugChar, toLowerUnit. intros H.
  assert (R : (97 <= c <= 122 \/ 48 <= c <= 57 \/ c = 45)%N).
  { rewrite !orb_true_iff, !andb_true_iff, !N.leb_le, !N.eqb_eq in H. lia. }
  destruct (N.leb_spec 65 c), (N.leb_spec c 90), (N.leb_spec 192 c),
    (N.leb_spec c 222); cbn [andb]; try reflexivity; lia.
Qed.

Lemma toLowerCase_slugForm (s : jsstring) :
  forallb isSlugChar s = true -> toLowerCase s = s.
Proof.
  induction s as [|c s IH]; [reflexivity|]. simpl.
  intros H. apply andb_true_iff in H. destruct H as [Hc Hs].
  unfold toLowerCase in *. simpl.
  now rewrite (isSlugChar_lower c Hc), (IH Hs).
Qed.

(** The slug before the final [trim], which changes nothing. *)
Lemma slug_before_trim (s : jsstring) :
  let v := replaceRuns isHyphen (lit "-") false
             (replaceRuns isWhiteSpace (lit "-") false
                (stripNonSlug (toLowerCase s))) in
  forallb isSlugChar v = true
  /\ noDoubleHyphen v = true
  /\ hashCategoryNameToSlug s = v.
Proof.
  intros v.
  assert (A : forallb isSlugChar v = true).
  { subst v.
    apply (replaceRuns_forall isHyphen isSlugChar isSlugChar);
      [tauto | reflexivity |].
    apply (replaceRuns_forall isWhiteSpace isSlugUnit isSlugChar).
    - intros c P W. now rewrite isSlugChar_spec, P, W.
    - reflexivity.
    - apply forallb_filter_self. }
  split; [exact A|]. split.
  - subst v. apply replaceRuns_hyphen_single.
  - unfold hashCategoryNameToSlug. fold v. apply trim_none.
    exact (forallb_weaken _ _ v isSlugChar_not_space A).
Qed.

Lemma slugForm_fixed (s : jsstring) :
  slugForm s = true -> hashCategoryNameToSlug s = s.
Proof.
  unfold slugForm. intros H. apply andb_true_iff in H. destruct H as [A N].
  destruct (slug_before_trim s) as (_ & _ & ->).
  rewrite (toLowerCase_slugForm s A).
  unfold stripNonSlug.
  rewrite (filter_all isSlugUnit s (forallb_weaken _ _ s isSlugChar_unit A)).
  rewrite (replaceRuns_none isWhiteSpace (lit "-") s
             (forallb_weaken _ _ s isSlugChar_not_space A)).
  apply replaceRuns_hyphen_fixed; [exact N | discriminate].
Qed.

Lemma slug_slugForm (s : jsstring) :
  slugForm (hashCategoryNameToSlug s) = true.
Proof.
  destruct (slug_before_trim s) as (A & N & ->).
  unfold slugForm. now rewrite A, N.
Qed.

(** X12: a slug holds lower-case letters, digits and hyphens only, and
    never two hyphens in a row. *)
Theorem slug_shape (categoryName : jsstring) :
  latin1 categoryName ->
  slugForm (hashCategoryNameToSlug categoryName) = true.
Proof. intros _. apply slug_slugForm. Qed.

Lemma slug_shape_witness :
  latin1 (lit "  SHA-3 / Keccak__family  ")
  /\ slugForm (hashCategoryNameToSlug (lit "  SHA-3 / Keccak__family  "))
     = true.
Proof.
  assert (L : latin1 (lit "  SHA-3 / Keccak__family  "))
    by (unfold latin1; repeat constructor).
  split; [exact L|].
  exact (slug_shape (lit "  SHA-3 / Keccak__family  ") L).
Defined.

(** X13: the names [hashCategoryNameToSlug] leaves unchanged are exactly
    the strings of lower-case letters, digits and single hyphens. *)
Theorem slug_fixed_points (categoryName : jsstring) :
  latin1 categoryName ->
  hashCategoryNameToSlug categoryName = categoryName
  <-> slugForm categoryName = true.
Proof.
  intros _. split.
  - intros E. rewrite <- E. apply slug_slugForm.
  - apply slugForm_fixed.
Qed.

Lemma slug_fixed_points_witness :
  latin1 (lit "non-cryptographic")
  /\ (hashCategoryNameToSlug (lit "non-cryptographic")
      = lit "non-cryptographic"
      <-> slugForm (lit "non-cryptographic") = true).
Proof.
  assert (L : latin1 (lit "non-cryptographic"))
    by (unfold latin1; repeat constructor).
  split; [exact L|].
  exact (slug_fixed_points (lit "non-cryptographic") L).
Defined.

(** X14: taking the slug of a slug changes nothing. *)
Theorem slug_idempotent (categoryName : jsstring) :
  latin1 categoryName ->
  hashCategoryNameToSlug (hashCategoryNameToSlug categoryName)
  = hashCategoryNameToSlug categoryName.
Proof. intros _. apply slugForm_fixed, slug_slugForm. Qed.

Lemma slug_idempotent_witness :
  latin1 (lit "SHA-2 (Truncated)")
  /\ hashCategoryNameToSlug (hashCategoryNameToSlug (lit "SHA-2 (Truncated)"))
     = hashCategoryNameToSlug (lit "SHA-2 (Truncated)").
Proof.
  assert (L : latin1 (lit "SHA-2 (Truncated)"))
    by (unfold latin1; repeat constructor).
  split; [exact L|].
  exact (slug_idempotent (lit "SHA-2 (Truncated)") L).
Defined.

Lemma whiteSpace_lower (c : codeunit) :
  isWhiteSpace c = true -> toLowerUnit c = c.
Proof.
  unfold isWhiteSpace, toLowerUnit. intros W.
  assert (R : (c <= 13 \/ c = 32 \/ c = 160 \/ 5760 <= c)%N).
  { rewrite !orb_true_iff, !andb_true_iff, !N.leb_le, !N.eqb_eq in W. lia. }
  destruct (N.leb_spec 65 c), (N.leb_spec c 90), (N.leb_spec 192 c),
    (N.leb_spec c 222); cbn [andb]; try reflexivity; lia.
Qed.

(** X15: the final [trim] comes too late to remove anything: a name that
    starts with a white-space unit gets a slug that starts with a
    hyphen. *)
Theorem slug_leading_space (c : codeunit) (rest : jsstring) :
  isWhiteSpace c = true ->
  latin1 (c :: rest) ->
  hd_error (hashCategoryNameToSlug (c :: rest)) = Some 45%N.
Proof.
  intros W _.
  destruct (slug_before_trim (c :: rest)) as (_ & _ & ->).
  unfold toLowerCase, stripNonSlug. cbn [List.map filter].
  rewrite (whiteSpace_lower c W).
  unfold isSlugUnit at 1. rewrite W, orb_true_r. cbn [orb].
  cbn [replaceRuns]. rewrite W.
  change (lit "-" ++ ?x) with (45%N :: x).
  cbn [replaceRuns]. change (isHyphen 45%N) with true. cbn iota.
  reflexivity.
Qed.

Lemma slug_leading_space_witness :
  isWhiteSpace 32%N = true
  /\ latin1 (32%N :: lit "Modern")
  /\ hd_error (hashCategoryNameToSlug (32%N :: lit "Modern")) = Some 45%N.
Proof.
  assert (W : isWhiteSpace 32%N = true) by reflexivity.
  assert (L : latin1 (32%N :: lit "Modern"))
    by (unfold latin1; repeat constructor).
  split; [exact W|]. split; [exact L|].
  exact (slug_leading_space 32%N (lit "Modern") W L).
Defined.

(* ================================================================== *)
(** * More on the reverse map and on the grouping by category *)
(* ================================================================== *)

Lemma getOwn_define_same {V} (o : object V) (k : jsstring) (v : V) :
  getOwn (define o k v) k = Some v.
Proof.
  induction o as [|[k' v'] o IH]; simpl.
  - now rewrite str_eqb_refl.
  - destruct (str_eqb k k') eqn:E; simpl; rewrite E; [reflexivity|exact IH].
Qed.

Lemma getOwn_define_other {V} (o : object V) (k k' : jsstring) (v : V) :
  k <> k' -> getOwn (define o k' v) k = getOwn o k.
Proof.
  intros N. induction o as [|[k0 v0] o IH]; simpl.
  - apply str_eqb_neq in N. now rewrite N.
  - destruct (str_eqb k' k0) eqn:E; simpl.
    + apply str_eqb_eq in E. subst k0.
      apply str_eqb_neq in N. now rewrite N.
    + destruct (str_eqb k k0); [reflexivity|exact IH].
Qed.

Lemma slug_not_proto (c : jsstring) :
  str_eqb (hashCategoryNameToSlug c) (lit "__proto__") = false.
Proof.
  apply str_eqb_neq. intros E.
  pose proof (slug_slugForm c) as F. rewrite E in F. discriminate.
Qed.

(** The reverse map after the titles [titles] were added to [m]. *)
Lemma slugMap_later (titles : list jsstring) :
  forall (m : object jsstring) (k : jsstring),
    ~ In k (List.map hashCategoryNameToSlug titles) ->
    getOwn
      (fold_left (fun m c => set m (hashCategoryNameToSlug c) c) titles m) k
    = getOwn m k.
Proof.
  induction titles as [|t titles IH]; intros m k H; [reflexivity|].
  cbn [fold_left]. rewrite IH.
  - unfold set. rewrite slug_not_proto. apply getOwn_define_other.
    intros E. apply H. left. now symmetry.
  - intros Hin. apply H. now right.
Qed.

Lemma slugMap_last (before after : list jsstring) (c : jsstring) :
  ~ In (hashCategoryNameToSlug c) (List.map hashCategoryNameToSlug after) ->
  getOwn (slugToCategoryMapOf (before ++ c :: after))
    (hashCategoryNameToSlug c)
  = Some c.
Proof.
  intros H. unfold slugToCategoryMapOf.
  rewrite fold_left_app. cbn [fold_left].
  rewrite slugMap_later by exact H.
  unfold set. rewrite slug_not_proto. apply getOwn_define_same.
Qed.

(** X16: for any list of titles, the round trip through the slug gives
    back a non-empty title as long as no later title of the list has the
    same slug; of two titles with one slug the reverse map keeps the later
    one. *)
Theorem slug_roundtrip_last (before after : list jsstring) (c : jsstring) :
  c <> [] ->
  latin1 c ->
  ~ In (hashCategoryNameToSlug c) (List.map hashCategoryNameToSlug after) ->
  lookupOr (slugToCategoryMapOf (before ++ c :: after))
    (hashCategoryNameToSlug c)
  = VString c.
Proof.
  intros Hc _ H. unfold lookupOr, get. rewrite (slugMap_last before after c H).
  destruct c; [contradiction|reflexivity].
Qed.

Lemma slug_roundtrip_last_witness :
  lit "sha 2" <> []
  /\ latin1 (lit "sha 2")
  /\ ~ In (hashCategoryNameToSlug (lit "sha 2"))
         (List.map hashCategoryNameToSlug [lit "Modern"])
  /\ lookupOr (slugToCategoryMapOf ([lit "SHA-2"] ++ lit "sha 2" :: [lit "Modern"]))
       (hashCategoryNameToSlug (lit "sha 2"))
     = VString (lit "sha 2").
Proof.
  assert (Hc : lit "sha 2" <> []) by discriminate.
  assert (L : latin1 (lit "sha 2")) by (unfold latin1; repeat constructor).
  assert (H : ~ In (hashCategoryNameToSlug (lit "sha 2"))
                (List.map hashCategoryNameToSlug [lit "Modern"])).
  { vm_compute. intuition discriminate. }
  split; [exact Hc|]. split; [exact L|]. split; [exact H|].
  exact (slug_roundtrip_last [lit "SHA-2"] [lit "Modern"] (lit "sha 2")
           Hc L H).
Defined.

(** The earlier of two titles with one slug is not given back. *)
Example slug_collision :
  hashCategoryNameToSlug (lit "SHA-2") = hashCategoryNameToSlug (lit "sha 2")
  /\ lookupOr (slugToCategoryMapOf [lit "SHA-2"; lit "sha 2"])
       (hashCategoryNameToSlug (lit "SHA-2"))
     = VString (lit "sha 2").
Proof. split; reflexivity. Qed.

Lemma getOwn_In_NoDup {V} (o : object V) (k : jsstring) (v : V) :
  NoDup (keys o) -> In (k, v) o -> getOwn o k = Some v.
Proof.
  induction o as [|[k' v'] o IH]; intros N H; [contradiction|].
  simpl in N. inversion N as [|? ? Hk No]; subst.
  simpl. destruct H as [[= -> ->]|H].
  - now rewrite str_eqb_refl.
  - destruct (str_eqb k k') eqn:E; [|now apply IH].
    apply str_eqb_eq in E. subst k'. exfalso. apply Hk.
    unfold keys. apply in_map_iff. now exists (k, v).
Qed.

Lemma mem_false_neq (k x : jsstring) (l : list jsstring) :
  mem k l = false -> In x l -> str_eqb k x = false.
Proof.
  intros M H. apply str_eqb_neq. intros ->.
  apply mem_not_In in M. contradiction.
Qed.

Lemma proto_in_keys : In (lit "__proto__") objectPrototypeKeys.
Proof. unfold objectPrototypeKeys. simpl. tauto. Qed.

Lemma idsOf_snoc (prefix : object HashAlgorithm) (algo : jsstring)
    (cfg : HashAlgorithm) (c : jsstring) :
  idsOf (prefix ++ [(algo, cfg)]) c
  = idsOf prefix c ++ (if str_eqb (category cfg) c then [algo] else []).
Proof.
  unfold idsOf. rewrite filter_app, map_app. f_equal.
  simpl. now destruct (str_eqb (category cfg) c).
Qed.

(** One turn of the [forEach] extends the groups by the id it visits. *)
Lemma byCategoryStep_groups (registry prefix : object HashAlgorithm)
    (result : object (list jsstring)) (algo : jsstring) (cfg : HashAlgorithm) :
  get registry algo = Own cfg ->
  mem (category cfg) objectPrototypeKeys = false ->
  (forall c, getOwn result c = groupOf prefix c) ->
  exists result' : object (list jsstring),
    byCategoryStep registry result algo = Normal result'
    /\ forall c, getOwn result' c = groupOf (prefix ++ [(algo, cfg)]) c.
Proof.
  intros Hget Hproto Inv. unfold byCategoryStep. rewrite Hget. cbv zeta.
  set (k := category cfg) in *.
  assert (P : str_eqb k (lit "__proto__") = false)
    by exact (mem_false_neq k _ _ Hproto proto_in_keys).
  assert (G : forall c v (o : object (list jsstring)),
             getOwn (set o k v) c
             = if str_eqb c k then Some v else getOwn o c).
  { intros c v o. unfold set. rewrite P.
    destruct (str_eqb c k) eqn:E.
    - apply str_eqb_eq in E. subst c. apply getOwn_define_same.
    - apply getOwn_define_other. now apply str_eqb_neq. }
  assert (F : forall c ids,
             idsOf prefix k = ids ->
             (if str_eqb c k then Some (ids ++ [algo]) else getOwn result c)
             = groupOf (prefix ++ [(algo, cfg)]) c).
  { intros c ids Hids. unfold groupOf. rewrite idsOf_snoc. fold k.
    destruct (str_eqb c k) eqn:E.
    - apply str_eqb_eq in E. subst c. rewrite str_eqb_refl, Hids.
      now destruct ids.
    - assert (E' : str_eqb k c = false).
      { apply str_eqb_neq. apply str_eqb_neq in E. congruence. }
      rewrite E', app_nil_r. apply Inv. }
  assert (Hr : get result k
               = match idsOf prefix k with
                 | [] => Undefined
                 | i :: ids => Own (i :: ids)
                 end).
  { unfold get. rewrite (Inv k). unfold groupOf.
    destruct (idsOf prefix k); [now rewrite Hproto | reflexivity]. }
  destruct (idsOf prefix k) as [|i ids] eqn:Hids.
  - rewrite Hr.
    assert (Hs : get (set result k []) k = Own []).
    { unfold get. now rewrite G, str_eqb_refl. }
    rewrite Hs. eexists. split; [reflexivity|].
    intros c. rewrite G.
    destruct (str_eqb c k) eqn:E.
    + rewrite <- (F c [] eq_refl), E. reflexivity.
    + rewrite G, E. rewrite <- (F c [] eq_refl), E. reflexivity.
  - rewrite Hr. rewrite Hr.
    eexists. split; [reflexivity|].
    intros c. rewrite G. apply (F c (i :: ids) eq_refl).
Qed.

Lemma forEachAlgo_groups (registry : object HashAlgorithm) :
  NoDup (keys registry) ->
  (forall id cfg, In (id, cfg) registry ->
     mem (category cfg) objectPrototypeKeys = false) ->
  forall (suffix prefix : object HashAlgorithm)
         (result : object (list jsstring)),
    registry = prefix ++ suffix ->
    (forall c, getOwn result c = groupOf prefix c) ->
    exists groups : object (list jsstring),
      forEachAlgo registry (keys suffix) result = Normal groups
      /\ forall c, getOwn groups c = groupOf registry c.
Proof.
  intros N Hcat.
  induction suffix as [|[algo cfg] suffix IH]; intros prefix result E Inv.
  - exists result. split; [reflexivity|].
    rewrite app_nil_r in E. now subst prefix.
  - assert (Hin : In (algo, cfg) registry).
    { rewrite E. apply in_or_app. right. now left. }
    assert (Hget : get registry algo = Own cfg).
    { unfold get. now rewrite (getOwn_In_NoDup registry algo cfg N Hin). }
    destruct (byCategoryStep_groups registry prefix result algo cfg
                Hget (Hcat algo cfg Hin) Inv) as (result' & S & Inv').
    cbn [keys List.map fst forEachAlgo]. rewrite S.
    apply (IH (prefix ++ [(algo, cfg)]) result'); [|exact Inv'].
    now rewrite <- app_assoc.
Qed.

(** X17: on a registry none of whose categories is the name of a member
    of [Object.prototype], the grouping completes, and the group of a
    category is the list of the ids of that category in the order of the
    registry; a category without ids has no group. *)
Theorem getAlgorithmsByCategoryOf_groups (registry : object HashAlgorithm) :
  NoDup (keys registry) ->
  (forall id cfg, In (id, cfg) registry ->
     ~ In (category cfg) objectPrototypeKeys) ->
  exists groups : object (list jsstring),
    getAlgorithmsByCategoryOf registry = Normal groups
    /\ forall c, getOwn groups c = groupOf registry c.
Proof.
  intros N Hcat. unfold getAlgorithmsByCategoryOf.
  apply (forEachAlgo_groups registry N) with (prefix := []).
  - intros id cfg Hin. apply mem_not_In. exact (Hcat id cfg Hin).
  - reflexivity.
  - intros c. reflexivity.
Qed.

Lemma registry_categories_not_inherited :
  forall id cfg, In (id, cfg) HASH_ALGORITHMS ->
    ~ In (category cfg) objectPrototypeKeys.
Proof.
  intros id cfg Hin. apply mem_not_In.
  assert (A : forallb
                (fun e => negb (mem (category (snd e)) objectPrototypeKeys))
                HASH_ALGORITHMS = true) by (vm_compute; reflexivity).
  rewrite forallb_forall in A.
  exact (proj1 (negb_true_iff _) (A (id, cfg) Hin)).
Qed.

Lemma HASH_ALGORITHMS_distinct : NoDup (keys HASH_ALGORITHMS).
Proof. rewrite HASH_ALGORITHMS_keys. exact registry_literal_distinct. Qed.

Lemma getAlgorithmsByCategoryOf_groups_witness :
  NoDup (keys HASH_ALGORITHMS)
  /\ (forall id cfg, In (id, cfg) HASH_ALGORITHMS ->
        ~ In (category cfg) objectPrototypeKeys)
  /\ exists groups : object (list jsstring),
       getAlgorithmsByCategory = Normal groups
       /\ forall c, getOwn groups c = groupOf HASH_ALGORITHMS c.
Proof.
  split; [exact HASH_ALGORITHMS_distinct|].
  split; [exact registry_categories_not_inherited|].
  exact (getAlgorithmsByCategoryOf_groups HASH_ALGORITHMS
           HASH_ALGORITHMS_distinct registry_categories_not_inherited).
Defined.

(** The groups never get an own property named like a member of
    [Object.prototype]. *)
Lemma byCategoryStep_no_inherited (registry : object HashAlgorithm)
    (result result' : object (list jsstring)) (algo : jsstring) :
  (forall k, In k objectPrototypeKeys -> getOwn result k = None) ->
  byCategoryStep registry result algo = Normal result' ->
  forall k, In k objectPrototypeKeys -> getOwn result' k = None.
Proof.
  intros Inv S k Hk. unfold byCategoryStep in S.
  destruct (get registry algo) as [cfg| |]; try discriminate. cbv zeta in S.
  set (c := category cfg) in *.
  assert (Hc : ~ In c objectPrototypeKeys
               \/ get result c = Inherited c).
  { unfold get. destruct (getOwn result c) eqn:E.
    - left. intros Hin. rewrite (Inv c Hin) in E. discriminate.
    - destruct (mem c objectPrototypeKeys) eqn:M; [now right|].
      left. now apply mem_not_In. }
  destruct Hc as [Hc|Hc].
  - assert (D : forall (o : object (list jsstring)) v,
               getOwn (set o c v) k = getOwn o k).
    { intros o v. unfold set. destruct (str_eqb c (lit "__proto__"));
        [reflexivity|]. apply getOwn_define_other. congruence. }
    destruct (get result c) eqn:G1.
    + rewrite G1 in S. injection S as <-. rewrite D. now apply Inv.
    + rewrite G1 in S. discriminate.
    + destruct (get (set result c []) c); try discriminate.
      injection S as <-. rewrite !D. now apply Inv.
  - rewrite Hc in S. rewrite Hc in S. discriminate.
Qed.

Lemma forEachAlgo_throws (registry : object HashAlgorithm)
    (id : jsstring) (cfg : HashAlgorithm) :
  get registry id = Own cfg ->
  In (category cfg) objectPrototypeKeys ->
  forall (algos : list jsstring) (result : object (list jsstring)),
    In id algos ->
    (forall k, In k objectPrototypeKeys -> getOwn result k = None) ->
    forEachAlgo registry algos result = Throw.
Proof.
  intros Hget Hcat.
  induction algos as [|algo algos IH]; intros result Hin Inv;
    [contradiction|].
  cbn [forEachAlgo].
  destruct (byCategoryStep registry result algo) as [result'|] eqn:S;
    [|reflexivity].
  destruct Hin as [->|Hin].
  - exfalso. unfold byCategoryStep in S. rewrite Hget in S. cbv zeta in S.
    assert (G : get result (category cfg) = Inherited (category cfg)).
    { unfold get. rewrite (Inv _ Hcat).
      now rewrite (proj2 (mem_In _ _) Hcat). }
    rewrite G in S. rewrite G in S. discriminate.
  - apply IH; [exact Hin|].
    exact (byCategoryStep_no_inherited registry result result' algo Inv S).
Qed.

(** X18: a registry one of whose descriptors has a category named like a
    member of [Object.prototype] (["constructor"], ["toString"], ...)
    makes the grouping throw: [result[category]] is then the inherited
    member, on which [push] is no function. *)
Theorem getAlgorithmsByCategoryOf_throws (registry : object HashAlgorithm)
    (id : jsstring) (cfg : HashAlgorithm) :
  NoDup (keys registry) ->
  In (id, cfg) registry ->
  In (category cfg) objectPrototypeKeys ->
  getAlgorithmsByCategoryOf registry = Throw.
Proof.
  intros N Hin Hcat. unfold getAlgorithmsByCategoryOf.
  apply (forEachAlgo_throws registry id cfg).
  - unfold get. now rewrite (getOwn_In_NoDup registry id cfg N Hin).
  - exact Hcat.
  - unfold keys. apply in_map_iff. now exists (id, cfg).
  - reflexivity.
Qed.

Lemma getAlgorithmsByCategoryOf_throws_witness :
  let registry :=
    [(lit "md5", descriptorIn (lit "Cryptographic"));
     (lit "odd", descriptorIn (lit "constructor"))] in
  NoDup (keys registry)
  /\ In (lit "odd", descriptorIn (lit "constructor")) registry
  /\ In (category (descriptorIn (lit "constructor"))) objectPrototypeKeys
  /\ getAlgorithmsByCategoryOf registry = Throw.
Proof.
  intros registry.
  assert (N : NoDup (keys registry)).
  { apply distinct_NoDup. reflexivity. }
  assert (Hin : In (lit "odd", descriptorIn (lit "constructor")) registry)
    by (right; left; reflexivity).
  assert (Hcat : In (category (descriptorIn (lit "constructor")))
                   objectPrototypeKeys) by (left; reflexivity).
  split; [exact N|]. split; [exact Hin|]. split; [exact Hcat|].
  exact (getAlgorithmsByCategoryOf_throws registry (lit "odd")
           (descriptorIn (lit "constructor")) N Hin Hcat).
Defined.

(* ================================================================== *)
(** * Category details and tools *)
(* ================================================================== *)

(** X19: the categories of the registry are exactly the keys of
    [HASH_CATEGORY_DETAILS]; for each of them [getHashCategoryDetails]
    returns the curated record, never the synthesized one. *)
Theorem category_details_curated (c : jsstring) :
  In c ALL_CATEGORY_TITLES
  <-> exists d : Details.HashCategoryDetails,
        getOwn Details.HASH_CATEGORY_DETAILS c = Some d
        /\ Details.getHashCategoryDetails c = Details.Details d.
Proof.
  split.
  - intros H.
    assert (A : forallb
                  (fun t => match getOwn Details.HASH_CATEGORY_DETAILS t with
                            | Some _ => true
                            | None => false
                            end) ALL_CATEGORY_TITLES = true)
      by (vm_compute; reflexivity).
    rewrite forallb_forall in A. specialize (A c H).
    unfold Details.getHashCategoryDetails, get.
    destruct (getOwn Details.HASH_CATEGORY_DETAILS c) as [d|];
      [|discriminate].
    exists d. split; reflexivity.
  - intros (d & E & _). apply getOwn_Some_In in E.
    assert (A : forallb (fun e => mem (fst e) ALL_CATEGORY_TITLES)
                  Details.HASH_CATEGORY_DETAILS = true)
      by (vm_compute; reflexivity).
    rewrite forallb_forall in A.
    exact (proj1 (mem_In _ _) (A (c, d) E)).
Qed.

(** X20: for a title that is no key of [HASH_CATEGORY_DETAILS],
    [getHashCategoryDetails] synthesizes a record whose description is the
    title followed by a fixed text, unless the title is the name of a
    member of [Object.prototype], which is then what it returns. *)
Theorem category_details_fallback (title : jsstring) :
  ~ In title (keys Details.HASH_CATEGORY_DETAILS) ->
  Details.getHashCategoryDetails title
  = if mem title objectPrototypeKeys then Details.Builtin title
    else Details.Details
           {| Details.description :=
                title
                ++ lit " hash algorithms for various computing applications.";
              Details.features := lit "Specialized hashing functionality";
              Details.context := Details.algo |}.
Proof.
  intros H. unfold Details.getHashCategoryDetails, get.
  rewrite (getOwn_None _ title H).
  destruct (mem title objectPrototypeKeys); reflexivity.
Qed.

Lemma category_details_fallback_witness :
  ~ In (lit "toString") (keys Details.HASH_CATEGORY_DETAILS)
  /\ Details.getHashCategoryDetails (lit "toString")
     = Details.Builtin (lit "toString").
Proof.
  assert (H : ~ In (lit "toString") (keys Details.HASH_CATEGORY_DETAILS)).
  { vm_compute. intuition discriminate. }
  split; [exact H|].
  exact (category_details_fallback (lit "toString") H).
Defined.

(** ** Tools *)

Lemma getOwn_key {V} (o : object V) (k : jsstring) :
  In k (keys o) -> exists v, getOwn o k = Some v.
Proof.
  induction o as [|[k' v'] o IH]; intros H; [contradiction|]. simpl.
  destruct (str_eqb k k') eqn:E; [now exists v'|].
  destruct H as [H|H]; [|now apply IH].
  simpl in H. subst k'. now rewrite str_eqb_refl in E.
Qed.

Lemma mapTools_map (registry : object HashAlgorithm) :
  forall suffix : object HashAlgorithm,
    (forall e, In e suffix -> get registry (fst e) = Own (snd e)) ->
    Tools.mapTools registry (keys suffix) = Normal (List.map toolFrom suffix).
Proof.
  induction suffix as [|e suffix IH]; intros H; [reflexivity|].
  cbn [keys List.map Tools.mapTools]. unfold Tools.toolOf.
  rewrite (H e (or_introl eq_refl)). cbv zeta.
  unfold keys in IH. rewrite IH; [reflexivity|].
  intros e' He'. apply H. now right.
Qed.

Lemma toolsOf_NoDup (registry : object HashAlgorithm) :
  NoDup (keys registry) ->
  Tools.toolsOf registry = Normal (List.map toolFrom registry).
Proof.
  intros N. unfold Tools.toolsOf. apply mapTools_map.
  intros [k v] He. unfold get. cbn [fst snd].
  now rewrite (getOwn_In_NoDup registry k v N He).
Qed.

Lemma HASH_TOOLS_value :
  Tools.HASH_TOOLS = List.map toolFrom HASH_ALGORITHMS.
Proof.
  unfold Tools.HASH_TOOLS.
  rewrite (toolsOf_NoDup HASH_ALGORITHMS HASH_ALGORITHMS_distinct).
  reflexivity.
Qed.

Lemma HASH_TOOLS_ids : List.map Tools.id Tools.HASH_TOOLS = keys HASH_ALGORITHMS.
Proof.
  rewrite HASH_TOOLS_value, map_map. reflexivity.
Qed.

(** X21: on any registry the [map] that builds the tools completes, and
    yields one tool per entry, in the order of the registry, with the id,
    name, description and category of the entry and the URL
    [/hashes/<slug of the category>/<id>]. *)
Theorem toolsOf_entries (registry : object HashAlgorithm) :
  NoDup (keys registry) ->
  Tools.toolsOf registry = Normal (List.map toolFrom registry).
Proof. exact (toolsOf_NoDup registry). Qed.

Lemma toolsOf_entries_witness :
  NoDup (keys HASH_ALGORITHMS)
  /\ Tools.toolsOf HASH_ALGORITHMS = Normal (List.map toolFrom HASH_ALGORITHMS).
Proof.
  split; [exact HASH_ALGORITHMS_distinct|].
  exact (toolsOf_entries HASH_ALGORITHMS HASH_ALGORITHMS_distinct).
Defined.

Lemma find_by_id (l : list Tools.HashToolResource) (t : Tools.HashToolResource) :
  NoDup (List.map Tools.id l) -> In t l ->
  find (fun x => str_eqb (Tools.id x) (Tools.id t)) l = Some t.
Proof.
  induction l as [|x l IH]; intros N H; [contradiction|].
  simpl in N. inversion N as [|? ? Hx Nl]; subst. simpl.
  destruct H as [->|H]; [now rewrite str_eqb_refl|].
  destruct (str_eqb (Tools.id x) (Tools.id t)) eqn:E; [|now apply IH].
  apply str_eqb_eq in E. exfalso. apply Hx. rewrite E.
  apply in_map. exact H.
Qed.

Lemma tools_checked :
  forallb
    (fun e =>
       value_eqb
         (hashCategorySlugToName (hashCategoryNameToSlug (category (snd e))))
         (VString (category (snd e)))
       && noSlash (fst e)
       && noSlash (hashCategoryNameToSlug (category (snd e))))
    HASH_ALGORITHMS = true.
Proof. vm_compute. reflexivity. Qed.

(** X22: every tool of [HASH_TOOLS] can be found again from its URL
    [/hashes/<slug>/<id>]: neither segment holds a [/],
    [hashCategorySlugToName] maps the slug back to the category of the
    tool, and the page finds the tool by its id. *)
Theorem tool_route_roundtrip (t : Tools.HashToolResource) :
  In t Tools.HASH_TOOLS ->
  let slug := hashCategoryNameToSlug (Tools.category t) in
  Tools.url t = lit "/hashes/" ++ slug ++ lit "/" ++ Tools.id t
  /\ noSlash slug = true
  /\ noSlash (Tools.id t) = true
  /\ hashCategorySlugToName slug = VString (Tools.category t)
  /\ Page.tool (Tools.id t) = Some t.
Proof.
  intros H slug.
  assert (F : Page.tool (Tools.id t) = Some t).
  { unfold Page.tool. apply find_by_id; [|exact H].
    rewrite HASH_TOOLS_ids. exact HASH_ALGORITHMS_distinct. }
  rewrite HASH_TOOLS_value in H.
  destruct (proj1 (in_map_iff toolFrom HASH_ALGORITHMS t) H) as (e & <- & He).
  pose proof tools_checked as A. rewrite forallb_forall in A.
  specialize (A e He).
  apply andb_true_iff in A. destruct A as [A S2].
  apply andb_true_iff in A. destruct A as [R S1].
  apply value_eqb_eq in R.
  split; [reflexivity|]. split; [exact S2|]. split; [exact S1|].
  split; [exact R | exact F].
Qed.

Lemma tool_route_roundtrip_witness :
  exists t : Tools.HashToolResource,
    In t Tools.HASH_TOOLS
    /\ Tools.id t = lit "sha3-256"
    /\ Tools.url t = lit "/hashes/sha-3/sha3-256"
    /\ hashCategorySlugToName (hashCategoryNameToSlug (Tools.category t))
       = VString (Tools.category t)
    /\ Page.tool (Tools.id t) = Some t.
Proof.
  destruct (Page.tool (lit "sha3-256")) as [t|] eqn:E;
    [|vm_compute in E; discriminate].
  assert (H : In t Tools.HASH_TOOLS).
  { unfold Page.tool in E. exact (proj1 (find_some _ Tools.HASH_TOOLS E)). }
  assert (I : Tools.id t = lit "sha3-256").
  { unfold Page.tool in E.
    exact (proj1 (str_eqb_eq _ _) (proj2 (find_some _ Tools.HASH_TOOLS E))). }
  destruct (tool_route_roundtrip t H) as (U & _ & _ & R & F).
  exists t. split; [exact H|]. split; [exact I|].
  split; [|split; [exact R | exact F]].
  rewrite U. vm_compute in E. injection E as <-. reflexivity.
Defined.

(** X23: the page finds a tool for a route id exactly when the id is an
    own key of [HASH_ALGORITHMS]; for the name of a member of
    [Object.prototype], [HASH_ALGORITHMS[toolId]] is that member, but no
    tool is found. *)
Theorem tool_found_iff (toolId : jsstring) :
  ((exists t, Page.tool toolId = Some t /\ Tools.id t = toolId)
   <-> exists cfg, Page.algorithmConfig toolId = Own cfg)
  /\ (In toolId objectPrototypeKeys ->
      Page.algorithmConfig toolId = Inherited toolId
      /\ Page.tool toolId = None).
Proof.
  split; [split|].
  - intros (t & F & I). unfold Page.tool in F.
    destruct (find_some _ Tools.HASH_TOOLS F) as [Hin _].
    assert (K : In toolId (keys HASH_ALGORITHMS)).
    { rewrite <- HASH_TOOLS_ids, <- I. apply in_map. exact Hin. }
    destruct (getOwn_key HASH_ALGORITHMS toolId K) as [cfg G].
    exists cfg. unfold Page.algorithmConfig, get. rewrite G. reflexivity.
  - intros (cfg & G). unfold Page.algorithmConfig in G.
    apply get_Own_In in G.
    assert (Hin : In (toolFrom (toolId, cfg)) Tools.HASH_TOOLS).
    { rewrite HASH_TOOLS_value. apply in_map. exact G. }
    exists (toolFrom (toolId, cfg)). split; [|reflexivity].
    unfold Page.tool.
    apply (find_by_id Tools.HASH_TOOLS (toolFrom (toolId, cfg))); [|exact Hin].
    rewrite HASH_TOOLS_ids. exact HASH_ALGORITHMS_distinct.
  - intros H. unfold objectPrototypeKeys in H. simpl in H.
    decompose [or] H; try contradiction; subst toolId;
      split; vm_compute; reflexivity.
Qed.

(* ================================================================== *)
(** * The page *)
(* ================================================================== *)

Lemma similarity_mode_checked :
  forallb
    (fun e =>
       match uiMode (snd e) with
       | Some Metadata.similarity => mem (fst e) dispatchIds
       | _ => true
       end)
    HASH_ALGORITHMS = true.
Proof. vm_compute. reflexivity. Qed.

Lemma uiMode_similarity_own (registry : object HashAlgorithm)
    (toolId : jsstring) :
  match
    match get registry toolId with
    | Own config =>
        match uiMode config with
        | Some mode => mode
        | None => Metadata.standard
        end
    | Inherited _ | Undefined => Metadata.standard
    end
  with
  | Metadata.similarity => true
  | _ => false
  end = true ->
  exists cfg, In (toolId, cfg) registry /\ uiMode cfg = Some Metadata.similarity.
Proof.
  destruct (get registry toolId) as [cfg| |] eqn:G; try discriminate.
  apply get_Own_In in G. intros H. exists cfg. split; [exact G|].
  destruct (uiMode cfg) as [[]|]; try discriminate. reflexivity.
Qed.

(** X24: the page is in similarity mode, and so calls
    [compareSimilarityHashes], exactly for the six ids the [switch] of the
    comparator names; the [default] branch is never reached from the
    page. *)
Theorem similarity_mode_iff (toolId : jsstring) :
  Page.isSimilarity toolId = true <-> In toolId dispatchIds.
Proof.
  split.
  - intros H.
    destruct (uiMode_similarity_own HASH_ALGORITHMS toolId H)
      as (cfg & G & U).
    pose proof similarity_mode_checked as A. rewrite forallb_forall in A.
    specialize (A (toolId, cfg) G). cbn [fst snd] in A.
    rewrite U in A. exact (proj1 (mem_In _ _) A).
  - intros H. unfold dispatchIds, bespokeIds, minhashIds in H. simpl in H.
    decompose [or] H; try contradiction; subst toolId;
      vm_compute; reflexivity.
Qed.

Lemma firstn_incl {A} (n : nat) (l : list A) (x : A) :
  In x (firstn n l) -> In x l.
Proof.
  revert l. induction n as [|n IH]; intros [|y l] H; simpl in H;
    try contradiction.
  destruct H as [->|H]; [now left | right; now apply IH].
Qed.

(** X25: the related tools are at most six tools of [HASH_TOOLS], all of
    the category of the tool shown and none of them that tool. *)
Theorem relatedTools_spec (toolId : jsstring) :
  (List.length (Page.relatedTools toolId) <= 6)%nat
  /\ forall r : Tools.HashToolResource,
       In r (Page.relatedTools toolId) ->
       In r Tools.HASH_TOOLS
       /\ Tools.id r <> toolId
       /\ exists t, Page.tool toolId = Some t
                    /\ Tools.category r = Tools.category t.
Proof.
  unfold Page.relatedTools.
  destruct (Page.tool toolId) as [t|] eqn:F.
  - split; [apply firstn_le_length|].
    intros r Hr.
    destruct (proj1 (filter_In _ r Tools.HASH_TOOLS) (firstn_incl _ _ _ Hr))
      as [Hin C].
    apply andb_true_iff in C. destruct C as [C1 C2].
    apply str_eqb_eq in C1. apply negb_true_iff, str_eqb_neq in C2.
    unfold Page.tool in F.
    destruct (find_some _ Tools.HASH_TOOLS F) as [_ I].
    apply str_eqb_eq in I.
    split; [exact Hin|]. split; [congruence|].
    exists t. split; [reflexivity | exact C1].
  - split; [simpl; lia | intros r []].
Qed.

Lemma isHexUnit_base64 (c : codeunit) :
  Page.isHexUnit c = true -> Page.isBase64Unit c = true.
Proof.
  unfold Page.isHexUnit, Page.isBase64Unit. intros H.
  assert (R : (48 <= c <= 57 \/ 97 <= c <= 102 \/ 65 <= c <= 70)%N).
  { rewrite !orb_true_iff, !andb_true_iff, !N.leb_le in H. lia. }
  destruct (N.leb_spec 65 c), (N.leb_spec c 90), (N.leb_spec 97 c),
    (N.leb_spec c 122), (N.leb_spec 48 c), (N.leb_spec c 57);
    cbn [andb orb]; try reflexivity; lia.
Qed.

Lemma dropWhile_all (p : codeunit -> bool) (s : jsstring) :
  forallb p s = true -> dropWhile p s = [].
Proof.
  induction s as [|c s IH]; [reflexivity|]. simpl.
  intros H. apply andb_true_iff in H. destruct H as [Hc Hs].
  rewrite Hc. now apply IH.
Qed.

(** Whatever passes the hexadecimal test passes the base64 test. *)
Lemma isHexFormat_base64 (s : jsstring) :
  Page.isHexFormat s = true -> Page.isBase64Format s = true.
Proof.
  unfold Page.isHexFormat, Page.isBase64Format.
  destruct s as [|c s]; [discriminate|]. intros H.
  rewrite dropWhile_all; [reflexivity|].
  exact (forallb_weaken _ _ _ isHexUnit_base64 H).
Qed.

Lemma format_test (s : jsstring) :
  negb (Page.isHexFormat s) && negb (Page.isBase64Format s)
  = negb (Page.isBase64Format s).
Proof.
  destruct (Page.isHexFormat s) eqn:H; [|reflexivity].
  now rewrite (isHexFormat_base64 s H).
Qed.

Section VerifyFacts.
Variable HashResult : Type.
Variable hash : HashResult -> jsstring.

(** X26: for a result whose hash holds code units below 256,
    [verifyHash] reports a match exactly when there is a result, the
    expected hash is not blank, it passes the base64 test (which every
    hexadecimal string does) and it equals the hash of the result once
    both are lower-cased; so two base64 strings that differ in case only
    match. *)
Theorem verifyHash_match_iff
    (result : option HashResult) (expectedHash : jsstring) :
  (forall r, result = Some r -> latin1 (hash r)) ->
  (exists v, Page.verifyHash hash result expectedHash = Some v
             /\ Page.match_ v = true)
  <-> exists r, result = Some r
                /\ trim expectedHash <> []
                /\ Page.isBase64Format expectedHash = true
                /\ toLowerCase (hash r) = toLowerCase expectedHash.
Proof.
  intros _. unfold Page.verifyHash. rewrite format_test. split.
  - intros (v & E & M). destruct result as [r|]; [|discriminate].
    destruct (trim expectedHash) as [|c t] eqn:T; [discriminate|].
    exists r. split; [reflexivity|]. split; [discriminate|].
    destruct (Page.isBase64Format expectedHash); cbn [negb] in E.
    + injection E as <-. cbn [Page.match_] in M.
      apply str_eqb_eq in M. split; [reflexivity | exact M].
    + injection E as <-. discriminate.
  - intros (r & -> & T & B & L).
    destruct (trim expectedHash) as [|c t]; [contradiction|].
    rewrite B. cbn [negb]. eexists. split; [reflexivity|].
    cbn [Page.match_]. apply str_eqb_eq. exact L.
Qed.

(** X27: [verifyHash] gives the reason ["Invalid hash format (must be hex
    or base64)"] exactly when there is a result and the expected hash is
    not blank and fails the base64 test; the hexadecimal test decides
    nothing.  Leading or trailing white space is not trimmed off before
    the test. *)
Theorem verifyHash_invalid_iff
    (result : option HashResult) (expectedHash : jsstring) :
  (exists v, Page.verifyHash hash result expectedHash = Some v
             /\ Page.reason v
                = Some (lit "Invalid hash format (must be hex or base64)"))
  <-> result <> None
      /\ trim expectedHash <> []
      /\ Page.isBase64Format expectedHash = false.
Proof.
  unfold Page.verifyHash. rewrite format_test. split.
  - intros (v & E & R). destruct result as [r|]; [|discriminate].
    destruct (trim expectedHash) as [|c t] eqn:T; [discriminate|].
    split; [discriminate|]. split; [discriminate|].
    destruct (Page.isBase64Format expectedHash); [|reflexivity].
    cbn [negb] in E. injection E as <-. cbn [Page.reason] in R.
    destruct (str_eqb (toLowerCase (hash r)) (toLowerCase expectedHash));
      discriminate.
  - intros (Hr & T & B). destruct result as [r|]; [|contradiction].
    destruct (trim expectedHash) as [|c t]; [contradiction|].
    rewrite B. cbn [negb]. eexists. split; reflexivity.
Qed.

End VerifyFacts.

Lemma verifyHash_match_iff_witness :
  (forall r, Some (lit "QUJD") = Some r -> latin1 r)
  /\ ((exists v, Page.verifyHash (fun h : jsstring => h)
                   (Some (lit "QUJD")) (lit "qujd") = Some v
                 /\ Page.match_ v = true)
      <-> exists r, Some (lit "QUJD") = Some r
                    /\ trim (lit "qujd") <> []
                    /\ Page.isBase64Format (lit "qujd") = true
                    /\ toLowerCase r = toLowerCase (lit "qujd")).
Proof.
  assert (H : forall r, Some (lit "QUJD") = Some r -> latin1 r).
  { intros r E. injection E as <-. unfold latin1. repeat constructor. }
  split; [exact H|].
  exact (verifyHash_match_iff jsstring (fun h => h)
           (Some (lit "QUJD")) (lit "qujd") H).
Defined.

Example verifyHash_base64_case :
  Page.verifyHash (fun h : jsstring => h) (Some (lit "QUJD")) (lit "qujd")
  = Some {| Page.match_ := true; Page.reason := None |}.
Proof. reflexivity. Qed.

Example verifyHash_padded :
  Page.verifyHash (fun h : jsstring => h) (Some (lit "ab12")) (lit "ab12 ")
  = Some {| Page.match_ := false;
            Page.reason :=
              Some (lit "Invalid hash format (must be hex or base64)") |}.
Proof. reflexivity. Qed.

(** X28: for ["nilsimsa"] the label of the comparison card depends on the
    score of the SDK alone: high similarity from 52 up, moderate from -25
    to 51, low below. *)
Theorem nilsimsa_label (sdk : Sdk) (hash1 hash2 : jsstring) (s : Z) :
  nilsimsaCompare hash1 hash2 = Normal s ->
  exists m : Metrics,
    compareSimilarityHashes (lit "nilsimsa") hash1 hash2 = Fulfilled (Some m)
    /\ Page.resultLabel (Some m)
       = Some (if (52 <=? s)%Z then Page.High
               else if (-25 <=? s)%Z then Page.Moderate
               else Page.Low).
Proof.
  intros H. unfold compareSimilarityHashes, compareNilsimsa. simpl.
  rewrite H. eexists. split; [reflexivity|].
  unfold Page.resultLabel, bothMetrics.
  cbn [Similarity.similarity ds_similarity option_map]. f_equal.
  unfold Page.similarityLabel, Qle_bool, Page.literal_0_7, Page.literal_0_4,
    Qdiv, Qmult, Qplus, Qinv, inject_Z.
  cbn [Qnum Qden].
  destruct (Z.leb_spec 52 s), (Z.leb_spec (-25) s);
    repeat match goal with
           | |- context [(?a <=? ?b)%Z] => destruct (Z.leb_spec a b)
           end; cbn [negb]; try reflexivity; lia.
Qed.

Lemma nilsimsa_label_witness :
  @nilsimsaCompare (fixedSdk 0 0 0 51) (lit "aa") (lit "ab") = Normal 51%Z
  /\ exists m : Metrics,
       @compareSimilarityHashes (fixedSdk 0 0 0 51) (lit "nilsimsa")
         (lit "aa") (lit "ab") = Fulfilled (Some m)
       /\ Page.resultLabel (Some m) = Some Page.Moderate.
Proof.
  assert (H : @nilsimsaCompare (fixedSdk 0 0 0 51) (lit "aa") (lit "ab")
              = Normal 51%Z) by reflexivity.
  split; [exact H|].
  exact (nilsimsa_label (fixedSdk 0 0 0 51) (lit "aa") (lit "ab") 51%Z H).
Defined.

(* ================================================================== *)
(** * Signatures written as hexadecimal words *)
(* ================================================================== *)

Lemma hexDigit_hexChar (d : Z) :
  In d nibbles -> hexDigit (hexChar d) = Some d.
Proof.
  intros H. unfold nibbles in H. simpl in H.
  decompose [or] H; try contradiction; subst d; reflexivity.
Qed.

Lemma hexDigit_not_space (c : codeunit) (d : Z) :
  hexDigit c = Some d -> isWhiteSpace c = false.
Proof.
  intros H. destruct (isWhiteSpace c) eqn:W; [|reflexivity].
  rewrite (whiteSpace_not_hex c W) in H. discriminate.
Qed.

(** On a string that starts with two hexadecimal digits [parseInt] reads
    the longest prefix of digits: there is no blank, no sign and no [0x]
    to skip. *)
Lemma parseInt16_digits (c1 c2 : codeunit) (rest : jsstring) (d1 d2 : Z) :
  hexDigit c1 = Some d1 -> hexDigit c2 = Some d2 ->
  parseInt16 (c1 :: c2 :: rest) = Some (hexPrefix 0 (c1 :: c2 :: rest)).
Proof.
  intros H1 H2. unfold parseInt16.
  rewrite (dropWhile_head_false isWhiteSpace c1 _ (hexDigit_not_space c1 d1 H1)).
  destruct (N.eqb_spec c1 45) as [->|_]; [discriminate|].
  destruct (N.eqb_spec c1 43) as [->|_]; [discriminate|].
  destruct (N.eqb_spec c2 120) as [->|_]; [discriminate|].
  destruct (N.eqb_spec c2 88) as [->|_]; [discriminate|].
  rewrite andb_false_r. rewrite H1. f_equal.
  destruct (hexPrefix 0 (c1 :: c2 :: rest)); reflexivity.
Qed.

Lemma nibble_of_word (w : Z) (k : nat) :
  In ((w / 16 ^ Z.of_nat k) mod 16)%Z nibbles.
Proof.
  pose proof (Z.mod_pos_bound (w / 16 ^ Z.of_nat k) 16 eq_refl) as R.
  unfold nibbles. apply in_map_iff.
  exists (Z.to_nat ((w / 16 ^ Z.of_nat k) mod 16)). split; [lia|].
  apply in_seq. lia.
Qed.

Lemma hexPrefix_hex8 (w : Z) :
  (0 <= w < 2 ^ 32)%Z -> hexPrefix 0 (hex8 w) = w.
Proof.
  intros R. unfold hex8. cbn [seq List.map Nat.sub hexPrefix].
  rewrite !hexDigit_hexChar by apply nibble_of_word.
  cbn [Z.of_nat Pos.of_succ_nat Pos.succ].
  change (16 ^ 0)%Z with 1%Z. change (16 ^ 1)%Z with 16%Z.
  change (16 ^ 2)%Z with 256%Z. change (16 ^ 3)%Z with 4096%Z.
  change (16 ^ 4)%Z with 65536%Z. change (16 ^ 5)%Z with 1048576%Z.
  change (16 ^ 6)%Z with 16777216%Z. change (16 ^ 7)%Z with 268435456%Z.
  change (2 ^ 32)%Z with 4294967296%Z in R.
  Z.div_mod_to_equations. lia.
Qed.

Lemma parseInt16_hex8 (w : Z) :
  (0 <= w < 2 ^ 32)%Z -> toUint32 (parseInt16 (hex8 w)) = w.
Proof.
  intros R.
  assert (E : parseInt16 (hex8 w) = Some (hexPrefix 0 (hex8 w))).
  { unfold hex8. cbn [seq List.map].
    eapply parseInt16_digits; apply hexDigit_hexChar, nibble_of_word. }
  rewrite E, (hexPrefix_hex8 w R). simpl. apply Z.mod_small. exact R.
Qed.

Lemma hex8_length (w : Z) : List.length (hex8 w) = 8%nat.
Proof. reflexivity. Qed.

Lemma wordAt_head (w : Z) (rest : jsstring) :
  (0 <= w < 2 ^ 32)%Z -> wordAt (hex8 w ++ rest) 0 = w.
Proof.
  intros R. unfold wordAt, slice.
  change ((0 + 1) * 8 - 0 * 8)%nat with (List.length (hex8 w)).
  change (0 * 8)%nat with 0%nat. rewrite skipn_O.
  rewrite firstn_app, Nat.sub_diag, firstn_O, app_nil_r, firstn_all.
  exact (parseInt16_hex8 w R).
Qed.

Lemma wordAt_tail (w : Z) (rest : jsstring) (i : nat) :
  wordAt (hex8 w ++ rest) (S i) = wordAt rest i.
Proof.
  unfold wordAt, slice.
  replace ((S i + 1) * 8 - S i * 8)%nat with 8%nat by lia.
  replace ((i + 1) * 8 - i * 8)%nat with 8%nat by lia.
  replace (S i * 8)%nat with (List.length (hex8 w) + i * 8)%nat
    by (rewrite hex8_length; lia).
  rewrite skipn_app, (skipn_all2 (hex8 w)) by lia.
  replace (List.length (hex8 w) + i * 8 - List.length (hex8 w))%nat
    with (i * 8)%nat by lia.
  reflexivity.
Qed.

Lemma encodeSignature_length (sig : list Z) :
  List.length (encodeSignature sig) = (8 * List.length sig)%nat.
Proof.
  induction sig as [|w sig IH]; [reflexivity|].
  unfold encodeSignature in *. cbn [List.map List.concat].
  rewrite length_app, hex8_length, IH. cbn [List.length]. lia.
Qed.

Lemma words_of_encoding (sig : list Z) :
  Forall (fun w => (0 <= w < 2 ^ 32)%Z) sig ->
  List.map (wordAt (encodeSignature sig)) (seq 0 (List.length sig)) = sig.
Proof.
  induction 1 as [|w sig R _ IH]; [reflexivity|].
  unfold encodeSignature in *. cbn [List.map List.concat List.length seq].
  rewrite (wordAt_head w _ R). f_equal.
  rewrite <- seq_shift, map_map.
  rewrite <- IH at 2. apply map_ext. intros i. apply wordAt_tail.
Qed.

(** X29: [parseMinHashSignature] reads back any sequence of unsigned
    32-bit words written as 8 hexadecimal digits each, most significant
    digit first. *)
Theorem parseMinHashSignature_encode (sig : list Z) :
  Forall (fun w => (0 <= w < 2 ^ 32)%Z) sig ->
  parseMinHashSignature (encodeSignature sig) = Some sig.
Proof.
  intros R.
  assert (L : List.length (encodeSignature sig) = (List.length sig * 8)%nat)
    by (rewrite encodeSignature_length; lia).
  rewrite parseMinHashSignature_map by (rewrite L; apply Nat.Div0.mod_mul).
  rewrite L, Nat.div_mul by discriminate.
  now rewrite (words_of_encoding sig R).
Qed.

Lemma parseMinHashSignature_encode_witness :
  Forall (fun w => (0 <= w < 2 ^ 32)%Z) [1%Z; 4294967295%Z; 3735928559%Z]
  /\ parseMinHashSignature
       (encodeSignature [1%Z; 4294967295%Z; 3735928559%Z])
     = Some [1%Z; 4294967295%Z; 3735928559%Z].
Proof.
  assert (R : Forall (fun w => (0 <= w < 2 ^ 32)%Z)
                [1%Z; 4294967295%Z; 3735928559%Z]).
  { repeat constructor; vm_compute; discriminate. }
  split; [exact R|].
  exact (parseMinHashSignature_encode _ R).
Defined.

(* ================================================================== *)
(** * The generic distance as a distance of bit strings *)
(* ================================================================== *)

Lemma testbit_hex_digit (a d n : Z) :
  (0 <= d < 16)%Z -> (0 <= n)%Z ->
  Z.testbit (16 * a + d) n
  = if (n <? 4)%Z then Z.testbit d n else Z.testbit a (n - 4).
Proof.
  intros Hd Hn. destruct (Z.ltb_spec n 4).
  - rewrite <- (Z.mod_pow2_bits_low (16 * a + d) 4 n) by lia.
    f_equal. change (2 ^ 4)%Z with 16%Z.
    rewrite Z.add_comm, Z.mul_comm, Z.mod_add by lia.
    apply Z.mod_small. exact Hd.
  - replace n with ((n - 4) + 4)%Z at 1 by lia.
    rewrite <- Z.div_pow2_bits by lia. f_equal.
    change (2 ^ 4)%Z with 16%Z.
    rewrite Z.add_comm, Z.mul_comm, Z.div_add by lia.
    rewrite Z.div_small by exact Hd. reflexivity.
Qed.

Lemma nibbles_range (d : Z) : In d nibbles <-> (0 <= d < 16)%Z.
Proof.
  unfold nibbles. rewrite in_map_iff. split.
  - intros (k & <- & Hk). apply in_seq in Hk. lia.
  - intros R. exists (Z.to_nat d). split; [lia|]. apply in_seq. lia.
Qed.

Lemma nibble_lxor (d e : Z) :
  In d nibbles -> In e nibbles -> In (Z.lxor d e) nibbles.
Proof.
  intros Hd He.
  assert (A : forallb (fun d => forallb (fun e =>
                existsb (Z.eqb (Z.lxor d e)) nibbles) nibbles) nibbles = true)
    by (vm_compute; reflexivity).
  rewrite forallb_forall in A. specialize (A d Hd).
  rewrite forallb_forall in A. specialize (A e He).
  apply existsb_exists in A. destruct A as (x & Hx & E).
  apply Z.eqb_eq in E. now rewrite E.
Qed.

Lemma lxor_hex_digit (a b d e : Z) :
  In d nibbles -> In e nibbles ->
  Z.lxor (16 * a + d) (16 * b + e) = (16 * Z.lxor a b + Z.lxor d e)%Z.
Proof.
  intros Hd He. apply Z.bits_inj'. intros n Hn.
  pose proof (nibble_lxor d e Hd He) as Hx.
  apply nibbles_range in Hd, He, Hx.
  rewrite Z.lxor_spec, !testbit_hex_digit by assumption.
  destruct (n <? 4)%Z; now rewrite Z.lxor_spec.
Qed.

Lemma popcount_hex_digit (x y : Z) :
  (0 <= x)%Z -> In y nibbles ->
  popcount (16 * x + y) = (popcount x + lowNibbleBits y)%Z.
Proof.
  intros Hx Hy. unfold nibbles in Hy. simpl in Hy.
  destruct x as [|p|p]; [| |lia];
    decompose [or] Hy; try contradiction; subst y;
    try reflexivity;
    match goal with
    | |- popcount ?l = (_ + lowNibbleBits ?y)%Z =>
        let l' := eval cbv in l in
        let v := eval cbv in (lowNibbleBits y) in
        change l with l'; change (lowNibbleBits y) with v
    end;
    cbn [popcount popcountPos]; lia.
Qed.

Lemma popcount_lxor_step (a b d e : Z) :
  (0 <= a)%Z -> (0 <= b)%Z -> In d nibbles -> In e nibbles ->
  popcount (Z.lxor (16 * a + d) (16 * b + e))
  = (popcount (Z.lxor a b) + lowNibbleBits (Z.lxor d e))%Z.
Proof.
  intros Ha Hb Hd He. rewrite (lxor_hex_digit a b d e Hd He).
  apply popcount_hex_digit; [|exact (nibble_lxor d e Hd He)].
  apply Z.lxor_nonneg. lia.
Qed.

Lemma popcount_hexPrefix (hex1 : jsstring) :
  forall (hex2 : jsstring) (a b : Z),
    List.length hex1 = List.length hex2 ->
    isHexString hex1 = true -> isHexString hex2 = true ->
    (0 <= a)%Z -> (0 <= b)%Z ->
    popcount (Z.lxor (hexPrefix a hex1) (hexPrefix b hex2))
    = (popcount (Z.lxor a b) + nibbleDistance hex1 hex2)%Z.
Proof.
  induction hex1 as [|c1 h1 IH]; intros [|c2 h2] a b L X1 X2 Ha Hb;
    try discriminate L.
  - simpl. lia.
  - injection L as L. unfold isHexString in X1, X2. simpl in X1, X2.
    apply andb_true_iff in X1, X2.
    destruct X1 as [D1 X1], X2 as [D2 X2].
    cbn [hexPrefix nibbleDistance].
    destruct (hexDigit c1) as [d1|] eqn:E1; [|discriminate].
    destruct (hexDigit c2) as [d2|] eqn:E2; [|discriminate].
    pose proof (hexDigit_range c1 d1 E1) as R1.
    pose proof (hexDigit_range c2 d2 E2) as R2.
    rewrite (IH h2 (16 * a + d1)%Z (16 * b + d2)%Z L X1 X2) by lia.
    rewrite (nibble_hexDigit c1 d1 E1), (nibble_hexDigit c2 d2 E2).
    rewrite popcount_lxor_step; [lia|lia|lia| |]; apply nibbles_range; lia.
Qed.

(** X30: on two strings of hexadecimal digits of the same length the
    distance is the Hamming distance of the numbers they write: the number
    of ones in the xor of the two values. *)
Theorem hammingDistance_bits (hex1 hex2 : jsstring) :
  List.length hex1 = List.length hex2 ->
  isHexString hex1 = true ->
  isHexString hex2 = true ->
  hammingDistance hex1 hex2
  = popcount (Z.lxor (hexPrefix 0 hex1) (hexPrefix 0 hex2)).
Proof.
  intros L X1 X2.
  rewrite (hammingDistance_positions hex1 hex2 L).
  rewrite (popcount_hexPrefix hex1 hex2 0 0 L X1 X2) by lia.
  reflexivity.
Qed.

Lemma hammingDistance_bits_witness :
  List.length (lit "a3F0") = List.length (lit "19c4")
  /\ isHexString (lit "a3F0") = true
  /\ isHexString (lit "19c4") = true
  /\ hammingDistance (lit "a3F0") (lit "19c4")
     = popcount (Z.lxor 41968 6596).
Proof.
  assert (L : List.length (lit "a3F0") = List.length (lit "19c4"))
    by reflexivity.
  assert (X1 : isHexString (lit "a3F0") = true) by reflexivity.
  assert (X2 : isHexString (lit "19c4") = true) by reflexivity.
  split; [exact L|]. split; [exact X1|]. split; [exact X2|].
  exact (hammingDistance_bits (lit "a3F0") (lit "19c4") L X1 X2).
Defined.
